(** * Spot position / lab temperature analysis: a shallow embedding

    This development models [analyze_spot_and_temperature.py] and states
    the properties of its loaders and of its time alignment.

    Conventions of the embedding:
    - a Python exception is a value [Raise e] of the [result] type;
    - a [str] is a [string] (the ASCII fragment of Python's text);
    - a [float] is a binary64 value of [spec_float] (IEEE 754 arithmetic
      as specified in the Standard Library, rounding to nearest even);
    - a naive [datetime] is a record of its calendar fields, with the
      proleptic Gregorian arithmetic of Python's [datetime] module;
    - a pandas [DataFrame] is an ordered list of named columns. *)

From Stdlib Require Import ZArith Lia List Bool Ascii String.
From Stdlib Require Import Permutation Sorted SpecFloat.
Import ListNotations.

Open Scope Z_scope.

(** ** Exceptions and the error monad *)

Inductive exn : Type :=
| ValueError
| IndexError
| KeyError
| TypeError
| OverflowError.

Inductive result (A : Type) : Type :=
| Ok (a : A)
| Raise (e : exn).

Arguments Ok {A} a.
Arguments Raise {A} e.

Definition bind {A B : Type} (r : result A) (k : A -> result B) : result B :=
  match r with
  | Ok a => k a
  | Raise e => Raise e
  end.

Notation "x <- e ;; k" := (bind e (fun x => k))
  (at level 61, e at next level, right associativity).
Notation "' p <- e ;; k" := (bind e (fun p => k))
  (at level 61, p pattern, e at next level, right associativity).

(** [mapM f l] applies [f] from left to right and stops at the first
    exception, as [Series.apply] does. *)
Fixpoint mapM {A B : Type} (f : A -> result B) (l : list A) : result (list B) :=
  match l with
  | [] => Ok []
  | a :: l' => b <- f a ;; bs <- mapM f l' ;; Ok (b :: bs)
  end.


(** ** Python string operations *)

(** The texts of the files and their names are taken to be ASCII: a
    character is its code, below 128. *)
Module PyStr.

Definition code (c : ascii) : Z := Z.of_nat (nat_of_ascii c).

Definition is_digit (c : ascii) : bool := (48 <=? code c) && (code c <=? 57).

Definition digit_val (c : ascii) : Z := code c - 48.

(** [str.isspace] on the ASCII range: tab, LF, VT, FF, CR, the four
    separators 0x1c..0x1f and the space. *)
Definition is_space (c : ascii) : bool :=
  ((9 <=? code c) && (code c <=? 13))
  || ((28 <=? code c) && (code c <=? 31))
  || (code c =? 32).

Definition lower_char (c : ascii) : ascii :=
  if (65 <=? code c) && (code c <=? 90)
  then ascii_of_nat (nat_of_ascii c + 32)
  else c.

(** [s.lower()] *)
Fixpoint lower (s : string) : string :=
  match s with
  | EmptyString => EmptyString
  | String c s' => String (lower_char c) (lower s')
  end.

Fixpoint lstrip (s : string) : string :=
  match s with
  | EmptyString => EmptyString
  | String c s' => if is_space c then lstrip s' else s
  end.

(** [s.rstrip()]: a character is dropped when it is whitespace and
    nothing but whitespace follows it. *)
Fixpoint rstrip (s : string) : string :=
  match s with
  | EmptyString => EmptyString
  | String c s' =>
      match rstrip s' with
      | EmptyString => if is_space c then EmptyString else String c EmptyString
      | String c' r => String c (String c' r)
      end
  end.

(** [s.strip()] *)
Definition strip (s : string) : string := rstrip (lstrip s).

(** [s.replace(old, new)] for a one-character [old]. *)
Fixpoint replace (old : ascii) (new : string) (s : string) : string :=
  match s with
  | EmptyString => EmptyString
  | String c s' =>
      if Ascii.eqb c old then new ++ replace old new s'
      else String c (replace old new s')
  end.

(** [s.count(ch)] for a one-character [ch]. *)
Fixpoint count (ch : ascii) (s : string) : Z :=
  match s with
  | EmptyString => 0
  | String c s' => (if Ascii.eqb c ch then 1 else 0) + count ch s'
  end.

(** [s.find(ch)] for a one-character [ch]: the first index, or [-1]. *)
Fixpoint find (ch : ascii) (s : string) : Z :=
  match s with
  | EmptyString => -1
  | String c s' =>
      if Ascii.eqb c ch then 0
      else let i := find ch s' in if i <? 0 then -1 else i + 1
  end.

(** [s[:k]] and [s[k:]] for [0 <= k]. *)
Fixpoint take (k : nat) (s : string) : string :=
  match k, s with
  | S k', String c s' => String c (take k' s')
  | _, _ => EmptyString
  end.

Fixpoint drop (k : nat) (s : string) : string :=
  match k, s with
  | S k', String _ s' => drop k' s'
  | _, _ => s
  end.

Definition slice_to (k : Z) (s : string) : string := take (Z.to_nat k) s.
Definition slice_from (k : Z) (s : string) : string := drop (Z.to_nat k) s.

(** [needle in hay] *)
Fixpoint contains (needle hay : string) : bool :=
  prefix needle hay ||
  match hay with
  | EmptyString => false
  | String _ hay' => contains needle hay'
  end.

(** [int(ds)] for a run of ASCII digits, most significant first. *)
Fixpoint int_of_digits_acc (acc : Z) (ds : string) : Z :=
  match ds with
  | EmptyString => acc
  | String c ds' => int_of_digits_acc (10 * acc + digit_val c) ds'
  end.

Definition int_of_digits (ds : string) : Z := int_of_digits_acc 0 ds.

Fixpoint all_digits (s : string) : bool :=
  match s with
  | EmptyString => true
  | String c s' => is_digit c && all_digits s'
  end.

End PyStr.

(** ** The proleptic Gregorian calendar of Python's [datetime] *)

Module Calendar.

Definition _MAXORDINAL : Z := 3652059.
Definition _DI400Y : Z := 146097.
Definition _DI100Y : Z := 36524.
Definition _DI4Y : Z := 1461.

Definition _is_leap (year : Z) : bool :=
  (year mod 4 =? 0) && (negb (year mod 100 =? 0) || (year mod 400 =? 0)).

Definition _DAYS_IN_MONTH (month : Z) : Z :=
  match month with
  | 1 => 31 | 2 => 28 | 3 => 31 | 4 => 30 | 5 => 31 | 6 => 30
  | 7 => 31 | 8 => 31 | 9 => 30 | 10 => 31 | 11 => 30 | 12 => 31
  | _ => -1
  end.

Definition _DAYS_BEFORE_MONTH (month : Z) : Z :=
  match month with
  | 1 => 0 | 2 => 31 | 3 => 59 | 4 => 90 | 5 => 120 | 6 => 151
  | 7 => 181 | 8 => 212 | 9 => 243 | 10 => 273 | 11 => 304 | 12 => 334
  | _ => -1
  end.

Definition _days_before_year (year : Z) : Z :=
  let y := year - 1 in
  y * 365 + y / 4 - y / 100 + y / 400.

Definition _days_in_month (year month : Z) : Z :=
  if (month =? 2) && _is_leap year then 29 else _DAYS_IN_MONTH month.

Definition _days_before_month (year month : Z) : Z :=
  _DAYS_BEFORE_MONTH month + (if (2 <? month) && _is_leap year then 1 else 0).

Definition _ymd2ord (year month day : Z) : Z :=
  _days_before_year year + _days_before_month year month + day.

Definition _ord2ymd (n0 : Z) : Z * Z * Z :=
  let n := n0 - 1 in
  let n400 := n / _DI400Y in
  let n := n mod _DI400Y in
  let year := n400 * 400 + 1 in
  let n100 := n / _DI100Y in
  let n := n mod _DI100Y in
  let n4 := n / _DI4Y in
  let n := n mod _DI4Y in
  let n1 := n / 365 in
  let n := n mod 365 in
  let year := year + (n100 * 100 + n4 * 4 + n1) in
  if (n1 =? 4) || (n100 =? 4) then (year - 1, 12, 31)
  else
    let leapyear := (n1 =? 3) && (negb (n4 =? 24) || (n100 =? 3)) in
    let month := Z.shiftr (n + 50) 5 in
    let preceding :=
      _DAYS_BEFORE_MONTH month + (if (2 <? month) && leapyear then 1 else 0) in
    if n <? preceding then
      let month := month - 1 in
      let preceding :=
        preceding
        - (_DAYS_IN_MONTH month + (if (month =? 2) && leapyear then 1 else 0)) in
      (year, month, n - preceding + 1)
    else (year, month, n - preceding + 1).

End Calendar.

(** ** [datetime] and [timedelta] *)

(** A naive [datetime]; the microsecond field is always zero on the
    paths of this program and is left out. *)
Record datetime : Type := mk_datetime {
  year : Z;
  month : Z;
  day : Z;
  hour : Z;
  minute : Z;
  second : Z
}.

(** A normalised [timedelta]: [0 <= td_seconds < 86400]. *)
Record timedelta : Type := mk_timedelta {
  td_days : Z;
  td_seconds : Z
}.

Module DT.
Import Calendar.

(** The constructor [datetime(y, m, d, H, M, S)] with the range checks of
    [_check_date_fields] and [_check_time_fields]. *)
Definition new_datetime (y m d H M S : Z) : result datetime :=
  if negb ((1 <=? y) && (y <=? 9999)) then Raise ValueError
  else if negb ((1 <=? m) && (m <=? 12)) then Raise ValueError
  else if negb ((1 <=? d) && (d <=? _days_in_month y m)) then Raise ValueError
  else if negb ((0 <=? H) && (H <=? 23)) then Raise ValueError
  else if negb ((0 <=? M) && (M <=? 59)) then Raise ValueError
  else if negb ((0 <=? S) && (S <=? 59)) then Raise ValueError
  else Ok (mk_datetime y m d H M S).

Definition toordinal (dt : datetime) : Z :=
  _ymd2ord (year dt) (month dt) (day dt).

(** [timedelta(days, seconds=s)]: normalisation by [divmod] and the
    [-999999999 <= days <= 999999999] check. *)
Definition new_timedelta (days secs : Z) : result timedelta :=
  let d := days + secs / 86400 in
  let s := secs mod 86400 in
  if (Z.abs d >? 999999999) then Raise OverflowError
  else Ok (mk_timedelta d s).

(** [timedelta(minutes=n)] *)
Definition timedelta_minutes (n : Z) : result timedelta :=
  new_timedelta 0 (n * 60).

(** [datetime.__add__]: the sum is computed on (ordinal, seconds) and
    turned back into fields with [date.fromordinal]. *)
Definition add (self : datetime) (other : timedelta) : result datetime :=
  delta0 <- new_timedelta (toordinal self)
              (hour self * 3600 + minute self * 60 + second self) ;;
  delta <- new_timedelta (td_days delta0 + td_days other)
             (td_seconds delta0 + td_seconds other) ;;
  let hour := td_seconds delta / 3600 in
  let rem := td_seconds delta mod 3600 in
  let minute := rem / 60 in
  let second := rem mod 60 in
  if (0 <? td_days delta) && (td_days delta <=? _MAXORDINAL) then
    let '(y, m, d) := _ord2ymd (td_days delta) in
    Ok (mk_datetime y m d hour minute second)
  else Raise OverflowError.

(** Seconds elapsed since the midnight that starts ordinal day 0; the
    difference of two such values is what [datetime.__sub__] returns. *)
Definition total_seconds (dt : datetime) : Z :=
  toordinal dt * 86400 + hour dt * 3600 + minute dt * 60 + second dt.

(** [datetime.strptime(s, "%Y%m%d%H%M%S")] on the fixed-width text the
    caller builds.  The format compiles to the regular expression
    [(\d\d\d\d)(1[0-2]|0[1-9]|[1-9])(3[01]|[12]\d|0[1-9]|[1-9]| [1-9])
     (2[0-3]|[01]\d|\d)([0-5]\d|\d)(6[01]|[0-5]\d|\d)]
    and the whole text must be consumed.  On fourteen digits every field
    has to take its two-digit alternative (a shorter alternative leaves
    unconverted data, which is a [ValueError]), so the fields are read at
    fixed positions and checked against the two-digit alternatives; the
    values then go through the [datetime] constructor. *)
Definition strptime_YmdHMS (s : string) : result datetime :=
  if negb ((String.length s =? 14)%nat && PyStr.all_digits s)
  then Raise ValueError
  else
    let field (i k : nat) := PyStr.int_of_digits (substring i k s) in
    let y := field 0%nat 4%nat in
    let m := field 4%nat 2%nat in
    let d := field 6%nat 2%nat in
    let H := field 8%nat 2%nat in
    let M := field 10%nat 2%nat in
    let S := field 12%nat 2%nat in
    if negb ((1 <=? m) && (m <=? 12)) then Raise ValueError
    else if negb ((1 <=? d) && (d <=? 31)) then Raise ValueError
    else if negb (H <=? 23) then Raise ValueError
    else if negb (M <=? 59) then Raise ValueError
    else if negb (S <=? 61) then Raise ValueError
    else new_datetime y m d H M S.

End DT.

(** ** Spot file names *)

(** Regular-expression pieces used by [SPOT_FILENAME_PATTERN]. *)
Module Re.

(** Match the literal [lit] at the start of [s]; return the rest. *)
Fixpoint literal (lit s : string) : option string :=
  match lit, s with
  | EmptyString, _ => Some s
  | String a lit', String b s' =>
      if Ascii.eqb a b then literal lit' s' else None
  | String _ _, EmptyString => None
  end.

(** [\d{n}] as a capturing group: the digits and the rest. *)
Fixpoint digits (n : nat) (s : string) : option (string * string) :=
  match n, s with
  | O, _ => Some (EmptyString, s)
  | S n', String c s' =>
      if PyStr.is_digit c then
        match digits n' s' with
        | Some (ds, r) => Some (String c ds, r)
        | None => None
        end
      else None
  | S _, EmptyString => None
  end.

(** [$] without [re.MULTILINE]: the end of the text, or just before a
    newline that ends the text. *)
Definition at_end (s : string) : bool :=
  match s with
  | EmptyString => true
  | String c EmptyString => Ascii.eqb c "010"%char
  | _ => false
  end.

End Re.

(** [spot_position_(\d{8})_(\d{6})\.txt$] tried at the start of [s]. *)
Definition SPOT_FILENAME_PATTERN_match (s : string)
  : option (string * string) :=
  match Re.literal "spot_position_" s with
  | None => None
  | Some r1 =>
    match Re.digits 8 r1 with
    | None => None
    | Some (date_str, r2) =>
      match Re.literal "_" r2 with
      | None => None
      | Some r3 =>
        match Re.digits 6 r3 with
        | None => None
        | Some (time_str, r4) =>
          match Re.literal ".txt" r4 with
          | None => None
          | Some r5 => if Re.at_end r5 then Some (date_str, time_str) else None
          end
        end
      end
    end
  end.

(** [SPOT_FILENAME_PATTERN.search(name)]: the leftmost position at which
    the pattern matches; the result is [match.groups()]. *)
Fixpoint SPOT_FILENAME_PATTERN_search (name : string)
  : option (string * string) :=
  match SPOT_FILENAME_PATTERN_match name with
  | Some g => Some g
  | None =>
      match name with
      | EmptyString => None
      | String _ name' => SPOT_FILENAME_PATTERN_search name'
      end
  end.

(** [parse_spot_start_datetime(path)], on [path.name]. *)
Definition parse_spot_start_datetime (name : string) : result datetime :=
  match SPOT_FILENAME_PATTERN_search name with
  | None => Raise ValueError
  | Some (date_str, time_str) =>
      DT.strptime_YmdHMS (date_str ++ time_str)
  end.

(** ** Binary64 floating point *)

Module Float.

Definition prec : Z := 53.
Definition emax : Z := 1024.

Definition float : Type := spec_float.

Definition nan : float := S754_nan.
Definition zero : float := S754_zero false.
Definition infinity (neg : bool) : float := S754_infinity neg.

Definition add : float -> float -> float := SFadd prec emax.
Definition sub : float -> float -> float := SFsub prec emax.
Definition mul : float -> float -> float := SFmul prec emax.

Definition is_nan (x : float) : bool :=
  match x with S754_nan => true | _ => false end.


(** The binary64 value nearest to [(-1)^neg * m * 10^e10], ties to even:
    what a correctly rounded decimal-to-binary conversion returns. *)
Definition of_decimal (neg : bool) (m : Z) (e10 : Z) : float :=
  match m with
  | Z0 => S754_zero neg
  | Zpos p =>
      if 0 <=? e10
      then binary_round prec emax neg (p * Z.to_pos (10 ^ e10)) 0
      else SFdiv prec emax (S754_finite neg p 0)
                           (S754_finite false (Z.to_pos (10 ^ (- e10))) 0)
  | Zneg _ => S754_nan
  end.

(** The integer part of a finite value, towards zero ([int(x)]). *)
Definition trunc (x : float) : option Z :=
  match x with
  | S754_zero _ => Some 0
  | S754_finite s m e =>
      let a := Z.shiftl (Zpos m) e in
      Some (if s then - a else a)
  | S754_infinity _ | S754_nan => None
  end.

End Float.

Definition float : Type := Float.float.

(** ** Python's numeric literals: [float(text)] and [int(text)] *)

Module PyNum.
Import PyStr.

(** [digit (["_"] digit)*] after its first digit: the digits without the
    underscores, and the rest of the text. *)
Fixpoint digitpart_tail (s : string) : string * string :=
  match s with
  | EmptyString => (EmptyString, EmptyString)
  | String c s' =>
      if is_digit c then
        let '(ds, r) := digitpart_tail s' in (String c ds, r)
      else if Ascii.eqb c "_"%char then
        match s' with
        | String d s'' =>
            if is_digit d then
              let '(ds, r) := digitpart_tail s'' in (String d ds, r)
            else (EmptyString, s)
        | EmptyString => (EmptyString, s)
        end
      else (EmptyString, s)
  end.

Definition digitpart (s : string) : option (string * string) :=
  match s with
  | String c s' =>
      if is_digit c then
        let '(ds, r) := digitpart_tail s' in Some (String c ds, r)
      else None
  | EmptyString => None
  end.

Definition opt_digitpart (s : string) : string * string :=
  match digitpart s with
  | Some p => p
  | None => (EmptyString, s)
  end.

(** An optional sign: [true] for "-". *)
Definition sign (s : string) : bool * string :=
  match s with
  | String c s' =>
      if Ascii.eqb c "-"%char then (true, s')
      else if Ascii.eqb c "+"%char then (false, s')
      else (false, s)
  | EmptyString => (false, s)
  end.

(** [("e" | "E") [sign] digitpart], when present. *)
Definition exponent (s : string) : option (Z * string) :=
  match s with
  | String c s' =>
      if Ascii.eqb (lower_char c) "e"%char then
        let '(neg, r) := sign s' in
        match digitpart r with
        | Some (ds, r') =>
            let e := int_of_digits ds in
            Some (if neg then - e else e, r')
        | None => None
        end
      else Some (0, s)
  | EmptyString => Some (0, s)
  end.

(** [floatnumber]: mantissa digits and decimal exponent of the whole
    text, or [None] when the text is not a decimal literal. *)
Definition floatnumber (s : string) : option (Z * Z) :=
  let '(ip, r1) := opt_digitpart s in
  let '(fp, r2) :=
    match r1 with
    | String c r =>
        if Ascii.eqb c "."%char then opt_digitpart r else (EmptyString, r1)
    | EmptyString => (EmptyString, r1)
    end in
  if ((String.length ip =? 0) && (String.length fp =? 0))%nat then None
  else
    match exponent r2 with
    | Some (e, EmptyString) =>
        Some (int_of_digits (ip ++ fp), e - Z.of_nat (String.length fp))
    | _ => None
    end.

(** The whitespace that [float] and [int] skip around an ASCII text:
    tab, LF, VT, FF, CR and the space.  The separators 0x1c..0x1f,
    which [str.strip] removes, are not skipped: [float] of such a text
    raises. *)
Definition is_c_space (c : ascii) : bool :=
  ((9 <=? code c) && (code c <=? 13)) || (code c =? 32).

Fixpoint skip_leading (s : string) : string :=
  match s with
  | EmptyString => EmptyString
  | String c s' => if is_c_space c then skip_leading s' else s
  end.

Fixpoint skip_trailing (s : string) : string :=
  match s with
  | EmptyString => EmptyString
  | String c s' =>
      match skip_trailing s' with
      | EmptyString => if is_c_space c then EmptyString else String c EmptyString
      | String c' r => String c (String c' r)
      end
  end.

Definition skip_space (s : string) : string := skip_trailing (skip_leading s).

(** [float(text)]: the whitespace around the text is skipped; an
    optional sign is followed by a decimal literal, or by [inf],
    [infinity] or [nan] in any letter case.  The conversion is correctly
    rounded. *)
Definition py_float (text : string) : result float :=
  let '(neg, body) := sign (skip_space text) in
  let word := lower body in
  if (word =? "inf")%string || (word =? "infinity")%string
  then Ok (Float.infinity neg)
  else if (word =? "nan")%string then Ok Float.nan
  else
    match floatnumber body with
    | Some (m, e10) => Ok (Float.of_decimal neg m e10)
    | None => Raise ValueError
    end.

(** [int(text)] in base ten, with the same whitespace skipped. *)
Definition py_int (text : string) : result Z :=
  let '(neg, body) := sign (skip_space text) in
  match digitpart body with
  | Some (ds, EmptyString) =>
      let n := int_of_digits ds in Ok (if neg then - n else n)
  | _ => Raise ValueError
  end.

End PyNum.

(** ** Series and data frames *)

(** A column, by dtype.  In an [Object] column a missing cell is [None]
    (pandas stores the float NaN there); [Datetimes] holds Python
    [datetime] objects; [Timestamps] holds instants on pandas' integer
    time axis, [None] being NaT. *)
Inductive Series : Type :=
| Int64 (l : list Z)
| Float64 (l : list float)
| Object (l : list (option string))
| Datetimes (l : list datetime)
| Timestamps (l : list (option Z)).

(** The scalar that [Series.apply] hands to its function. *)
Inductive value : Type :=
| VInt (z : Z)
| VFloat (x : float)
| VStr (s : string)
| VDatetime (t : datetime)
| VTimestamp (t : option Z).

Definition items (s : Series) : list value :=
  match s with
  | Int64 l => map VInt l
  | Float64 l => map VFloat l
  | Object l =>
      map (fun c => match c with Some s => VStr s | None => VFloat Float.nan end) l
  | Datetimes l => map VDatetime l
  | Timestamps l => map VTimestamp l
  end.

Definition DataFrame : Type := list (string * Series).

(** [df.columns] *)
Definition columns (df : DataFrame) : list string := map fst df.

(** [df[name]] *)
Fixpoint df_get (name : string) (df : DataFrame) : result Series :=
  match df with
  | [] => Raise KeyError
  | (n, s) :: df' => if (n =? name)%string then Ok s else df_get name df'
  end.

(** [df[name] = s]: replaces the column in place, or appends it. *)
Fixpoint df_set (name : string) (s : Series) (df : DataFrame) : DataFrame :=
  match df with
  | [] => [(name, s)]
  | (n, s0) :: df' =>
      if (n =? name)%string then (n, s) :: df'
      else (n, s0) :: df_set name s df'
  end.

Definition mem (x : string) (l : list string) : bool :=
  existsb (String.eqb x) l.

(** [pd.isna(value)] on a scalar. *)
Definition isna (v : value) : bool :=
  match v with
  | VFloat x => Float.is_nan x
  | VTimestamp None => true
  | _ => false
  end.

(** ** The numeric normaliser *)

(** The text fix-up of [clean_number]: lines 61 to 64. *)
Definition clean_text (value : string) : string :=
  let text := PyStr.replace ","%char "." (PyStr.strip value) in
  if PyStr.count "."%char text >? 1 then
    let first_dot := PyStr.find "."%char text in
    (PyStr.slice_to (first_dot + 1) text
     ++ PyStr.replace "."%char "" (PyStr.slice_from (first_dot + 1) text))%string
  else text.

(** [clean_number(value)].  For a scalar that is already a number,
    [str(value)] has neither a comma nor a second dot and
    [float(str(value))] gives the number back (correctly rounded for an
    integer), so only a text token goes through the fix-up. *)
Definition clean_number (value : value) : result float :=
  if isna value then Ok Float.nan
  else
    match value with
    | VStr s => PyNum.py_float (clean_text s)
    | VFloat x => Ok x
    | VInt z => Ok (Float.of_decimal (z <? 0) (Z.abs z) 0)
    | VDatetime _ | VTimestamp _ => Raise ValueError
    end.

(** ** The spot log loader *)

Definition required_columns : list string :=
  ["frame_index"; "center_x_mm"; "center_y_mm";
   "minor_axis_mm"; "major_axis_mm"; "angle_deg"]%string.

(** [series.astype(int)]: integers stay, finite floats are truncated,
    text goes through [int]; NaN and infinities are refused.  (The
    64-bit range of the result is not modelled.) *)
Definition astype_int (s : Series) : result (list Z) :=
  match s with
  | Int64 l => Ok l
  | Float64 l =>
      mapM (fun x => match Float.trunc x with
                     | Some z => Ok z
                     | None => Raise ValueError
                     end) l
  | Object l =>
      mapM (fun c => match c with
                     | Some s => PyNum.py_int s
                     | None => Raise ValueError
                     end) l
  | Datetimes _ | Timestamps _ => Raise TypeError
  end.

(** [df[column] = df[column].apply(clean_number)] *)
Definition apply_clean_number (column : string) (df : DataFrame)
  : result DataFrame :=
  s <- df_get column df ;;
  xs <- mapM clean_number (items s) ;;
  Ok (df_set column (Float64 xs) df).

Fixpoint for_each {A S : Type} (f : A -> S -> result S) (l : list A) (st : S)
  : result S :=
  match l with
  | [] => Ok st
  | a :: l' => st' <- f a st ;; for_each f l' st'
  end.

(** [df.at[0, name]] on a float column with the default integer index. *)
Definition at0 (name : string) (df : DataFrame) : result float :=
  s <- df_get name df ;;
  match s with
  | Float64 (x :: _) => Ok x
  | Float64 [] => Raise KeyError
  | _ => Raise TypeError
  end.

Definition float_column (name : string) (df : DataFrame) : result (list float) :=
  s <- df_get name df ;;
  match s with
  | Float64 l => Ok l
  | _ => Raise TypeError
  end.

(** [(x - reference_x) ** 2 + (y - reference_y) ** 2] on one row; the
    power with exponent 2 is the product of the operand with itself. *)
Definition r_squared (reference_x reference_y x y : float) : float :=
  let dx := Float.sub x reference_x in
  let dy := Float.sub y reference_y in
  Float.add (Float.mul dx dx) (Float.mul dy dy).

Fixpoint map2 {A B C : Type} (f : A -> B -> C) (la : list A) (lb : list B)
  : list C :=
  match la, lb with
  | a :: la', b :: lb' => f a b :: map2 f la' lb'
  | _, _ => []
  end.

(** [load_spot_positions(spot_path)]: [name] is [spot_path.name] and
    [spot_df] is the table that [read_csv] returned for the file. *)
Definition load_spot_positions (name : string) (spot_df : DataFrame)
  : result DataFrame :=
  start_dt <- parse_spot_start_datetime name ;;
  let missing_columns :=
    filter (fun col => negb (mem col (columns spot_df))) required_columns in
  match missing_columns with
  | _ :: _ => Raise ValueError
  | [] =>
      fi <- df_get "frame_index" spot_df ;;
      frames <- astype_int fi ;;
      let spot_df := df_set "frame_index" (Int64 frames) spot_df in
      spot_df <- for_each apply_clean_number (tl required_columns) spot_df ;;
      reference_x <- at0 "center_x_mm" spot_df ;;
      reference_y <- at0 "center_y_mm" spot_df ;;
      stamps <- mapM (fun frame =>
                        td <- DT.timedelta_minutes frame ;;
                        DT.add start_dt td) frames ;;
      let spot_df := df_set "timestamp" (Datetimes stamps) spot_df in
      xs <- float_column "center_x_mm" spot_df ;;
      ys <- float_column "center_y_mm" spot_df ;;
      let spot_df :=
        df_set "r_squared_shift_mm2"
          (Float64 (map2 (r_squared reference_x reference_y) xs ys)) spot_df in
      Ok spot_df
  end.

(** ** The temperature log loader *)

(** [pd.api.types.is_numeric_dtype(series)] *)
Definition is_numeric_dtype (s : Series) : bool :=
  match s with
  | Int64 _ | Float64 _ => true
  | Object _ | Datetimes _ | Timestamps _ => false
  end.

Definition timestamp_like (col : string) : bool :=
  PyStr.contains "time" (PyStr.lower col)
  || PyStr.contains "date" (PyStr.lower col)
  || (PyStr.lower col =? "timestamp")%string.

Definition temperature_like (col : string) : bool :=
  existsb (fun key => PyStr.contains key (PyStr.lower col))
          ["temp"; "deg"; "celsius"]%string.

(** [_identify_temperature_columns(df)] *)
Definition _identify_temperature_columns (df : DataFrame)
  : result (string * string) :=
  let timestamp_candidates := filter timestamp_like (columns df) in
  timestamp_candidates <-
    match timestamp_candidates with
    | [] =>
        match columns df with
        | [] => Raise IndexError
        | col0 :: _ => Ok [col0]
        end
    | _ :: _ => Ok timestamp_candidates
    end ;;
  let value_candidates :=
    filter (fun col => negb (mem col timestamp_candidates)
                       && temperature_like col) (columns df) in
  let value_candidates :=
    match value_candidates with
    | [] =>
        filter (fun col => negb (mem col timestamp_candidates)
                           && match df_get col df with
                              | Ok s => is_numeric_dtype s
                              | Raise _ => false
                              end) (columns df)
    | _ :: _ => value_candidates
    end in
  match timestamp_candidates, value_candidates with
  | t :: _, v :: _ => Ok (t, v)
  | _, _ => Raise ValueError
  end.

(** [df.sort_values(by)] on rows with key [key]: ascending.  The
    default sort of pandas (quicksort) is an insertion sort on short
    inputs, as here, and is not stable on longer ones: there the order
    among rows with equal keys is not fixed.  The properties below rely
    on the result being an ascending rearrangement of the rows, and on
    the order among equal keys only for inputs of two rows. *)
Section SortValues.
Context {A : Type}.
Variable key : A -> Z.

Fixpoint insert_row (a : A) (l : list A) : list A :=
  match l with
  | [] => [a]
  | b :: l' => if key b <? key a then b :: insert_row a l' else a :: l
  end.

Fixpoint sort_values (l : list A) : list A :=
  match l with
  | [] => []
  | a :: l' => insert_row a (sort_values l')
  end.

End SortValues.

Section TemperatureLoader.

(** pandas' conversion of one non-missing cell of a column to an
    instant; the column is an argument because the format is inferred
    from it.  [None] stands for a cell that cannot be converted. *)
Variable datetime_of_scalar : Series -> value -> option Z.

(** pandas' conversion of a text cell to a number, [None] when the text
    is not numeric. *)
Variable float_of_text : string -> option float.

(** [pd.to_datetime(series)], with the default [errors="raise"]. *)
Definition to_datetime (s : Series) : result (list (option Z)) :=
  mapM (fun v =>
          if isna v then Ok None
          else match datetime_of_scalar s v with
               | Some t => Ok (Some t)
               | None => Raise ValueError
               end) (items s).

(** [pd.to_numeric(series, errors="coerce")], the values as floats. *)
Definition to_numeric_coerce (s : Series) : result (list float) :=
  match s with
  | Int64 l => Ok (map (fun z => Float.of_decimal (z <? 0) (Z.abs z) 0) l)
  | Float64 l => Ok l
  | Object l =>
      Ok (map (fun c => match c with
                        | None => Float.nan
                        | Some s => match float_of_text s with
                                    | Some x => x
                                    | None => Float.nan
                                    end
                        end) l)
  | Datetimes _ | Timestamps _ => Raise TypeError
  end.

(** [df.dropna(subset=["timestamp", "temperature_C"])] on the rows of
    these two columns. *)
Fixpoint dropna (rows : list (option Z * float)) : list (Z * float) :=
  match rows with
  | [] => []
  | (Some t, x) :: rows' =>
      if Float.is_nan x then dropna rows' else (t, x) :: dropna rows'
  | (None, _) :: rows' => dropna rows'
  end.

Definition timestamps_column (name : string) (df : DataFrame)
  : result (list (option Z)) :=
  s <- df_get name df ;;
  match s with
  | Timestamps l => Ok l
  | _ => Raise TypeError
  end.

(** [load_temperature_data(temp_path)] on the table [temp_df] that
    [read_csv] returned.  The result is given by the rows of its
    [timestamp] and [temperature_C] columns, in order. *)
Definition load_temperature_data (temp_df : DataFrame)
  : result (list (Z * float)) :=
  ' (timestamp_col, temperature_col) <- _identify_temperature_columns temp_df ;;
  ts_series <- df_get timestamp_col temp_df ;;
  ts <- to_datetime ts_series ;;
  let temp_df := df_set "timestamp" (Timestamps ts) temp_df in
  value_series <- df_get temperature_col temp_df ;;
  xs <- to_numeric_coerce value_series ;;
  let temp_df := df_set "temperature_C" (Float64 xs) temp_df in
  stamps <- timestamps_column "timestamp" temp_df ;;
  temps <- float_column "temperature_C" temp_df ;;
  Ok (sort_values fst (dropna (combine stamps temps))).

End TemperatureLoader.

(** ** The time aligner *)

Section MergeAsof.
Context {A B : Type}.

Fixpoint keys_sorted {X : Type} (l : list (Z * X)) : bool :=
  match l with
  | [] => true
  | a :: l' =>
      match l' with
      | [] => true
      | b :: _ => (fst a <=? fst b) && keys_sorted l'
      end
  end.

(** The backward search: the last right row whose key is at most [t]. *)
Fixpoint scan_backward (t : Z) (right : list (Z * B)) (last : option (Z * B))
  : option (Z * B) :=
  match right with
  | [] => last
  | r :: right' =>
      if fst r <=? t then scan_backward t right' (Some r) else last
  end.

Definition asof_backward (t : Z) (right : list (Z * B)) : option (Z * B) :=
  scan_backward t right None.

(** The forward search: the first right row whose key is at least [t]. *)
Fixpoint asof_forward (t : Z) (right : list (Z * B)) : option (Z * B) :=
  match right with
  | [] => None
  | r :: right' => if t <=? fst r then Some r else asof_forward t right'
  end.

(** [direction="nearest"]: of the two, the one at the smaller distance;
    the backward row wins a tie. *)
Definition asof_nearest (t : Z) (right : list (Z * B)) : option (Z * B) :=
  match asof_backward t right, asof_forward t right with
  | Some b, Some f =>
      if (t - fst b) <=? (fst f - t) then Some b else Some f
  | Some b, None => Some b
  | None, Some f => Some f
  | None, None => None
  end.

(** [pd.merge_asof(left, right, on="timestamp", direction="nearest")]:
    a left join that keeps every left row, in order.  Each output row is
    the left row with the matched right row ([None]: the right columns
    are filled with NaN).  Unsorted keys are refused. *)
Definition merge_asof (left : list (Z * A)) (right : list (Z * B))
  : result (list ((Z * A) * option (Z * B))) :=
  if negb (keys_sorted left) then Raise ValueError
  else if negb (keys_sorted right) then Raise ValueError
  else Ok (map (fun l => (l, asof_nearest (fst l) right)) left).

(** The [merged] table of [plot_r2_vs_temperature], lines 196 to 201. *)
Definition plot_r2_vs_temperature_merged
  (temp_df : list (Z * B)) (spot_df : list (Z * A))
  : result (list ((Z * A) * option (Z * B))) :=
  merge_asof (sort_values fst spot_df) (sort_values fst temp_df).

End MergeAsof.

(** * Terms of the specification *)

(** ** File names and the acquisition start *)

(** The text [spot_position_<date_str>_<time_str>.txt]. *)
Definition pattern_text (date_str time_str : string) : string :=
  ("spot_position_" ++ date_str ++ "_" ++ time_str ++ ".txt")%string.

Definition eight_six_digits (date_str time_str : string) : Prop :=
  String.length date_str = 8%nat /\ PyStr.all_digits date_str = true
  /\ String.length time_str = 6%nat /\ PyStr.all_digits time_str = true.

(** [name] ends with [spot_position_<date_str>_<time_str>.txt], eight and
    six digits, possibly followed by one final newline: the texts that
    the pattern accepts, with the two groups it captures. *)
Definition matches_pattern (name date_str time_str : string) : Prop :=
  exists pre nl : string,
    name = (pre ++ pattern_text date_str time_str ++ nl)%string
    /\ eight_six_digits date_str time_str
    /\ (nl = EmptyString \/ nl = String "010"%char EmptyString).

(** The calendar fields that the two captured groups denote. *)
Definition date_fields (date_str : string) : Z * Z * Z :=
  (PyStr.int_of_digits (substring 0 4 date_str),
   PyStr.int_of_digits (substring 4 2 date_str),
   PyStr.int_of_digits (substring 6 2 date_str)).

Definition time_fields (time_str : string) : Z * Z * Z :=
  (PyStr.int_of_digits (substring 0 2 time_str),
   PyStr.int_of_digits (substring 2 2 time_str),
   PyStr.int_of_digits (substring 4 2 time_str)).

(** The digits denote a date of the calendar and a time of day. *)
Definition valid_fields (y m d H M S : Z) : bool :=
  (1 <=? y) && (1 <=? m) && (m <=? 12)
  && (1 <=? d) && (d <=? Calendar._days_in_month y m)
  && (H <=? 23) && (M <=? 59) && (S <=? 59).

Definition valid_start (date_str time_str : string) : bool :=
  let '(y, m, d) := date_fields date_str in
  let '(H, M, Sec) := time_fields time_str in
  valid_fields y m d H M Sec.

(** The instant that the digits encode. *)
Definition start_instant (date_str time_str : string) : datetime :=
  let '(y, m, d) := date_fields date_str in
  let '(H, M, Sec) := time_fields time_str in
  mk_datetime y m d H M Sec.

(** Modelled from the spec: formatting an instant back into the 8-digit
    date component and the 6-digit time component of a file name (the
    source has no formatting function); each field is written in decimal,
    zero-padded to its width. *)
Definition digit_char (n : Z) : ascii := ascii_of_nat (Z.to_nat (48 + n)).

Fixpoint zfill (width : nat) (n : Z) : string :=
  match width with
  | O => EmptyString
  | S w => String (digit_char ((n / 10 ^ Z.of_nat w) mod 10)) (zfill w n)
  end.

Definition format_date (dt : datetime) : string :=
  (zfill 4 (year dt) ++ zfill 2 (month dt) ++ zfill 2 (day dt))%string.

Definition format_time (dt : datetime) : string :=
  (zfill 2 (hour dt) ++ zfill 2 (minute dt) ++ zfill 2 (second dt))%string.

(** The checks of [strptime_YmdHMS] on the six field values. *)
Definition checked_fields (y m d H M S : Z) : result datetime :=
  if negb ((1 <=? m) && (m <=? 12)) then Raise ValueError
  else if negb ((1 <=? d) && (d <=? 31)) then Raise ValueError
  else if negb (H <=? 23) then Raise ValueError
  else if negb (M <=? 59) then Raise ValueError
  else if negb (S <=? 61) then Raise ValueError
  else DT.new_datetime y m d H M S.

(** ** The numeric normaliser *)

(** The normalisation in the words of the specification: every comma
    becomes a dot; if the text then holds more than one dot, the first
    dot stays and every later dot is removed. *)
Module NormalizerSpec.

Definition is_dot (c : ascii) : bool := Ascii.eqb c "."%char.

Fixpoint commas_to_dots (s : string) : string :=
  match s with
  | EmptyString => EmptyString
  | String c s' =>
      String (if Ascii.eqb c ","%char then "."%char else c) (commas_to_dots s')
  end.

Fixpoint number_of_dots (s : string) : nat :=
  match s with
  | EmptyString => O
  | String c s' => if is_dot c then S (number_of_dots s') else number_of_dots s'
  end.

Fixpoint remove_dots (s : string) : string :=
  match s with
  | EmptyString => EmptyString
  | String c s' => if is_dot c then remove_dots s' else String c (remove_dots s')
  end.

Fixpoint keep_first_dot (s : string) : string :=
  match s with
  | EmptyString => EmptyString
  | String c s' =>
      if is_dot c then String c (remove_dots s')
      else String c (keep_first_dot s')
  end.

Definition normalize (token : string) : string :=
  let text := commas_to_dots token in
  if (1 <? number_of_dots text)%nat then keep_first_dot text else text.

End NormalizerSpec.

(** Text made of whitespace only. *)
Fixpoint all_space (s : string) : bool :=
  match s with
  | EmptyString => true
  | String c s' => PyStr.is_space c && all_space s'
  end.

(** The normalisation without its test on the number of dots. *)
Definition fix_up (s : string) : string := 
  NormalizerSpec.keep_first_dot (NormalizerSpec.commas_to_dots s).

(** ** The calendar *)

(** The month and day that [_ord2ymd] finds for the day [n] (from 0) of
    a year, leap or not. *)
Definition month_day (leapyear : bool) (n : Z) : Z * Z :=
  let month := Z.shiftr (n + 50) 5 in
  let preceding :=
    Calendar._DAYS_BEFORE_MONTH month + (if (2 <? month) && leapyear then 1 else 0) in
  if n <? preceding then
    let month := month - 1 in
    let preceding :=
      preceding
      - (Calendar._DAYS_IN_MONTH month + (if (month =? 2) && leapyear then 1 else 0)) in
    (month, n - preceding + 1)
  else (month, n - preceding + 1).

Definition month_day_ok (leapyear : bool) (n : Z) : bool :=
  let '(m, d) := month_day leapyear n in
  (1 <=? m) && (m <=? 12) && (1 <=? d)
  && (Calendar._DAYS_BEFORE_MONTH m + (if (2 <? m) && leapyear then 1 else 0) + d
      =? n + 1).

(** ** Column inference *)

(** Column inference in the words of the specification. *)
Module ColumnInferenceSpec.

Definition numeric_column (df : DataFrame) (col : string) : bool :=
  match df_get col df with
  | Ok s => is_numeric_dtype s
  | Raise _ => false
  end.

(** The timestamp column: the first column with a timestamp-like name,
    otherwise the first column. *)
Definition timestamp_column (df : DataFrame) : option string :=
  match find timestamp_like (columns df) with
  | Some col => Some col
  | None => hd_error (columns df)
  end.

(** The temperature column: among the columns other than the timestamp
    column, the first with a temperature-like name, otherwise the first
    of numeric type. *)
Definition temperature_column (df : DataFrame) (timestamp_col : string)
  : option string :=
  let others :=
    filter (fun col => negb (col =? timestamp_col)%string) (columns df) in
  match find temperature_like others with
  | Some col => Some col
  | None => find (numeric_column df) others
  end.

Definition identify (df : DataFrame) : option (string * string) :=
  match timestamp_column df with
  | None => None
  | Some t =>
      match temperature_column df t with
      | None => None
      | Some v => Some (t, v)
      end
  end.

(** The amended reading: the temperature column is looked for among the
    columns that are not timestamp candidates, the candidates being
    every column with a timestamp-like name, or the first column alone
    when there is none. *)
Definition timestamp_candidates (df : DataFrame) : list string :=
  match filter timestamp_like (columns df) with
  | [] => firstn 1 (columns df)
  | l => l
  end.

Definition temperature_column_amended (df : DataFrame) : option string :=
  let others :=
    filter (fun col => negb (mem col (timestamp_candidates df))) (columns df) in
  match find temperature_like others with
  | Some col => Some col
  | None => find (numeric_column df) others
  end.

Definition identify_amended (df : DataFrame) : option (string * string) :=
  match timestamp_column df with
  | None => None
  | Some t =>
      match temperature_column_amended df with
      | None => None
      | Some v => Some (t, v)
      end
  end.

End ColumnInferenceSpec.

(** ** Sorted rows *)

Definition key_le {A : Type} (key : A -> Z) (a b : A) : Prop :=
  key a <= key b.

(** Rows that share a timestamp are one and the same row. *)
Definition timestamp_determines_row {X : Type} (l : list (Z * X)) : Prop :=
  forall a b, In a l -> In b l -> fst a = fst b -> a = b.

(** ** Conversions and tables for the examples *)

(** One conversion that pandas performs on a timestamp column: text of
    the form [YYYY-MM-DD HH:MM:SS], as seconds on the time line of
    [DT.total_seconds].  It serves as the instance in the examples. *)
Definition iso_datetime_of_scalar (_ : Series) (v : value) : option Z :=
  match v with
  | VStr s =>
      let field (i k : nat) := substring i k s in
      if (String.length s =? 19)%nat
         && PyStr.all_digits (field 0%nat 4%nat ++ field 5%nat 2%nat ++ field 8%nat 2%nat
                              ++ field 11%nat 2%nat ++ field 14%nat 2%nat ++ field 17%nat 2%nat)%string
         && (field 4%nat 1%nat =? "-")%string && (field 7%nat 1%nat =? "-")%string
         && (field 10%nat 1%nat =? " ")%string
         && (field 13%nat 1%nat =? ":")%string && (field 16%nat 1%nat =? ":")%string
      then
        match DT.new_datetime
                (PyStr.int_of_digits (field 0%nat 4%nat)) (PyStr.int_of_digits (field 5%nat 2%nat))
                (PyStr.int_of_digits (field 8%nat 2%nat)) (PyStr.int_of_digits (field 11%nat 2%nat))
                (PyStr.int_of_digits (field 14%nat 2%nat)) (PyStr.int_of_digits (field 17%nat 2%nat))
        with
        | Ok dt => Some (DT.total_seconds dt)
        | Raise _ => None
        end
      else None
  | _ => None
  end.

Definition py_float_of_text (s : string) : option float :=
  match PyNum.py_float s with
  | Ok x => Some x
  | Raise _ => None
  end.

Section ExampleTables.
Open Scope string_scope.


(** A spot table of three rows whose frame indices neither start at 0
    nor follow one another. *)
Definition spot_df_example : DataFrame :=
  [("frame_index", Int64 [3; 7; 1500]);
   ("center_x_mm", Object [Some "20.369.706"; Some "20.369.706"; Some "21,5"]);
   ("center_y_mm", Object [Some "1,5"; Some "1,5"; Some "2"]);
   ("minor_axis_mm", Object [Some "2"; Some "2"; None]);
   ("major_axis_mm", Object [Some "3"; Some "3"; Some "3"]);
   ("angle_deg", Float64 [Float.zero; Float.zero; Float.zero])].

Definition spot_out_example : DataFrame :=
  Eval vm_compute in
    match load_spot_positions "spot_position_20240229_235800.txt"
                              spot_df_example with
    | Ok out => out
    | Raise _ => []
    end.

(** A table with a timestamp-like column and a temperature-like column
    whose name also reads as a date ("updated"). *)
Definition temp_df_updated : DataFrame :=
  [("Time", Object [Some "2024-01-01 00:00:00"]);
   ("Temp updated", Float64 [Float.of_decimal false 215 (-1)])].

(** A temperature table whose second row has a timestamp that is not a
    time and whose third row has a temperature that is not a number. *)
Definition temp_df_bad_timestamp : DataFrame :=
  [("Time", Object [Some "2024-01-01 00:00:00"; Some "not a time";
                    Some "2024-01-01 00:02:00"]);
   ("TempC", Object [Some "21.5"; Some "21.7"; Some "abc"])].

(** The same table with the bad timestamp cell left empty. *)
Definition temp_df_bad_temperature : DataFrame :=
  [("Time", Object [Some "2024-01-01 00:02:00"; None;
                    Some "2024-01-01 00:01:00"; Some "2024-01-01 00:00:00"]);
   ("TempC", Object [Some "21.9"; Some "21.7"; Some "abc"; Some "21.5"])].

End ExampleTables.

(** The dtypes that [read_csv] gives a column: integers, floats, or
    objects (text with missing cells). *)
Definition from_read_csv (s : Series) : bool :=
  match s with
  | Int64 _ | Float64 _ | Object _ => true
  | Datetimes _ | Timestamps _ => false
  end.

(** The month and day found for day [n] of a year lie in the calendar. *)
Definition month_day_in_month (leapyear : bool) (n : Z) : bool :=
  let '(m, d) := month_day leapyear n in
  (1 <=? m) && (m <=? 12) && (1 <=? d)
  && (d <=? Calendar._DAYS_IN_MONTH m
            + (if (m =? 2) && leapyear then 1 else 0)).

(** The frame index that one cell of the file denotes: a whole number
    as it is, a float cut to its whole part, a text read as a whole
    number; a missing or infinite cell denotes none. *)
Definition frame_of_cell (cell : value) : result Z :=
  match cell with
  | VInt z => Ok z
  | VFloat x =>
      match Float.trunc x with
      | Some z => Ok z
      | None => Raise ValueError
      end
  | VStr s => PyNum.py_int s
  | VDatetime _ | VTimestamp _ => Raise TypeError
  end.

(** Text made of the whitespace that a decimal literal may stand in:
    tab, LF, VT, FF, CR and the space. *)
Fixpoint all_ordinary_space (s : string) : bool :=
  match s with
  | EmptyString => true
  | String c s' => PyNum.is_c_space c && all_ordinary_space s'
  end.

(** The binary64 number [x] is positive with a mantissa of 53 bits and
    lies within half a unit in the last place of the decimal
    [n / 10 ^ k]: it is the float nearest to that decimal. *)
Definition nearest_binary64 (x : float) (n k : Z) : bool :=
  match x with
  | S754_finite false m e =>
      (2 ^ 52 <=? Z.pos m) && (Z.pos m <? 2 ^ 53) && (e <=? 0)
      && (2 * Z.abs (Z.pos m * 10 ^ k - n * 2 ^ (- e)) <=? 10 ^ k)
  | _ => false
  end.

(** The floats of the examples, bit for bit. *)
Definition float_20_369706 : float := S754_finite false 5733562521952910 (-48).
Definition float_12_5 : float := S754_finite false 7036874417766400 (-49).
Definition float_7_0 : float := S754_finite false 7881299347898368 (-50).
Definition float_1_5 : float := S754_finite false 6755399441055744 (-52).

(** A float that is not below zero: its sign bit is clear, or it is
    not a number. *)
Definition sign_clear_or_nan (x : float) : bool :=
  match x with
  | S754_nan => true
  | S754_zero s | S754_infinity s | S754_finite s _ _ => negb s
  end.

(** Of two aligned samples, the reading attached to the first is not
    later than the reading attached to the second. *)
Definition readings_in_order {A B : Type}
           (m1 m2 : (Z * A) * option (Z * B)) : Prop :=
  match snd m1, snd m2 with
  | Some r1, Some r2 => fst r1 <= fst r2
  | _, _ => True
  end.

(** Two small row lists for the examples of the alignment: readings and
    frames, neither in time order. *)
Definition readings_example : list (Z * Z) := [(10, 215); (0, 219); (4, 217)].
Definition frames_example : list (Z * Z) := [(7, 1); (2, 0); (4, 2)].

(** * Properties *)

(** ** Facts about strings *)

Section StringFacts.
Open Scope string_scope.

Lemma append_assoc_s (a b c : string) : (a ++ b) ++ c = a ++ (b ++ c).
Proof. induction a as [|x a IH]; simpl; [reflexivity | now rewrite IH]. Qed.

Lemma append_nil_r_s (a : string) : a ++ "" = a.
Proof. induction a as [|x a IH]; simpl; [reflexivity | now rewrite IH]. Qed.

Lemma length_append_s (a b : string) :
  String.length (a ++ b) = (String.length a + String.length b)%nat.
Proof. induction a as [|x a IH]; simpl; [reflexivity | now rewrite IH]. Qed.

Lemma length_zero_s (a : string) : String.length a = 0%nat -> a = "".
Proof. destruct a; simpl; [reflexivity | discriminate]. Qed.

Lemma literal_sound (lit s r : string) :
  Re.literal lit s = Some r -> s = lit ++ r.
Proof.
  revert s; induction lit as [|a lit IH]; intros s; simpl.
  - now intros [= ->].
  - destruct s as [|b s]; [discriminate|].
    destruct (Ascii.eqb_spec a b) as [->|Hab]; [|discriminate].
    intros H. now rewrite (IH _ H).
Qed.

Lemma literal_complete (lit r : string) : Re.literal lit (lit ++ r) = Some r.
Proof.
  induction lit as [|a lit IH]; simpl; [reflexivity|].
  now rewrite Ascii.eqb_refl.
Qed.

Lemma digits_sound (n : nat) : forall s ds r,
  Re.digits n s = Some (ds, r) ->
  s = ds ++ r /\ String.length ds = n /\ PyStr.all_digits ds = true.
Proof.
  induction n as [|n IH]; intros s ds r; simpl.
  - intros [= <- <-]. now repeat split.
  - destruct s as [|c s]; [discriminate|].
    destruct (PyStr.is_digit c) eqn:Hc; [|discriminate].
    destruct (Re.digits n s) as [[ds' r']|] eqn:Hd; [|discriminate].
    intros [= <- <-]. destruct (IH _ _ _ Hd) as (-> & Hl & Ha).
    simpl. rewrite Hc, Ha, Hl. now repeat split.
Qed.

Lemma digits_complete (ds r : string) :
  PyStr.all_digits ds = true ->
  Re.digits (String.length ds) (ds ++ r) = Some (ds, r).
Proof.
  induction ds as [|c ds IH]; simpl; [reflexivity|].
  intros H. apply andb_true_iff in H as [Hc Ha].
  now rewrite Hc, (IH Ha).
Qed.

Lemma at_end_spec (s : string) :
  Re.at_end s = true <-> s = "" \/ s = String "010"%char "".
Proof.
  destruct s as [|c [|c' s]]; simpl.
  - split; [now left | reflexivity].
  - destruct (Ascii.eqb_spec c "010"%char) as [->|Hc].
    + split; [now right | reflexivity].
    + split; [discriminate | intros [H|[= H]]; [discriminate | now elim Hc]].
  - split; [discriminate | intros [H|H]; discriminate].
Qed.

End StringFacts.

(** ** File names and the acquisition start *)

Lemma SPOT_FILENAME_PATTERN_match_sound (s d t : string) :
  SPOT_FILENAME_PATTERN_match s = Some (d, t) ->
  exists nl, s = (pattern_text d t ++ nl)%string
             /\ eight_six_digits d t
             /\ (nl = EmptyString \/ nl = String "010"%char EmptyString).
Proof.
  unfold SPOT_FILENAME_PATTERN_match.
  destruct (Re.literal _ s) as [r1|] eqn:H1; [|discriminate].
  destruct (Re.digits 8 r1) as [[d' r2]|] eqn:H2; [|discriminate].
  destruct (Re.literal _ r2) as [r3|] eqn:H3; [|discriminate].
  destruct (Re.digits 6 r3) as [[t' r4]|] eqn:H4; [|discriminate].
  destruct (Re.literal _ r4) as [r5|] eqn:H5; [|discriminate].
  destruct (Re.at_end r5) eqn:H6; [|discriminate].
  intros [= <- <-].
  apply literal_sound in H1, H3, H5.
  apply digits_sound in H2, H4. apply at_end_spec in H6.
  destruct H2 as (-> & Hl2 & Ha2). destruct H4 as (-> & Hl4 & Ha4).
  exists r5. split; [|split; [now repeat split | assumption]].
  subst s r2 r4. unfold pattern_text.
  now rewrite !append_assoc_s.
Qed.

Lemma SPOT_FILENAME_PATTERN_match_complete (d t nl : string) :
  eight_six_digits d t ->
  nl = EmptyString \/ nl = String "010"%char EmptyString ->
  SPOT_FILENAME_PATTERN_match (pattern_text d t ++ nl) = Some (d, t).
Proof.
  intros (Hld & Had & Hlt & Hat) Hnl.
  unfold SPOT_FILENAME_PATTERN_match, pattern_text.
  rewrite !append_assoc_s, literal_complete.
  rewrite <- Hld, (digits_complete d _ Had).
  rewrite literal_complete.
  rewrite <- Hlt, (digits_complete t _ Hat).
  rewrite literal_complete.
  apply at_end_spec in Hnl. now rewrite Hnl.
Qed.

Lemma pattern_text_length (d t : string) :
  eight_six_digits d t -> String.length (pattern_text d t) = 33%nat.
Proof.
  intros (Hld & _ & Hlt & _). unfold pattern_text.
  rewrite !length_append_s, Hld, Hlt. reflexivity.
Qed.

Lemma SPOT_FILENAME_PATTERN_search_eq (name : string) :
  SPOT_FILENAME_PATTERN_search name =
  match SPOT_FILENAME_PATTERN_match name with
  | Some g => Some g
  | None =>
      match name with
      | EmptyString => None
      | String _ name' => SPOT_FILENAME_PATTERN_search name'
      end
  end.
Proof. destruct name; reflexivity. Qed.


Lemma SPOT_FILENAME_PATTERN_search_complete (name d t : string) :
  matches_pattern name d t -> SPOT_FILENAME_PATTERN_search name = Some (d, t).
Proof.
  intros (pre & nl & -> & Hd & Hnl).
  induction pre as [|c pre IH]; rewrite SPOT_FILENAME_PATTERN_search_eq.
  - cbn [append].
    now rewrite (SPOT_FILENAME_PATTERN_match_complete d t nl Hd Hnl).
  - cbn [append].
    destruct (SPOT_FILENAME_PATTERN_match _) as [[d' t']|] eqn:Hm; [|exact IH].
    exfalso. apply SPOT_FILENAME_PATTERN_match_sound in Hm.
    destruct Hm as (nl' & E & Hd' & Hnl').
    assert (L := f_equal String.length E). cbn [String.length] in L.
    rewrite !length_append_s in L.
    rewrite (pattern_text_length _ _ Hd), (pattern_text_length _ _ Hd') in L.
    assert (pre = EmptyString /\ nl = EmptyString) as [-> ->].
    { destruct Hnl as [->| ->], Hnl' as [->| ->]; simpl in L;
        try lia; destruct pre; simpl in L; try lia; now split. }
    unfold pattern_text in E. simpl in E. discriminate E.
Qed.

Section StartInstant.
Import Calendar.

Lemma is_digit_val (c : ascii) :
  PyStr.is_digit c = true -> 0 <= PyStr.digit_val c <= 9.
Proof. unfold PyStr.is_digit, PyStr.digit_val. lia. Qed.

Lemma digit_char_val (c : ascii) :
  PyStr.is_digit c = true -> digit_char (PyStr.digit_val c) = c.
Proof.
  intros _. unfold digit_char, PyStr.digit_val, PyStr.code.
  replace (48 + (Z.of_nat (nat_of_ascii c) - 48)) with (Z.of_nat (nat_of_ascii c))
    by lia.
  now rewrite Nat2Z.id, ascii_nat_embedding.
Qed.

Lemma _days_in_month_le_31 (y m : Z) : _days_in_month y m <= 31.
Proof.
  unfold _days_in_month. destruct ((m =? 2) && _is_leap y); [lia|].
  destruct m as [|p|p]; simpl; try lia.
  do 4 (try (destruct p as [p|p|]; simpl; try lia)).
Qed.

Lemma checked_fields_spec (y m d H M S : Z) :
  0 <= y <= 9999 -> 0 <= H -> 0 <= M -> 0 <= S ->
  checked_fields y m d H M S =
  if valid_fields y m d H M S then Ok (mk_datetime y m d H M S)
  else Raise ValueError.
Proof.
  intros Hy HH HM HS.
  assert (Hdim := _days_in_month_le_31 y m).
  unfold checked_fields, DT.new_datetime, valid_fields.
  destruct (Z.leb_spec 1 m), (Z.leb_spec m 12); cbn [andb negb];
    try (rewrite ?andb_false_r; reflexivity).
  destruct (Z.leb_spec 1 d); cbn [andb negb];
    [|destruct (1 <=? y); reflexivity].
  destruct (Z.leb_spec d (_days_in_month y m)); cbn [andb negb].
  - destruct (Z.leb_spec d 31); [|lia]. cbn [andb negb].
    destruct (Z.leb_spec H 23); cbn [andb negb];
      [|rewrite ?andb_false_r; reflexivity].
    destruct (Z.leb_spec M 59); cbn [andb negb];
      [|rewrite ?andb_false_r; reflexivity].
    destruct (Z.leb_spec S 59); cbn [andb negb].
    + destruct (Z.leb_spec S 61); [|lia]. cbn [andb negb].
      destruct (Z.leb_spec 1 y), (Z.leb_spec y 9999); cbn [andb negb];
        try lia; try reflexivity.
      destruct (Z.leb_spec 0 H), (Z.leb_spec 0 M), (Z.leb_spec 0 S);
        cbn [andb negb]; try lia; reflexivity.
    + rewrite ?andb_false_r.
      destruct (S <=? 61); cbn [negb]; [|reflexivity].
      destruct ((1 <=? y) && (y <=? 9999)); cbn [negb]; [|reflexivity].
      destruct ((0 <=? H) && true); cbn [negb]; [|reflexivity].
      destruct ((0 <=? M) && true); cbn [negb]; reflexivity.
  - rewrite ?andb_false_r.
    repeat match goal with
           | |- (if negb ?c then _ else ?e) = _ =>
               destruct c; cbn [negb]; [|reflexivity]
           end.
    reflexivity.
Qed.

End StartInstant.

Ltac split_digits s H :=
  repeat (destruct s as [|? s]; [discriminate H|]);
  destruct s; [|discriminate H]; clear H.

Ltac digit_bounds :=
  repeat match goal with
         | H : _ && _ = true |- _ => apply andb_true_iff in H; destruct H
         | H : PyStr.is_digit ?c = true |- _ =>
             pose proof (is_digit_val c H);
             pose proof (digit_char_val c H); clear H
         end.

Lemma strptime_YmdHMS_spec (date_str time_str : string) :
  eight_six_digits date_str time_str ->
  DT.strptime_YmdHMS (date_str ++ time_str) =
  if valid_start date_str time_str
  then Ok (start_instant date_str time_str)
  else Raise ValueError.
Proof.
  intros (Hld & Had & Hlt & Hat).
  assert (E : DT.strptime_YmdHMS (date_str ++ time_str) =
              let '(y, m, d) := date_fields date_str in
              let '(H, M, Sec) := time_fields time_str in
              checked_fields y m d H M Sec).
  { unfold DT.strptime_YmdHMS.
    assert (Hall : PyStr.all_digits (date_str ++ time_str) = true).
    { clear Hld Hlt. induction date_str as [|c s IH]; simpl in *; [assumption|].
      apply andb_true_iff in Had as [-> Had]. now apply IH. }
    rewrite Hall, length_append_s, Hld, Hlt. cbn [Nat.eqb Nat.add andb negb].
    split_digits date_str Hld. split_digits time_str Hlt. reflexivity. }
  rewrite E. unfold valid_start, start_instant, date_fields, time_fields.
  split_digits date_str Hld. split_digits time_str Hlt.
  cbn [PyStr.all_digits] in Had, Hat. digit_bounds.
  apply checked_fields_spec;
    cbn [substring PyStr.int_of_digits PyStr.int_of_digits_acc]; lia.
Qed.




Lemma parse_spot_start_datetime_matched (name d t : string) :
  matches_pattern name d t ->
  parse_spot_start_datetime name =
  if valid_start d t then Ok (start_instant d t) else Raise ValueError.
Proof.
  intros Hm. unfold parse_spot_start_datetime.
  rewrite (SPOT_FILENAME_PATTERN_search_complete _ _ _ Hm).
  destruct Hm as (_ & _ & _ & Hd & _). now apply strptime_YmdHMS_spec.
Qed.








(** ** The numeric normaliser *)

Section NormalizerFacts.
Import NormalizerSpec.
Open Scope string_scope.

Lemma replace_comma (s : string) :
  PyStr.replace ","%char "." s = commas_to_dots s.
Proof.
  induction s as [|c s IH]; simpl; [reflexivity|].
  rewrite IH. now destruct (Ascii.eqb c ",").
Qed.

Lemma replace_dot (s : string) : PyStr.replace "."%char "" s = remove_dots s.
Proof.
  induction s as [|c s IH]; simpl; [reflexivity|].
  rewrite IH. unfold is_dot. now destruct (Ascii.eqb c ".").
Qed.

Lemma count_dot (s : string) :
  PyStr.count "."%char s = Z.of_nat (number_of_dots s).
Proof.
  induction s as [|c s IH]; simpl; [reflexivity|].
  rewrite IH. unfold is_dot. destruct (Ascii.eqb c "."); lia.
Qed.

Lemma find_ge (ch : ascii) (s : string) : -1 <= PyStr.find ch s.
Proof.
  induction s as [|c s IH]; simpl; [lia|].
  destruct (Ascii.eqb c ch); [lia|].
  destruct (Z.ltb_spec (PyStr.find ch s) 0); lia.
Qed.

Lemma no_dot_remove (s : string) :
  PyStr.find "."%char s = -1 -> remove_dots s = s /\ keep_first_dot s = s.
Proof.
  induction s as [|c s IH]; simpl; [now split|]. unfold is_dot.
  destruct (Ascii.eqb c "."); [discriminate|].
  pose proof (find_ge "." s).
  destruct (Z.ltb_spec (PyStr.find "." s) 0); [|lia].
  intros _. destruct IH as [-> ->]; [lia | now split].
Qed.

(** Lines 63 and 64 keep the first dot and drop the later ones. *)
Lemma slices_keep_first_dot (text : string) :
  let first_dot := PyStr.find "."%char text in
  PyStr.slice_to (first_dot + 1) text
  ++ PyStr.replace "."%char "" (PyStr.slice_from (first_dot + 1) text)
  = keep_first_dot text.
Proof.
  cbv zeta. unfold PyStr.slice_to, PyStr.slice_from.
  induction text as [|c s IH]; [reflexivity|].
  cbn [PyStr.find keep_first_dot]. unfold is_dot.
  destruct (Ascii.eqb c ".") eqn:Hc.
  - simpl. now rewrite replace_dot.
  - pose proof (find_ge "." s).
    destruct (Z.ltb_spec (PyStr.find "." s) 0).
    + assert (Hf : PyStr.find "." s = -1) by lia.
      simpl. rewrite Hc, replace_dot.
      now destruct (no_dot_remove s Hf) as [-> ->].
    + replace (Z.to_nat (PyStr.find "." s + 1 + 1))
        with (S (Z.to_nat (PyStr.find "." s + 1))) by lia.
      cbn [PyStr.take PyStr.drop append]. now rewrite IH.
Qed.

Lemma keep_first_dot_id (s : string) :
  (number_of_dots s <= 1)%nat -> keep_first_dot s = s.
Proof.
  induction s as [|c s IH]; simpl; [reflexivity|].
  destruct (is_dot c) eqn:Hc; intros Hn.
  - f_equal. assert (H0 : number_of_dots s = 0%nat) by lia.
    clear - H0. induction s as [|c s IH]; simpl in *; [reflexivity|].
    destruct (is_dot c); [discriminate | now rewrite IH].
  - now rewrite IH.
Qed.

Lemma clean_text_normalize (value : string) :
  clean_text value = normalize (PyStr.strip value).
Proof.
  unfold clean_text, normalize.
  rewrite replace_comma, count_dot, slices_keep_first_dot.
  set (t := commas_to_dots (PyStr.strip value)).
  destruct (Z.gtb_spec (Z.of_nat (number_of_dots t)) 1);
    destruct (Nat.ltb_spec 1 (number_of_dots t)); try lia; reflexivity.
Qed.

Lemma normalize_keep (s : string) :
  normalize s = keep_first_dot (commas_to_dots s).
Proof.
  unfold normalize.
  destruct (Nat.ltb_spec 1 (number_of_dots (commas_to_dots s)));
    [reflexivity | symmetry; now apply keep_first_dot_id].
Qed.

End NormalizerFacts.

Section StripFacts.
Import NormalizerSpec.
Open Scope string_scope.

Lemma all_space_app (a b : string) :
  all_space (a ++ b) = all_space a && all_space b.
Proof.
  induction a as [|c a IH]; simpl; [reflexivity|].
  now rewrite IH, andb_assoc.
Qed.

Lemma lstrip_space_app (sp y : string) :
  all_space sp = true -> PyStr.lstrip (sp ++ y) = PyStr.lstrip y.
Proof.
  induction sp as [|c sp IH]; simpl; [reflexivity|].
  intros H. apply andb_true_iff in H as [-> H]. now apply IH.
Qed.

Lemma rstrip_all_space (sp : string) :
  all_space sp = true -> PyStr.rstrip sp = "".
Proof.
  induction sp as [|c sp IH]; simpl; [reflexivity|].
  intros H. apply andb_true_iff in H as [Hc H]. now rewrite (IH H), Hc.
Qed.

Lemma rstrip_app_space (y sp : string) :
  all_space sp = true -> PyStr.rstrip (y ++ sp) = PyStr.rstrip y.
Proof.
  intros H. induction y as [|c y IH]; simpl.
  - now apply rstrip_all_space.
  - now rewrite IH.
Qed.

Lemma lstrip_decomp (s : string) :
  exists sp, all_space sp = true /\ s = sp ++ PyStr.lstrip s.
Proof.
  induction s as [|c s (sp & Hsp & E)]; simpl.
  - now exists "".
  - destruct (PyStr.is_space c) eqn:Hc.
    + exists (String c sp). simpl. rewrite Hc, Hsp. split; [reflexivity|].
      now rewrite <- E.
    + now exists "".
Qed.

Lemma rstrip_decomp (s : string) :
  exists sp, all_space sp = true /\ s = PyStr.rstrip s ++ sp.
Proof.
  induction s as [|c s (sp & Hsp & E)]; simpl.
  - now exists "".
  - destruct (PyStr.rstrip s) as [|c' r] eqn:Hr.
    + destruct (PyStr.is_space c) eqn:Hc.
      * exists (String c sp). simpl. rewrite Hc, Hsp. split; [reflexivity|].
        now rewrite E at 1.
      * exists sp. split; [assumption|]. simpl. now rewrite E at 1.
    + exists sp. split; [assumption|].
      change (String c (String c' r) ++ sp) with (String c (String c' r ++ sp)).
      now rewrite <- E.
Qed.

Lemma lstrip_app_space_r (x sp : string) :
  all_space sp = true ->
  exists sp', all_space sp' = true
              /\ PyStr.lstrip (x ++ sp) = PyStr.lstrip x ++ sp'.
Proof.
  intros H. induction x as [|c x (sp' & Hsp' & E)]; simpl.
  - exists "". split; [reflexivity|].
    rewrite <- (append_nil_r_s sp). rewrite lstrip_space_app by assumption.
    reflexivity.
  - destruct (PyStr.is_space c).
    + now exists sp'.
    + now exists sp.
Qed.

Lemma strip_pad (sp1 x sp2 : string) :
  all_space sp1 = true -> all_space sp2 = true ->
  PyStr.strip (sp1 ++ x ++ sp2) = PyStr.strip x.
Proof.
  intros H1 H2. unfold PyStr.strip.
  rewrite lstrip_space_app by assumption.
  destruct (lstrip_app_space_r x sp2 H2) as (sp' & Hsp' & ->).
  now apply rstrip_app_space.
Qed.

Lemma strip_decomp (s : string) :
  exists sp1 sp2, all_space sp1 = true /\ all_space sp2 = true
                  /\ s = sp1 ++ PyStr.strip s ++ sp2.
Proof.
  destruct (lstrip_decomp s) as (sp1 & H1 & E1).
  destruct (rstrip_decomp (PyStr.lstrip s)) as (sp2 & H2 & E2).
  exists sp1, sp2. unfold PyStr.strip. now rewrite <- E2.
Qed.

Lemma strip_strip (s : string) : PyStr.strip (PyStr.strip s) = PyStr.strip s.
Proof.
  destruct (strip_decomp s) as (sp1 & sp2 & H1 & H2 & E).
  rewrite E at 2. now rewrite strip_pad.
Qed.

Lemma space_not_mark (c : ascii) :
  PyStr.is_space c = true ->
  Ascii.eqb c ","%char = false /\ is_dot c = false.
Proof.
  intros H. unfold is_dot. split.
  - destruct (Ascii.eqb_spec c ","); [subst; discriminate | reflexivity].
  - destruct (Ascii.eqb_spec c "."); [subst; discriminate | reflexivity].
Qed.

Lemma remove_dots_app_space (a sp : string) :
  all_space sp = true -> remove_dots (a ++ sp) = remove_dots a ++ sp.
Proof.
  intros H. induction a as [|c a IH]; simpl.
  - induction sp as [|c sp IH]; simpl in *; [reflexivity|].
    apply andb_true_iff in H as [Hc H].
    destruct (space_not_mark c Hc) as [_ ->]. now rewrite IH.
  - rewrite IH. now destruct (is_dot c).
Qed.

Lemma keep_first_dot_app_space (a sp : string) :
  all_space sp = true -> keep_first_dot (a ++ sp) = keep_first_dot a ++ sp.
Proof.
  intros H. induction a as [|c a IH]; simpl.
  - induction sp as [|c sp IH]; simpl in *; [reflexivity|].
    apply andb_true_iff in H as [Hc H].
    destruct (space_not_mark c Hc) as [_ ->]. now rewrite IH.
  - rewrite IH, remove_dots_app_space by assumption. now destruct (is_dot c).
Qed.

Lemma commas_to_dots_app (a b : string) :
  commas_to_dots (a ++ b) = commas_to_dots a ++ commas_to_dots b.
Proof. induction a as [|c a IH]; simpl; [reflexivity | now rewrite IH]. Qed.

Lemma commas_to_dots_space (sp : string) :
  all_space sp = true -> commas_to_dots sp = sp.
Proof.
  induction sp as [|c sp IH]; simpl; [reflexivity|].
  intros H. apply andb_true_iff in H as [Hc H].
  destruct (space_not_mark c Hc) as [-> _]. now rewrite IH.
Qed.

Lemma keep_first_dot_space_app (sp a : string) :
  all_space sp = true -> keep_first_dot (sp ++ a) = sp ++ keep_first_dot a.
Proof.
  induction sp as [|c sp IH]; simpl; [reflexivity|].
  intros H. apply andb_true_iff in H as [Hc H].
  destruct (space_not_mark c Hc) as [_ ->]. now rewrite IH.
Qed.

Lemma fix_up_pad (sp1 x sp2 : string) :
  all_space sp1 = true -> all_space sp2 = true ->
  fix_up (sp1 ++ x ++ sp2) = sp1 ++ fix_up x ++ sp2.
Proof.
  intros H1 H2. unfold fix_up.
  rewrite !commas_to_dots_app.
  rewrite (commas_to_dots_space sp1 H1), (commas_to_dots_space sp2 H2).
  rewrite keep_first_dot_space_app, keep_first_dot_app_space by assumption.
  reflexivity.
Qed.

Lemma strip_normalize_strip (s : string) :
  PyStr.strip (normalize (PyStr.strip s)) = PyStr.strip (normalize s).
Proof.
  rewrite !normalize_keep. fold (fix_up (PyStr.strip s)). fold (fix_up s).
  destruct (strip_decomp s) as (sp1 & sp2 & H1 & H2 & E).
  rewrite E at 2. rewrite fix_up_pad by assumption. now rewrite strip_pad.
Qed.

Lemma is_c_space_is_space (c : ascii) :
  PyNum.is_c_space c = true -> PyStr.is_space c = true.
Proof.
  unfold PyNum.is_c_space, PyStr.is_space. intros H.
  apply orb_true_iff in H as [H | H]; rewrite H;
    [reflexivity | now rewrite !orb_true_r].
Qed.

Lemma all_ordinary_space_all_space (sp : string) :
  all_ordinary_space sp = true -> all_space sp = true.
Proof.
  induction sp as [|c sp IH]; simpl; [reflexivity|].
  intros H. apply andb_true_iff in H as [Hc H].
  now rewrite (is_c_space_is_space c Hc), IH.
Qed.

Lemma skip_leading_space_app (sp y : string) :
  all_ordinary_space sp = true ->
  PyNum.skip_leading (sp ++ y) = PyNum.skip_leading y.
Proof.
  induction sp as [|c sp IH]; simpl; [reflexivity|].
  intros H. apply andb_true_iff in H as [-> H]. now apply IH.
Qed.

Lemma skip_trailing_all_space (sp : string) :
  all_ordinary_space sp = true -> PyNum.skip_trailing sp = "".
Proof.
  induction sp as [|c sp IH]; simpl; [reflexivity|].
  intros H. apply andb_true_iff in H as [Hc H]. now rewrite (IH H), Hc.
Qed.

Lemma skip_trailing_app_space (y sp : string) :
  all_ordinary_space sp = true ->
  PyNum.skip_trailing (y ++ sp) = PyNum.skip_trailing y.
Proof.
  intros H. induction y as [|c y IH]; simpl.
  - now apply skip_trailing_all_space.
  - now rewrite IH.
Qed.

Lemma skip_leading_app_space_r (x sp : string) :
  all_ordinary_space sp = true ->
  exists sp', all_ordinary_space sp' = true
              /\ PyNum.skip_leading (x ++ sp) = PyNum.skip_leading x ++ sp'.
Proof.
  intros H. induction x as [|c x (sp' & Hsp' & E)]; simpl.
  - exists "". split; [reflexivity|].
    rewrite <- (append_nil_r_s sp).
    rewrite skip_leading_space_app by assumption. reflexivity.
  - destruct (PyNum.is_c_space c).
    + now exists sp'.
    + now exists sp.
Qed.

(** [float] does not see the ordinary whitespace around a text. *)
Lemma skip_space_pad (sp1 x sp2 : string) :
  all_ordinary_space sp1 = true -> all_ordinary_space sp2 = true ->
  PyNum.skip_space (sp1 ++ x ++ sp2) = PyNum.skip_space x.
Proof.
  intros H1 H2. unfold PyNum.skip_space.
  rewrite skip_leading_space_app by assumption.
  destruct (skip_leading_app_space_r x sp2 H2) as (sp' & Hsp' & ->).
  now apply skip_trailing_app_space.
Qed.

Lemma py_float_pad (sp1 x sp2 : string) :
  all_ordinary_space sp1 = true -> all_ordinary_space sp2 = true ->
  PyNum.py_float (sp1 ++ x ++ sp2) = PyNum.py_float x.
Proof.
  intros H1 H2. unfold PyNum.py_float. now rewrite skip_space_pad.
Qed.

End StripFacts.

Section NormalizerTheorems.
Open Scope string_scope.

(** C3, as stated, fails: the normaliser strips the token first, and
    [str.strip] removes more than [float] skips.  The token made of the
    separator 0x1c and [1.5] gives 1.5, while the token with its commas
    and dots put right, as the claim words it, is still that token and
    is not a decimal literal. *)
Lemma C3_counterexample_separator_prefix :
  clean_number (VStr (String "028" "1.5")) = Ok float_1_5
  /\ NormalizerSpec.normalize (String "028" "1.5") = String "028" "1.5"
  /\ PyNum.py_float (NormalizerSpec.normalize (String "028" "1.5"))
     = Raise ValueError.
Proof. repeat split; reflexivity. Qed.

(** C3, amended.  For every textual token the normaliser first strips
    the whitespace around the token ([str.strip]), then parses, as a
    decimal literal, the text in which every comma has become a dot and,
    when that leaves more than one dot, every dot after the first has
    been removed.  Where the whitespace around the token is ordinary
    (tab, LF, VT, FF, CR, space) the stripping makes no difference and
    the result is that of parsing the whole token so put right.  In
    particular "20.369.706" gives 20.369706, "12,5" gives 12.5 and "7"
    gives 7.0 (each the binary64 number nearest to the decimal, here
    bit for bit), and a missing input gives the not-a-number value. *)
Theorem C3_clean_number_normalizes_amended :
  (forall token : string,
      clean_number (VStr token)
      = PyNum.py_float (NormalizerSpec.normalize (PyStr.strip token)))
  /\ (forall sp1 x sp2 : string,
         all_ordinary_space sp1 = true -> all_ordinary_space sp2 = true ->
         PyStr.strip x = x ->
         clean_number (VStr (sp1 ++ x ++ sp2))
         = PyNum.py_float (NormalizerSpec.normalize (sp1 ++ x ++ sp2)))
  /\ clean_number (VStr "20.369.706") = Ok float_20_369706
  /\ nearest_binary64 float_20_369706 20369706 6 = true
  /\ clean_number (VStr "12,5") = Ok float_12_5
  /\ nearest_binary64 float_12_5 125 1 = true
  /\ clean_number (VStr "7") = Ok float_7_0
  /\ nearest_binary64 float_7_0 7 0 = true
  /\ clean_number (VFloat Float.nan) = Ok Float.nan.
Proof.
  split; [|split; [|repeat split; reflexivity]].
  - intros token. cbn [clean_number isna]. now rewrite clean_text_normalize.
  - intros sp1 x sp2 H1 H2 Hx. cbn [clean_number isna].
    rewrite clean_text_normalize.
    rewrite strip_pad by (now apply all_ordinary_space_all_space).
    rewrite Hx, !normalize_keep.
    fold (fix_up x). fold (fix_up (sp1 ++ x ++ sp2)).
    rewrite fix_up_pad by (now apply all_ordinary_space_all_space).
    symmetry. now apply py_float_pad.
Qed.

Lemma C3_clean_number_normalizes_amended_witness :
  clean_number (VStr (" " ++ "12,5" ++ String "010" ""))
  = PyNum.py_float (NormalizerSpec.normalize
                      (" " ++ "12,5" ++ String "010" "")).
Proof.
  apply (proj1 (proj2 C3_clean_number_normalizes_amended) " " "12,5"
               (String "010" "")); reflexivity.
Defined.

End NormalizerTheorems.

(** ** The calendar: ordinals and dates *)

Section CalendarFacts.
Import Calendar.

Lemma month_day_ok_all (leapyear : bool) (n : Z) :
  0 <= n < 365 -> month_day_ok leapyear n = true.
Proof.
  intros Hn.
  assert (H : forallb (fun k => month_day_ok leapyear (Z.of_nat k)) (seq 0 365)
              = true) by (destruct leapyear; vm_compute; reflexivity).
  rewrite forallb_forall in H.
  specialize (H (Z.to_nat n)). rewrite Z2Nat.id in H by lia.
  apply H, in_seq. lia.
Qed.

Lemma _ord2ymd_eq (n0 : Z) :
  _ord2ymd n0 =
  let n := n0 - 1 in
  let n400 := n / _DI400Y in
  let n := n mod _DI400Y in
  let n100 := n / _DI100Y in
  let n := n mod _DI100Y in
  let n4 := n / _DI4Y in
  let n := n mod _DI4Y in
  let n1 := n / 365 in
  let n := n mod 365 in
  let year := n400 * 400 + 1 + (n100 * 100 + n4 * 4 + n1) in
  if (n1 =? 4) || (n100 =? 4) then (year - 1, 12, 31)
  else
    let '(m, d) :=
      month_day ((n1 =? 3) && (negb (n4 =? 24) || (n100 =? 3))) n in
    (year, m, d).
Proof.
  unfold _ord2ymd, month_day. cbv zeta.
  destruct ((_ =? 4) || (_ =? 4)); [reflexivity|].
  match goal with |- context [if ?c then _ else _] => destruct c end;
    reflexivity.
Qed.

Lemma _ymd2ord_ord2ymd (n0 : Z) :
  1 <= n0 ->
  let '(y, m, d) := _ord2ymd n0 in _ymd2ord y m d = n0.
Proof.
  intros Hn0. rewrite _ord2ymd_eq. cbv zeta.
  unfold _DI400Y, _DI100Y, _DI4Y.
  set (n := n0 - 1).
  set (n400 := n / 146097). set (r400 := n mod 146097).
  set (n100 := r400 / 36524). set (r100 := r400 mod 36524).
  set (n4 := r100 / 1461). set (r4 := r100 mod 1461).
  set (n1 := r4 / 365). set (r1 := r4 mod 365).
  assert (H400 : n = 146097 * n400 + r400 /\ 0 <= r400 < 146097)
    by (subst n400 r400; split;
        [apply Z.div_mod; lia | apply Z.mod_pos_bound; lia]).
  assert (H100 : r400 = 36524 * n100 + r100 /\ 0 <= r100 < 36524)
    by (subst n100 r100; split;
        [apply Z.div_mod; lia | apply Z.mod_pos_bound; lia]).
  assert (H4 : r100 = 1461 * n4 + r4 /\ 0 <= r4 < 1461)
    by (subst n4 r4; split;
        [apply Z.div_mod; lia | apply Z.mod_pos_bound; lia]).
  assert (H1 : r4 = 365 * n1 + r1 /\ 0 <= r1 < 365)
    by (subst n1 r1; split;
        [apply Z.div_mod; lia | apply Z.mod_pos_bound; lia]).
  assert (Hn : 0 <= n /\ n0 = n + 1) by (subst n; lia).
  clearbody n n400 r400 n100 r100 n4 r4 n1 r1.
  assert (B : 0 <= n400 /\ 0 <= n100 <= 4 /\ 0 <= n4 <= 24 /\ 0 <= n1 <= 4)
    by lia.
  set (y1 := n400 * 400 + (n100 * 100 + n4 * 4 + n1)).
  assert (Hdby : forall y, y = y1 + 1 -> n100 <> 4 -> n1 <> 4 ->
            _days_before_year y
            = 146097 * n400 + 36524 * n100 + 1461 * n4 + 365 * n1).
  { intros y -> N100 N1. unfold _days_before_year. cbv zeta.
    replace (y1 + 1 - 1) with y1 by lia. subst y1.
    Z.to_euclidean_division_equations. lia. }
  destruct (Z.eqb_spec n1 4) as [E1|E1]; cbn [orb].
  - (* the last day of a four-year cycle *)
    unfold _ymd2ord, _days_before_month, _is_leap.
    replace (n400 * 400 + 1 + (n100 * 100 + n4 * 4 + n1) - 1) with y1
      by (subst y1; lia).
    assert (Hl : (y1 mod 4 =? 0) && (negb (y1 mod 100 =? 0) || (y1 mod 400 =? 0))
                 = true).
    { subst y1. apply andb_true_iff. split.
      - apply Z.eqb_eq. Z.to_euclidean_division_equations. lia.
      - apply orb_true_iff. left. apply negb_true_iff, Z.eqb_neq.
        Z.to_euclidean_division_equations. lia. }
    rewrite Hl. cbn.
    unfold _days_before_year. cbv zeta. subst y1.
    Z.to_euclidean_division_equations. lia.
  - destruct (Z.eqb_spec n100 4) as [E100|E100].
    + (* the last day of a four-hundred-year cycle *)
      unfold _ymd2ord, _days_before_month, _is_leap.
      replace (n400 * 400 + 1 + (n100 * 100 + n4 * 4 + n1) - 1) with y1
        by (subst y1; lia).
      assert (Hl : (y1 mod 4 =? 0)
                   && (negb (y1 mod 100 =? 0) || (y1 mod 400 =? 0)) = true).
      { subst y1. apply andb_true_iff. split.
        - apply Z.eqb_eq. Z.to_euclidean_division_equations. lia.
        - apply orb_true_iff. right. apply Z.eqb_eq.
          Z.to_euclidean_division_equations. lia. }
      rewrite Hl. cbn.
      unfold _days_before_year. cbv zeta. subst y1.
      Z.to_euclidean_division_equations. lia.
    + set (leapyear := (n1 =? 3) && (negb (n4 =? 24) || (n100 =? 3))).
      pose proof (month_day_ok_all leapyear r1 (proj2 H1)) as Hok.
      unfold month_day_ok in Hok.
      destruct (month_day leapyear r1) as [m d].
      apply andb_true_iff in Hok as [Hok Hsum].
      apply andb_true_iff in Hok as [Hok Hd].
      apply andb_true_iff in Hok as [Hm1 Hm12].
      apply Z.eqb_eq in Hsum.
      unfold _ymd2ord, _days_before_month.
      assert (Hleap : _is_leap (n400 * 400 + 1 + (n100 * 100 + n4 * 4 + n1))
                      = leapyear).
      { unfold _is_leap, leapyear.
        replace (n400 * 400 + 1 + (n100 * 100 + n4 * 4 + n1)) with (y1 + 1)
          by (subst y1; lia).
        subst y1.
        destruct (Z.eqb_spec n1 3), (Z.eqb_spec n4 24), (Z.eqb_spec n100 3);
          cbn [andb orb negb];
          repeat match goal with
                 | |- context [?a mod ?b =? 0] =>
                     destruct (Z.eqb_spec (a mod b) 0)
                 end; cbn [andb orb negb]; try reflexivity;
          exfalso; Z.to_euclidean_division_equations; lia. }
      rewrite Hleap.
      assert (Hy : n400 * 400 + 1 + (n100 * 100 + n4 * 4 + n1) = y1 + 1)
        by (subst y1; lia).
      rewrite (Hdby _ Hy E100 E1).
      lia.
Qed.

End CalendarFacts.

(** ** Adding minutes to an instant *)

Lemma add_total_seconds (self : datetime) (other : timedelta) (r : datetime) :
  DT.add self other = Ok r ->
  DT.total_seconds r
  = DT.total_seconds self + td_days other * 86400 + td_seconds other.
Proof.
  unfold DT.add, DT.new_timedelta, bind. cbv zeta.
  destruct (Z.abs _ >? 999999999); [discriminate|].
  cbn [td_days td_seconds].
  destruct (Z.abs _ >? 999999999); [discriminate|].
  cbn [td_days td_seconds].
  set (s0 := hour self * 3600 + minute self * 60 + second self).
  set (D := DT.toordinal self + s0 / 86400
            + td_days other + (s0 mod 86400 + td_seconds other) / 86400).
  set (Sec := (s0 mod 86400 + td_seconds other) mod 86400).
  destruct (Z.ltb_spec 0 D) as [HD|]; [|discriminate]. cbn [andb].
  destruct (D <=? Calendar._MAXORDINAL); [|discriminate].
  pose proof (_ymd2ord_ord2ymd D ltac:(lia)) as Hord.
  destruct (Calendar._ord2ymd D) as [[y m] d].
  intros [= <-]. unfold DT.total_seconds, DT.toordinal.
  cbn [year month day hour minute second]. rewrite Hord.
  subst D Sec s0. unfold DT.toordinal in *.
  set (o := Calendar._ymd2ord (year self) (month self) (day self)) in *.
  clearbody o. clear Hord.
  Z.to_euclidean_division_equations. lia.
Qed.

Lemma add_minutes_total_seconds (start_dt : datetime) (frame : Z) (r : datetime) :
  (td <- DT.timedelta_minutes frame ;; DT.add start_dt td) = Ok r ->
  DT.total_seconds r = DT.total_seconds start_dt + 60 * frame.
Proof.
  unfold DT.timedelta_minutes, DT.new_timedelta, bind.
  destruct (Z.abs _ >? 999999999); [discriminate|].
  intros H. rewrite (add_total_seconds _ _ _ H). cbn [td_days td_seconds].
  Z.to_euclidean_division_equations. lia.
Qed.

(** ** Facts about data frames and the error monad *)

Section FrameFacts.
Open Scope string_scope.

Lemma df_get_set_same (name : string) (s : Series) (df : DataFrame) :
  df_get name (df_set name s df) = Ok s.
Proof.
  induction df as [|[n s0] df IH]; simpl.
  - now rewrite String.eqb_refl.
  - destruct (n =? name) eqn:E; simpl; now rewrite E.
Qed.

Lemma df_get_set_other (name name' : string) (s : Series) (df : DataFrame) :
  (name' =? name) = false ->
  df_get name (df_set name' s df) = df_get name df.
Proof.
  intros Hne. induction df as [|[n s0] df IH]; simpl.
  - now rewrite Hne.
  - destruct (String.eqb_spec n name') as [->|Hn]; simpl.
    + now rewrite Hne.
    + now rewrite IH.
Qed.

Lemma apply_clean_number_other (column name : string) (df df' : DataFrame) :
  apply_clean_number column df = Ok df' ->
  (column =? name) = false ->
  df_get name df' = df_get name df.
Proof.
  unfold apply_clean_number, bind.
  destruct (df_get column df) as [s|]; [|discriminate].
  destruct (mapM clean_number (items s)) as [xs|]; [|discriminate].
  intros [= <-] Hne. now apply df_get_set_other.
Qed.

Lemma apply_clean_number_same (column : string) (df df' : DataFrame) :
  apply_clean_number column df = Ok df' ->
  exists xs, df_get column df' = Ok (Float64 xs).
Proof.
  unfold apply_clean_number, bind.
  destruct (df_get column df) as [s|]; [|discriminate].
  destruct (mapM clean_number (items s)) as [xs|]; [|discriminate].
  intros [= <-]. exists xs. apply df_get_set_same.
Qed.

Lemma mapM_Forall2 {A B : Type} (f : A -> result B) (l : list A) (l' : list B) :
  mapM f l = Ok l' -> Forall2 (fun a b => f a = Ok b) l l'.
Proof.
  revert l'; induction l as [|a l IH]; intros l'; simpl.
  - intros [= <-]. constructor.
  - unfold bind. destruct (f a) as [b|] eqn:Hb; [|discriminate].
    destruct (mapM f l) as [bs|]; [|discriminate].
    intros [= <-]. constructor; [assumption | now apply IH].
Qed.


End FrameFacts.

(** ** The spot log loader *)

Section SpotLoaderFacts.
Open Scope string_scope.

(** What a successful load went through. *)
Lemma load_spot_positions_inv (name : string) (spot_df out : DataFrame) :
  load_spot_positions name spot_df = Ok out ->
  exists (start_dt : datetime) (frames : list Z) (df : DataFrame)
         (x0 y0 : float) (xs ys : list float) (stamps : list datetime),
    parse_spot_start_datetime name = Ok start_dt
    /\ df_get "frame_index" df = Ok (Int64 frames)
    /\ df_get "center_x_mm" df = Ok (Float64 (x0 :: xs))
    /\ df_get "center_y_mm" df = Ok (Float64 (y0 :: ys))
    /\ mapM (fun frame => td <- DT.timedelta_minutes frame ;;
                          DT.add start_dt td) frames = Ok stamps
    /\ out = df_set "r_squared_shift_mm2"
               (Float64 (map2 (r_squared x0 y0) (x0 :: xs) (y0 :: ys)))
               (df_set "timestamp" (Datetimes stamps) df).
Proof.
  unfold load_spot_positions. unfold bind at 1.
  destruct (parse_spot_start_datetime name) as [start_dt|]; [|discriminate].
  destruct (filter _ required_columns); [|discriminate].
  unfold bind at 1.
  destruct (df_get "frame_index" spot_df) as [fi|]; [|discriminate].
  unfold bind at 1.
  destruct (astype_int fi) as [frames|]; [|discriminate].
  set (df1 := df_set "frame_index" (Int64 frames) spot_df).
  unfold bind at 1.
  destruct (for_each _ _ df1) as [df|] eqn:Hfor; [|discriminate].
  assert (Hfi : df_get "frame_index" df = Ok (Int64 frames)).
  { cbn [for_each tl required_columns] in Hfor. unfold bind in Hfor.
    repeat match type of Hfor with
           | match apply_clean_number ?c ?d with _ => _ end = _ =>
               let E := fresh "E" in
               destruct (apply_clean_number c d) eqn:E; [|discriminate Hfor];
               apply apply_clean_number_other with (name := "frame_index")
                 in E; [|reflexivity]
           end.
    injection Hfor as <-. subst df1.
    rewrite E3, E2, E1, E0, E. apply df_get_set_same. }
  unfold at0. unfold bind at 1. unfold bind at 1.
  destruct (df_get "center_x_mm" df) as [[| [|x0 xs] | | |]|] eqn:Hx;
    try discriminate.
  unfold bind at 1. unfold bind at 1.
  destruct (df_get "center_y_mm" df) as [[| [|y0 ys] | | |]|] eqn:Hy;
    try discriminate.
  unfold bind at 1.
  destruct (mapM _ frames) as [stamps|] eqn:Hst; [|discriminate].
  unfold float_column.
  rewrite !df_get_set_other by reflexivity. rewrite Hx, Hy. cbn [bind].
  intros [= <-].
  exists start_dt, frames, df, x0, y0, xs, ys, stamps. now repeat split.
Qed.

Lemma load_spot_positions_columns (name : string) (spot_df out : DataFrame) :
  load_spot_positions name spot_df = Ok out ->
  exists (start_dt : datetime) (frames : list Z)
         (x0 y0 : float) (xs ys : list float) (stamps : list datetime),
    parse_spot_start_datetime name = Ok start_dt
    /\ df_get "frame_index" out = Ok (Int64 frames)
    /\ df_get "center_x_mm" out = Ok (Float64 (x0 :: xs))
    /\ df_get "center_y_mm" out = Ok (Float64 (y0 :: ys))
    /\ df_get "timestamp" out = Ok (Datetimes stamps)
    /\ df_get "r_squared_shift_mm2" out
       = Ok (Float64 (map2 (r_squared x0 y0) (x0 :: xs) (y0 :: ys)))
    /\ Forall2 (fun frame ts =>
                  (td <- DT.timedelta_minutes frame ;; DT.add start_dt td)
                  = Ok ts) frames stamps.
Proof.
  intros H. apply load_spot_positions_inv in H.
  destruct H as (start_dt & frames & df & x0 & y0 & xs & ys & stamps
                 & Hp & Hfi & Hx & Hy & Hst & ->).
  exists start_dt, frames, x0, y0, xs, ys, stamps.
  rewrite !df_get_set_same.
  rewrite !(df_get_set_other _ "r_squared_shift_mm2") by reflexivity.
  rewrite !df_get_set_same.
  rewrite !(df_get_set_other _ "timestamp") by reflexivity.
  repeat split; try assumption.
  now apply mapM_Forall2 in Hst.
Qed.

End SpotLoaderFacts.

Section SpotLoaderTheorems.
Open Scope string_scope.





Lemma spot_out_example_eq :
  load_spot_positions "spot_position_20240229_235800.txt" spot_df_example
  = Ok spot_out_example.
Proof. vm_compute. reflexivity. Qed.


(** The example in figures: the frames 3, 7 and 1500 of an acquisition
    started on 29 February 2024 at 23:58:00. *)
Example spot_out_example_timestamps :
  df_get "timestamp" spot_out_example
  = Ok (Datetimes [mk_datetime 2024 3 1 0 1 0;
                   mk_datetime 2024 3 1 0 5 0;
                   mk_datetime 2024 3 2 0 58 0]).
Proof. reflexivity. Qed.

End SpotLoaderTheorems.

(** ** Column inference *)

Section ColumnInferenceFacts.
Import ColumnInferenceSpec.
Open Scope string_scope.

Lemma filter_head_find {A : Type} (p : A -> bool) (l : list A) :
  hd_error (filter p l) = find p l.
Proof.
  induction l as [|a l IH]; simpl; [reflexivity|].
  now destruct (p a).
Qed.

Lemma find_filter {A : Type} (p q : A -> bool) (l : list A) :
  find p (filter q l) = find (fun a => q a && p a) l.
Proof.
  induction l as [|a l IH]; simpl; [reflexivity|].
  destruct (q a); simpl; [|assumption]. now destruct (p a).
Qed.

Lemma hd_error_nil {A : Type} (l : list A) : hd_error l = None -> l = [].
Proof. destruct l; [reflexivity | discriminate]. Qed.

(** C8, as stated, fails: with the columns [Time] and [Temp updated] the
    stated rule picks [Time] and then, among the other columns, [Temp
    updated]; the code finds no temperature column and raises. *)
Lemma C8_counterexample_temp_updated :
  identify temp_df_updated = Some ("Time", "Temp updated")
  /\ _identify_temperature_columns temp_df_updated = Raise ValueError.
Proof. split; reflexivity. Qed.

(** C8, amended.  The timestamp column is the first column whose name
    contains "time" or "date" or equals "timestamp" (in any letter
    case), otherwise the first column.  The temperature column is the
    first column whose name contains "temp", "deg" or "celsius", or
    failing that the first column of numeric type, in both cases among
    the columns that are not timestamp candidates (every column with a
    timestamp-like name, or the first column alone when there is none).
    The inference raises when either column cannot be determined.  The
    columns [Time, TempC] give [Time] and [TempC]; the columns
    [ts, value1, value2] fall back to the first numeric column that is
    not the timestamp. *)
Theorem C8_identify_temperature_columns_amended :
  (forall df : DataFrame,
      match identify_amended df with
      | Some p => _identify_temperature_columns df = Ok p
      | None =>
          _identify_temperature_columns df
          = Raise (match columns df with [] => IndexError | _ => ValueError end)
      end)
  /\ (forall s1 s2 : Series,
         _identify_temperature_columns [("Time", s1); ("TempC", s2)]
         = Ok ("Time", "TempC"))
  /\ (forall (s1 : Series) (l2 l3 : list float),
         _identify_temperature_columns
           [("ts", s1); ("value1", Float64 l2); ("value2", Float64 l3)]
         = Ok ("ts", "value1"))
  /\ (forall (s1 : Series) (l2 : list (option string)) (l3 : list float),
         _identify_temperature_columns
           [("ts", s1); ("value1", Object l2); ("value2", Float64 l3)]
         = Ok ("ts", "value2")).
Proof.
  split; [|repeat split; reflexivity].
  intros df.
  unfold identify_amended, temperature_column_amended, timestamp_column,
    timestamp_candidates, _identify_temperature_columns.
  rewrite <- filter_head_find.
  destruct (filter timestamp_like (columns df)) as [|t cands] eqn:Hc;
    cbn [hd_error].
  - destruct (columns df) as [|col0 cols] eqn:Hcols; [reflexivity|].
    cbn [hd_error firstn bind]. fold (numeric_column df).
    rewrite <- !filter_head_find.
    destruct (filter temperature_like _) as [|v vs] eqn:Hv.
    + rewrite <- Hcols in *.
      assert (Hn : filter (fun col => negb (mem col [col0])
                                      && temperature_like col) (columns df)
                   = []).
      { apply hd_error_nil. rewrite filter_head_find, <- find_filter.
        rewrite <- filter_head_find, Hv. reflexivity. }
      rewrite Hn. cbn [hd_error].
      rewrite filter_head_find, find_filter, <- filter_head_find.
      unfold numeric_column.
      match goal with |- context [hd_error ?l] => destruct l end; reflexivity.
    + rewrite <- Hcols in *.
      assert (Hn : hd_error (filter (fun col => negb (mem col [col0])
                                      && temperature_like col) (columns df))
                   = Some v).
      { rewrite filter_head_find, <- find_filter.
        rewrite <- filter_head_find, Hv. reflexivity. }
      destruct (filter (fun col => negb (mem col [col0])
                                   && temperature_like col) (columns df))
        as [|v' vs']; [discriminate|].
      now injection Hn as ->.
  - cbn [bind]. fold (numeric_column df).
    rewrite <- !filter_head_find.
    destruct (filter temperature_like _) as [|v vs] eqn:Hv.
    + assert (Hn : filter (fun col => negb (mem col (t :: cands))
                                      && temperature_like col) (columns df)
                   = []).
      { apply hd_error_nil. rewrite filter_head_find, <- find_filter.
        rewrite <- filter_head_find, Hv. reflexivity. }
      rewrite Hn. cbn [hd_error].
      rewrite filter_head_find, find_filter, <- filter_head_find.
      unfold numeric_column.
      match goal with |- context [hd_error ?l] => destruct l end.
      * destruct (columns df); [discriminate Hc | reflexivity].
      * reflexivity.
    + assert (Hn : hd_error (filter (fun col => negb (mem col (t :: cands))
                                      && temperature_like col) (columns df))
                   = Some v).
      { rewrite filter_head_find, <- find_filter.
        rewrite <- filter_head_find, Hv. reflexivity. }
      destruct (filter (fun col => negb (mem col (t :: cands))
                                   && temperature_like col) (columns df))
        as [|v' vs']; [discriminate|].
      now injection Hn as ->.
Qed.

End ColumnInferenceFacts.

(** ** Sorting by a key *)

Section SortFacts.
Context {A : Type}.
Variable key : A -> Z.

Lemma insert_row_perm (a : A) (l : list A) :
  Permutation (insert_row key a l) (a :: l).
Proof.
  induction l as [|b l IH]; simpl; [reflexivity|].
  destruct (key b <? key a); [|reflexivity].
  rewrite IH. apply perm_swap.
Qed.

Lemma sort_values_perm (l : list A) : Permutation (sort_values key l) l.
Proof.
  induction l as [|a l IH]; simpl; [reflexivity|].
  rewrite insert_row_perm. now constructor.
Qed.

Lemma insert_row_sorted (a : A) (l : list A) :
  StronglySorted (key_le key) l -> StronglySorted (key_le key) (insert_row key a l).
Proof.
  induction 1 as [|b l Hs IH Hb]; simpl.
  - repeat constructor.
  - destruct (Z.ltb_spec (key b) (key a)).
    + constructor; [assumption|].
      rewrite insert_row_perm. constructor; [unfold key_le; lia | assumption].
    + constructor; [now constructor|].
      constructor; [unfold key_le; lia|].
      eapply Forall_impl; [|exact Hb]. unfold key_le. intros; lia.
Qed.

Lemma sort_values_sorted (l : list A) :
  StronglySorted (key_le key) (sort_values key l).
Proof.
  induction l as [|a l IH]; simpl; [constructor | now apply insert_row_sorted].
Qed.

Lemma sort_values_length (l : list A) :
  List.length (sort_values key l) = List.length l.
Proof. apply Permutation_length, sort_values_perm. Qed.

End SortFacts.

(** ** The temperature log loader *)

Section TemperatureLoaderFacts.
Variable datetime_of_scalar : Series -> value -> option Z.
Variable float_of_text : string -> option float.

Lemma mapM_raises {A B : Type} (f : A -> result B) (l : list A) (a : A)
      (e : exn) :
  (forall a' e', f a' = Raise e' -> e' = e) ->
  In a l -> f a = Raise e -> mapM f l = Raise e.
Proof.
  intros Hf. induction l as [|a0 l IH]; simpl; [contradiction|].
  intros [-> | Hin] Ha.
  - now rewrite Ha.
  - unfold bind. destruct (f a0) as [b|e0] eqn:E0.
    + now rewrite (IH Hin Ha).
    + now rewrite (Hf _ _ E0).
Qed.

Lemma to_datetime_raises (s : Series) (v : value) :
  In v (items s) -> isna v = false -> datetime_of_scalar s v = None ->
  to_datetime datetime_of_scalar s = Raise ValueError.
Proof.
  intros Hin Hna Hv. unfold to_datetime.
  apply mapM_raises with (a := v); [|assumption|now rewrite Hna, Hv].
  intros a' e'. destruct (isna a'); [discriminate|].
  destruct (datetime_of_scalar s a'); [discriminate | congruence].
Qed.

Lemma In_dropna (rows : list (option Z * float)) (t : Z) (x : float) :
  In (t, x) (dropna rows) <-> In (Some t, x) rows /\ Float.is_nan x = false.
Proof.
  induction rows as [|[[t0|] x0] rows IH]; simpl.
  - tauto.
  - destruct (Float.is_nan x0) eqn:E0; simpl; rewrite IH; split.
    + tauto.
    + intros [[[= <- <-] | H] Hn]; [congruence | tauto].
    + intros [[= <- <-] | H]; [now split; [left|] | tauto].
    + intros [[[= <- <-] | H] Hn]; [now left | tauto].
  - rewrite IH. split; [tauto|]. intros [[H | H] Hn]; [discriminate | tauto].
Qed.

(** What a successful load went through. *)
Lemma load_temperature_data_inv (temp_df : DataFrame) (out : list (Z * float)) :
  load_temperature_data datetime_of_scalar float_of_text temp_df = Ok out ->
  exists (timestamp_col temperature_col : string) (ts_series : Series)
         (stamps : list (option Z)) (temps : list float),
    _identify_temperature_columns temp_df = Ok (timestamp_col, temperature_col)
    /\ df_get timestamp_col temp_df = Ok ts_series
    /\ to_datetime datetime_of_scalar ts_series = Ok stamps
    /\ out = sort_values fst (dropna (combine stamps temps)).
Proof.
  unfold load_temperature_data. unfold bind at 1.
  destruct (_identify_temperature_columns temp_df) as [[tc vc]|];
    [|discriminate].
  unfold bind at 1.
  destruct (df_get tc temp_df) as [ts_series|] eqn:Hts; [|discriminate].
  unfold bind at 1.
  destruct (to_datetime _ ts_series) as [stamps|] eqn:Hst; [|discriminate].
  unfold bind at 1. destruct (df_get vc _) as [vs|]; [|discriminate].
  unfold bind at 1. destruct (to_numeric_coerce _ vs) as [xs|]; [|discriminate].
  unfold timestamps_column, float_column.
  rewrite df_get_set_other by reflexivity.
  rewrite !df_get_set_same. cbn [bind]. intros [= <-].
  exists tc, vc, ts_series, stamps, xs. now repeat split.
Qed.

End TemperatureLoaderFacts.

Section TemperatureLoaderTheorems.
Open Scope string_scope.

(** C2, the code's behaviour: a timestamp cell that is present and
    cannot be converted makes the whole load raise; the row is not
    dropped.  (A temperature cell that cannot be converted, or a missing
    timestamp cell, only loses its row: see
    [load_temperature_data_drops_rows].) *)
Theorem C2_unparseable_timestamp_aborts
        (datetime_of_scalar : Series -> value -> option Z)
        (float_of_text : string -> option float)
        (temp_df : DataFrame) (timestamp_col temperature_col : string)
        (ts_series : Series) (v : value) :
  _identify_temperature_columns temp_df = Ok (timestamp_col, temperature_col) ->
  df_get timestamp_col temp_df = Ok ts_series ->
  In v (items ts_series) -> isna v = false ->
  datetime_of_scalar ts_series v = None ->
  load_temperature_data datetime_of_scalar float_of_text temp_df
  = Raise ValueError.
Proof.
  intros Hid Hts Hin Hna Hv. unfold load_temperature_data.
  rewrite Hid. cbn [bind]. rewrite Hts. cbn [bind].
  now rewrite (to_datetime_raises _ _ _ Hin Hna Hv).
Qed.

Lemma C2_unparseable_timestamp_aborts_witness :
  load_temperature_data iso_datetime_of_scalar py_float_of_text
                        temp_df_bad_timestamp
  = Raise ValueError.
Proof.
  apply (C2_unparseable_timestamp_aborts
           iso_datetime_of_scalar py_float_of_text temp_df_bad_timestamp
           "Time" "TempC"
           (Object [Some "2024-01-01 00:00:00"; Some "not a time";
                    Some "2024-01-01 00:02:00"])
           (VStr "not a time")).
  - reflexivity.
  - reflexivity.
  - simpl. right. left. reflexivity.
  - reflexivity.
  - reflexivity.
Defined.

(** The part of C2 that the code does: rows whose temperature cell is
    not a number, or whose timestamp cell is missing, are dropped and
    the load succeeds on the remaining rows. *)
Example load_temperature_data_drops_rows :
  load_temperature_data iso_datetime_of_scalar py_float_of_text
                        temp_df_bad_temperature
  = Ok [(DT.total_seconds (mk_datetime 2024 1 1 0 0 0),
         Float.of_decimal false 215 (-1));
        (DT.total_seconds (mk_datetime 2024 1 1 0 2 0),
         Float.of_decimal false 219 (-1))].
Proof. vm_compute. reflexivity. Qed.

(** C9.  For every input that the temperature loader accepts, the
    returned records are sorted non-decreasing by timestamp, none has a
    not-a-number temperature, and each is a row of the input whose
    timestamp cell was converted to an instant. *)
Theorem C9_temperature_rows_sorted_and_clean
        (datetime_of_scalar : Series -> value -> option Z)
        (float_of_text : string -> option float)
        (temp_df : DataFrame) (out : list (Z * float)) :
  load_temperature_data datetime_of_scalar float_of_text temp_df = Ok out ->
  StronglySorted (fun a b => fst a <= fst b) out
  /\ Forall (fun r => Float.is_nan (snd r) = false) out
  /\ exists (timestamp_col temperature_col : string) (ts_series : Series)
            (stamps : list (option Z)),
       _identify_temperature_columns temp_df
       = Ok (timestamp_col, temperature_col)
       /\ df_get timestamp_col temp_df = Ok ts_series
       /\ to_datetime datetime_of_scalar ts_series = Ok stamps
       /\ Forall (fun r => In (Some (fst r)) stamps) out.
Proof.
  intros H. apply load_temperature_data_inv in H.
  destruct H as (tc & vc & ts_series & stamps & temps & Hid & Hts & Hst & ->).
  assert (Hin : forall r, In r (sort_values fst (dropna (combine stamps temps)))
                          -> In (Some (fst r), snd r) (combine stamps temps)
                             /\ Float.is_nan (snd r) = false).
  { intros [t x] Hr. apply In_dropna.
    eapply Permutation_in; [apply sort_values_perm | exact Hr]. }
  split; [apply (sort_values_sorted fst)|].
  split; [apply Forall_forall; intros r Hr; now apply Hin|].
  exists tc, vc, ts_series, stamps. repeat split; try assumption.
  apply Forall_forall. intros r Hr.
  destruct (Hin r Hr) as [Hc _]. now apply in_combine_l in Hc.
Qed.

Lemma C9_temperature_rows_sorted_and_clean_witness :
  StronglySorted (fun a b => fst a <= fst b)
    [(DT.total_seconds (mk_datetime 2024 1 1 0 0 0),
      Float.of_decimal false 215 (-1));
     (DT.total_seconds (mk_datetime 2024 1 1 0 2 0),
      Float.of_decimal false 219 (-1))].
Proof.
  exact (proj1 (C9_temperature_rows_sorted_and_clean
                  iso_datetime_of_scalar py_float_of_text
                  temp_df_bad_temperature _
                  load_temperature_data_drops_rows)).
Defined.

End TemperatureLoaderTheorems.

(** ** The time aligner *)

Section AlignerFacts.
Context {B : Type}.

Lemma keys_sorted_of_sorted {X : Type} (l : list (Z * X)) :
  StronglySorted (key_le fst) l -> keys_sorted l = true.
Proof.
  induction 1 as [|a l Hs IH Ha]; [reflexivity|].
  destruct l as [|b l]; [reflexivity|].
  change (keys_sorted (a :: b :: l))
    with ((fst a <=? fst b) && keys_sorted (b :: l)).
  rewrite IH, andb_true_r.
  apply Z.leb_le. apply Forall_inv in Ha. exact Ha.
Qed.

Lemma scan_backward_some (t : Z) (right : list (Z * B)) :
  StronglySorted (key_le (@fst Z B)) right ->
  forall last b,
    scan_backward t right last = Some b ->
    (last = Some b /\ forall r, In r right -> t < fst r)
    \/ (In b right /\ fst b <= t
        /\ forall r, In r right -> fst r <= t -> fst r <= fst b).
Proof.
  induction 1 as [|r0 right Hs IH Hr0]; intros last b; cbn [scan_backward].
  - intros ->. left. split; [reflexivity | contradiction].
  - rewrite Forall_forall in Hr0. unfold key_le in Hr0.
    destruct (Z.leb_spec (fst r0) t) as [Hle|Hgt].
    + intros H. right. apply IH in H. destruct H as [[[= <-] Ha] | (Hin & Hb & Hm)].
      * split; [now left|]. split; [assumption|].
        intros r [<-|Hr] Hrt; [lia|]. specialize (Ha r Hr). lia.
      * split; [now right|]. split; [assumption|].
        intros r [<-|Hr] Hrt; [now apply Hr0 | now apply Hm].
    + intros ->. left. split; [reflexivity|].
      intros r [<-|Hr]; [assumption|]. specialize (Hr0 r Hr). lia.
Qed.

Lemma scan_backward_none (t : Z) (right : list (Z * B)) :
  StronglySorted (key_le (@fst Z B)) right ->
  forall last,
    scan_backward t right last = None ->
    last = None /\ forall r, In r right -> t < fst r.
Proof.
  induction 1 as [|r0 right Hs IH Hr0]; intros last; cbn [scan_backward].
  - intros ->. split; [reflexivity | contradiction].
  - rewrite Forall_forall in Hr0. unfold key_le in Hr0.
    destruct (Z.leb_spec (fst r0) t) as [Hle|Hgt].
    + intros H. apply IH in H. destruct H as [[=] _].
    + intros ->. split; [reflexivity|].
      intros r [<-|Hr]; [assumption|]. specialize (Hr0 r Hr). lia.
Qed.

Lemma asof_forward_some (t : Z) (right : list (Z * B)) :
  StronglySorted (key_le (@fst Z B)) right ->
  forall f,
    asof_forward t right = Some f ->
    In f right /\ t <= fst f
    /\ forall r, In r right -> t <= fst r -> fst f <= fst r.
Proof.
  induction 1 as [|r0 right Hs IH Hr0]; intros f; cbn [asof_forward].
  - discriminate.
  - rewrite Forall_forall in Hr0. unfold key_le in Hr0.
    destruct (Z.leb_spec t (fst r0)) as [Hle|Hgt].
    + intros [= <-]. split; [now left|]. split; [assumption|].
      intros r [<-|Hr] _; [lia | now apply Hr0].
    + intros H. apply IH in H. destruct H as (Hin & Hf & Hm).
      split; [now right|]. split; [assumption|].
      intros r [<-|Hr] Hrt; [lia | now apply Hm].
Qed.

Lemma asof_forward_none (t : Z) (right : list (Z * B)) :
  asof_forward t right = None -> forall r, In r right -> fst r < t.
Proof.
  induction right as [|r0 right IH]; cbn [asof_forward]; [contradiction|].
  destruct (Z.leb_spec t (fst r0)) as [Hle|Hgt]; [discriminate|].
  intros H r [<-|Hr]; [assumption | now apply IH].
Qed.

(** On sorted keys the nearest search returns a row at the least
    distance, and returns nothing only when there is no row. *)
Lemma asof_nearest_spec (t : Z) (right : list (Z * B)) :
  StronglySorted (key_le (@fst Z B)) right ->
  match asof_nearest t right with
  | Some r =>
      In r right
      /\ forall r', In r' right -> Z.abs (fst r - t) <= Z.abs (fst r' - t)
  | None => right = []
  end.
Proof.
  intros Hs. unfold asof_nearest, asof_backward.
  destruct (scan_backward t right None) as [b|] eqn:Hb;
    destruct (asof_forward t right) as [f|] eqn:Hf.
  - apply (scan_backward_some t right Hs) in Hb.
    destruct Hb as [[[=] _] | (Hbin & Hbt & Hbm)].
    apply (asof_forward_some t right Hs) in Hf.
    destruct Hf as (Hfin & Hft & Hfm).
    destruct (Z.leb_spec (t - fst b) (fst f - t)); (split; [assumption|]);
      intros r' Hr'; specialize (Hbm r' Hr'); specialize (Hfm r' Hr'); lia.
  - apply (scan_backward_some t right Hs) in Hb.
    destruct Hb as [[[=] _] | (Hbin & Hbt & Hbm)].
    pose proof (asof_forward_none t right Hf) as Hn.
    split; [assumption|].
    intros r' Hr'. specialize (Hbm r' Hr'). specialize (Hn r' Hr'). lia.
  - apply (scan_backward_none t right Hs) in Hb. destruct Hb as [_ Hn].
    apply (asof_forward_some t right Hs) in Hf.
    destruct Hf as (Hfin & Hft & Hfm).
    split; [assumption|].
    intros r' Hr'. specialize (Hfm r' Hr'). specialize (Hn r' Hr'). lia.
  - apply (scan_backward_none t right Hs) in Hb. destruct Hb as [_ Hn].
    pose proof (asof_forward_none t right Hf) as Hn'.
    destruct right as [|r right]; [reflexivity|].
    specialize (Hn r (or_introl eq_refl)).
    specialize (Hn' r (or_introl eq_refl)). lia.
Qed.

End AlignerFacts.

Section AlignerTheorems.
Context {A B : Type}.

Lemma merged_eq (temp_df : list (Z * B)) (spot_df : list (Z * A)) :
  plot_r2_vs_temperature_merged temp_df spot_df
  = Ok (map (fun l => (l, asof_nearest (fst l) (sort_values fst temp_df)))
            (sort_values fst spot_df)).
Proof.
  unfold plot_r2_vs_temperature_merged, merge_asof.
  rewrite !keys_sorted_of_sorted by apply sort_values_sorted.
  reflexivity.
Qed.

Lemma sorted_perm_unique {X : Type} (l1 : list (Z * X)) :
  StronglySorted (key_le fst) l1 ->
  forall l2, StronglySorted (key_le fst) l2 ->
  Permutation l1 l2 -> timestamp_determines_row l1 -> l1 = l2.
Proof.
  induction 1 as [|a l1 Hs1 IH Ha]; intros l2 Hs2 Hp Hd.
  - apply Permutation_nil in Hp. now subst.
  - destruct l2 as [|b l2];
      [apply Permutation_sym, Permutation_nil in Hp; discriminate|].
    apply StronglySorted_inv in Hs2 as [Hs2 Hb].
    rewrite Forall_forall in Ha, Hb. unfold key_le in Ha, Hb.
    assert (Hab : a = b).
    { assert (Hbin : In b (a :: l1))
        by (eapply Permutation_in; [apply Permutation_sym, Hp | now left]).
      assert (Hain : In a (b :: l2))
        by (eapply Permutation_in; [exact Hp | now left]).
      apply Hd; [now left | assumption |].
      destruct Hbin as [->|Hbin]; [reflexivity|].
      destruct Hain as [->|Hain]; [reflexivity|].
      specialize (Ha b Hbin). specialize (Hb a Hain). lia. }
    subst b. f_equal. apply IH; [assumption | |].
    + now apply Permutation_cons_inv in Hp.
    + intros x y Hx Hy. apply Hd; now right.
Qed.

Lemma sort_values_perm_eq {X : Type} (l l' : list (Z * X)) :
  Permutation l l' -> timestamp_determines_row l ->
  sort_values fst l = sort_values fst l'.
Proof.
  intros Hp Hd. apply sorted_perm_unique; try apply sort_values_sorted.
  - rewrite !sort_values_perm. exact Hp.
  - intros a b Ha Hb E. apply Hd; [| |exact E];
      (eapply Permutation_in; [apply (sort_values_perm fst) | assumption]).
Qed.

End AlignerTheorems.

(** C1.  For every sequence of spot frames and every sequence of
    temperature readings, the alignment returns one aligned sample per
    spot frame (the samples are the spot frames, each once, so their
    number is the number of frames, however far the nearest reading is),
    and no reading of the input is strictly closer in absolute time to a
    sample's spot timestamp than the reading attached to it; a sample is
    left without a reading only when there is no reading at all. *)
Theorem C1_one_nearest_sample_per_frame
        {A B : Type} (temp_df : list (Z * B)) (spot_df : list (Z * A)) :
  exists merged,
    plot_r2_vs_temperature_merged temp_df spot_df = Ok merged
    /\ List.length merged = List.length spot_df
    /\ Permutation (map fst merged) spot_df
    /\ Forall (fun sample =>
                 match snd sample with
                 | Some reading =>
                     In reading temp_df
                     /\ forall other, In other temp_df ->
                          Z.abs (fst reading - fst (fst sample))
                          <= Z.abs (fst other - fst (fst sample))
                 | None => temp_df = []
                 end) merged.
Proof.
  eexists. split; [apply merged_eq|].
  split; [now rewrite length_map, sort_values_length|].
  split.
  - rewrite map_map. cbn [fst]. rewrite map_id. apply sort_values_perm.
  - apply Forall_forall. intros sample Hs.
    apply in_map_iff in Hs. destruct Hs as (l & <- & _). cbn [fst snd].
    pose proof (asof_nearest_spec (fst l) (sort_values fst temp_df)
                  (sort_values_sorted fst temp_df)) as H.
    destruct (asof_nearest (fst l) (sort_values fst temp_df)) as [r|].
    + destruct H as [Hin Hmin]. split.
      * eapply Permutation_in; [apply (sort_values_perm fst) | exact Hin].
      * intros other Ho. apply Hmin.
        eapply Permutation_in;
          [apply Permutation_sym, (sort_values_perm fst) | exact Ho].
    + apply Permutation_nil. rewrite <- H. apply sort_values_perm.
Qed.

(** C10, as stated, fails: two readings taken at the same instant with
    different temperatures, given in the two possible orders, are
    permutations of one another and yet align the same spot frame with
    different readings. *)
Lemma C10_counterexample_duplicate_timestamps :
  Permutation [(0, 215); (0, 219)] [(0, 219); (0, 215)]
  /\ plot_r2_vs_temperature_merged [(0, 215); (0, 219)] [(0, tt)]
     = Ok [((0, tt), Some (0, 219))]
  /\ plot_r2_vs_temperature_merged [(0, 219); (0, 215)] [(0, tt)]
     = Ok [((0, tt), Some (0, 215))].
Proof. split; [apply perm_swap | split; reflexivity]. Qed.

(** C10, amended.  The alignment sorts both inputs by timestamp itself
    before the merge, so the merge never refuses its inputs as unsorted:
    the alignment succeeds on every pair of inputs, in whatever order
    their rows come.  The aligned output is the same for any permutation
    of either input's rows provided that, within each input, rows that
    share a timestamp are identical. *)
Theorem C10_alignment_sorts_its_inputs
        {A B : Type} (temp_df temp_df' : list (Z * B))
        (spot_df spot_df' : list (Z * A)) :
  (exists merged, plot_r2_vs_temperature_merged temp_df spot_df = Ok merged)
  /\ (Permutation temp_df temp_df' -> Permutation spot_df spot_df' ->
      timestamp_determines_row temp_df -> timestamp_determines_row spot_df ->
      plot_r2_vs_temperature_merged temp_df' spot_df'
      = plot_r2_vs_temperature_merged temp_df spot_df).
Proof.
  split; [eexists; apply merged_eq|].
  intros Ht Hs Dt Ds. rewrite !merged_eq.
  now rewrite (sort_values_perm_eq _ _ Ht Dt), (sort_values_perm_eq _ _ Hs Ds).
Qed.

Lemma C10_alignment_sorts_its_inputs_witness :
  plot_r2_vs_temperature_merged [(7, 219); (0, 215)] [(6, true); (2, false)]
  = plot_r2_vs_temperature_merged [(0, 215); (7, 219)] [(2, false); (6, true)].
Proof.
  apply (proj2 (C10_alignment_sorts_its_inputs
                  [(0, 215); (7, 219)] [(7, 219); (0, 215)]
                  [(2, false); (6, true)] [(6, true); (2, false)])).
  - apply perm_swap.
  - apply perm_swap.
  - intros a b [<-|[<-|[]]] [<-|[<-|[]]] E;
      try reflexivity; discriminate E.
  - intros a b [<-|[<-|[]]] [<-|[<-|[]]] E;
      try reflexivity; discriminate E.
Defined.

(** * Further properties of the loaders and of the alignment *)

(** ** File names *)

Section FileNameProperties.
Open Scope string_scope.

Lemma matches_pattern_prefix (pre name d t : string) :
  matches_pattern name d t -> matches_pattern (pre ++ name) d t.
Proof.
  intros (pre0 & nl & -> & H). exists (pre ++ pre0), nl.
  split; [now rewrite append_assoc_s | exact H].
Qed.

(** The pattern is searched for, not matched from the start: whatever
    text precedes a matching name, the parse gives the same result as on
    the name alone. *)
Theorem X1_parse_ignores_prefix (pre name d t : string) :
  matches_pattern name d t ->
  parse_spot_start_datetime (pre ++ name) = parse_spot_start_datetime name.
Proof.
  intros Hm.
  rewrite (parse_spot_start_datetime_matched _ _ _ Hm).
  now rewrite (parse_spot_start_datetime_matched _ _ _
                 (matches_pattern_prefix pre _ _ _ Hm)).
Qed.

Lemma X1_parse_ignores_prefix_witness :
  parse_spot_start_datetime "run7_copy_spot_position_20240522_153000.txt"
  = parse_spot_start_datetime "spot_position_20240522_153000.txt".
Proof.
  apply (X1_parse_ignores_prefix "run7_copy_"
           "spot_position_20240522_153000.txt" "20240522" "153000").
  exists "", "". split; [reflexivity | split; [repeat split | now left]].
Defined.

Lemma is_digit_digit_char (k : Z) :
  0 <= k <= 9 -> PyStr.is_digit (digit_char k) = true
                 /\ PyStr.digit_val (digit_char k) = k.
Proof.
  intros Hk.
  assert (H : k = 0 \/ k = 1 \/ k = 2 \/ k = 3 \/ k = 4 \/ k = 5 \/ k = 6
              \/ k = 7 \/ k = 8 \/ k = 9) by lia.
  repeat (destruct H as [-> | H]; [split; reflexivity|]).
  subst k. split; reflexivity.
Qed.

Lemma mod_10_range (a : Z) : 0 <= a mod 10 <= 9.
Proof. pose proof (Z.mod_pos_bound a 10 eq_refl). lia. Qed.

Lemma all_digits_app (a b : string) :
  PyStr.all_digits (a ++ b) = PyStr.all_digits a && PyStr.all_digits b.
Proof.
  induction a as [|c a IH]; simpl; [reflexivity|].
  now rewrite IH, andb_assoc.
Qed.

Lemma zfill_digits_length (w : nat) (n : Z) :
  PyStr.all_digits (zfill w n) = true /\ String.length (zfill w n) = w.
Proof.
  induction w as [|w [IHd IHl]]; cbn [zfill PyStr.all_digits String.length];
    [now split|].
  rewrite IHd, IHl, andb_true_r. split; [|reflexivity].
  apply is_digit_digit_char, mod_10_range.
Qed.

Lemma int_of_zfill_2 (n : Z) :
  0 <= n < 100 -> PyStr.int_of_digits (zfill 2 n) = n.
Proof.
  intros Hn. cbn [zfill PyStr.int_of_digits PyStr.int_of_digits_acc].
  change (10 ^ Z.of_nat 1) with 10. change (10 ^ Z.of_nat 0) with 1.
  rewrite !(proj2 (is_digit_digit_char _ (mod_10_range _))).
  Z.to_euclidean_division_equations. lia.
Qed.

Lemma int_of_zfill_4 (n : Z) :
  0 <= n < 10000 -> PyStr.int_of_digits (zfill 4 n) = n.
Proof.
  intros Hn. cbn [zfill PyStr.int_of_digits PyStr.int_of_digits_acc].
  change (10 ^ Z.of_nat 3) with 1000. change (10 ^ Z.of_nat 2) with 100.
  change (10 ^ Z.of_nat 1) with 10. change (10 ^ Z.of_nat 0) with 1.
  rewrite !(proj2 (is_digit_digit_char _ (mod_10_range _))).
  Z.to_euclidean_division_equations. lia.
Qed.

Lemma valid_fields_bounds (y m d H M S : Z) :
  valid_fields y m d H M S = true ->
  1 <= y /\ 1 <= m <= 12 /\ 1 <= d <= 31 /\ H <= 23 /\ M <= 59 /\ S <= 59.
Proof.
  unfold valid_fields. intros Hv.
  repeat (apply andb_true_iff in Hv; destruct Hv as [Hv ?]).
  pose proof (_days_in_month_le_31 y m). lia.
Qed.

(** The file name written from an instant parses back to it: for every
    date of the calendar with a time of day, the name
    [spot_position_YYYYMMDD_HHMMSS.txt] made of its zero-padded fields
    gives that instant. *)
Theorem X2_name_of_instant_parses_back (dt : datetime) :
  valid_fields (year dt) (month dt) (day dt)
               (hour dt) (minute dt) (second dt) = true ->
  year dt <= 9999 -> 0 <= hour dt -> 0 <= minute dt -> 0 <= second dt ->
  parse_spot_start_datetime (pattern_text (format_date dt) (format_time dt))
  = Ok dt.
Proof.
  destruct dt as [y m d H M S]. cbn [year month day hour minute second].
  intros Hv Hy HH HM HS.
  pose proof (valid_fields_bounds _ _ _ _ _ _ Hv) as B.
  set (dt := mk_datetime y m d H M S).
  assert (H86 : eight_six_digits (format_date dt) (format_time dt)).
  { unfold eight_six_digits, format_date, format_time.
    rewrite !length_append_s, !all_digits_app.
    rewrite !(proj1 (zfill_digits_length _ _)).
    rewrite !(proj2 (zfill_digits_length _ _)).
    repeat split; reflexivity. }
  assert (Hm : matches_pattern (pattern_text (format_date dt) (format_time dt))
                 (format_date dt) (format_time dt)).
  { exists "", "". cbn [append]. rewrite append_nil_r_s.
    split; [reflexivity | split; [exact H86 | now left]]. }
  rewrite (parse_spot_start_datetime_matched _ _ _ Hm).
  assert (Hd : date_fields (format_date dt) = (y, m, d)).
  { unfold date_fields, format_date, dt. cbn [year month day].
    replace (substring 0 4 (zfill 4 y ++ zfill 2 m ++ zfill 2 d))
      with (zfill 4 y) by reflexivity.
    replace (substring 4 2 (zfill 4 y ++ zfill 2 m ++ zfill 2 d))
      with (zfill 2 m) by reflexivity.
    replace (substring 6 2 (zfill 4 y ++ zfill 2 m ++ zfill 2 d))
      with (zfill 2 d) by reflexivity.
    rewrite int_of_zfill_4, !int_of_zfill_2 by lia. reflexivity. }
  assert (Ht : time_fields (format_time dt) = (H, M, S)).
  { unfold time_fields, format_time, dt. cbn [hour minute second].
    replace (substring 0 2 (zfill 2 H ++ zfill 2 M ++ zfill 2 S))
      with (zfill 2 H) by reflexivity.
    replace (substring 2 2 (zfill 2 H ++ zfill 2 M ++ zfill 2 S))
      with (zfill 2 M) by reflexivity.
    replace (substring 4 2 (zfill 2 H ++ zfill 2 M ++ zfill 2 S))
      with (zfill 2 S) by reflexivity.
    rewrite !int_of_zfill_2 by lia. reflexivity. }
  unfold valid_start, start_instant. rewrite Hd, Ht, Hv. reflexivity.
Qed.

Lemma X2_name_of_instant_parses_back_witness :
  parse_spot_start_datetime "spot_position_20240229_235959.txt"
  = Ok (mk_datetime 2024 2 29 23 59 59).
Proof.
  apply (X2_name_of_instant_parses_back (mk_datetime 2024 2 29 23 59 59));
    cbn [year hour minute second]; try lia.
  reflexivity.
Defined.

End FileNameProperties.

(** ** The numeric normaliser *)

Section NormalizerProperties.
Import NormalizerSpec.
Open Scope string_scope.

Lemma count_comma_commas_to_dots (s : string) :
  PyStr.count ","%char (commas_to_dots s) = 0.
Proof.
  induction s as [|c s IH]; cbn [commas_to_dots PyStr.count]; [reflexivity|].
  rewrite IH. destruct (Ascii.eqb_spec c ","); [reflexivity|].
  destruct (Ascii.eqb_spec c ","); [contradiction | reflexivity].
Qed.

Lemma count_comma_remove_dots (s : string) :
  PyStr.count ","%char (remove_dots s) = PyStr.count ","%char s.
Proof.
  induction s as [|c s IH]; cbn [remove_dots PyStr.count]; [reflexivity|].
  unfold is_dot. destruct (Ascii.eqb_spec c ".") as [->|Hc].
  - rewrite IH. reflexivity.
  - cbn [PyStr.count]. now rewrite IH.
Qed.

Lemma count_comma_keep_first_dot (s : string) :
  PyStr.count ","%char (keep_first_dot s) = PyStr.count ","%char s.
Proof.
  induction s as [|c s IH]; cbn [keep_first_dot PyStr.count]; [reflexivity|].
  destruct (is_dot c); cbn [PyStr.count];
    now rewrite ?IH, ?count_comma_remove_dots.
Qed.

Lemma number_of_dots_remove_dots (s : string) :
  number_of_dots (remove_dots s) = 0%nat.
Proof.
  induction s as [|c s IH]; cbn [remove_dots number_of_dots]; [reflexivity|].
  destruct (is_dot c) eqn:Hc; [assumption|].
  cbn [number_of_dots]. now rewrite Hc.
Qed.

Lemma number_of_dots_keep_first_dot (s : string) :
  (number_of_dots (keep_first_dot s) <= 1)%nat.
Proof.
  induction s as [|c s IH]; cbn [keep_first_dot number_of_dots]; [lia|].
  destruct (is_dot c) eqn:Hc; cbn [number_of_dots]; rewrite Hc.
  - rewrite number_of_dots_remove_dots. lia.
  - exact IH.
Qed.

Lemma clean_text_fix_up (value : string) :
  clean_text value = fix_up (PyStr.strip value).
Proof. rewrite clean_text_normalize. apply normalize_keep. Qed.

(** Whatever the token, the text handed to [float] holds no comma and
    at most one dot. *)
Theorem X3_clean_text_one_decimal_mark (value : string) :
  PyStr.count ","%char (clean_text value) = 0
  /\ PyStr.count "."%char (clean_text value) <= 1.
Proof.
  rewrite clean_text_fix_up. unfold fix_up. split.
  - now rewrite count_comma_keep_first_dot, count_comma_commas_to_dots.
  - rewrite count_dot.
    pose proof (number_of_dots_keep_first_dot
                  (commas_to_dots (PyStr.strip value))). lia.
Qed.

Lemma commas_to_dots_no_comma (s : string) :
  PyStr.count ","%char s = 0 -> commas_to_dots s = s.
Proof.
  induction s as [|c s IH]; cbn [commas_to_dots PyStr.count]; [reflexivity|].
  assert (0 <= PyStr.count "," s).
  { clear. induction s as [|c s IH]; cbn [PyStr.count]; [lia|].
    destruct (Ascii.eqb c ","); lia. }
  destruct (Ascii.eqb c ","); [lia|]. intros Hc. now rewrite IH by lia.
Qed.

Lemma fix_up_idempotent (s : string) : fix_up (fix_up s) = fix_up s.
Proof.
  unfold fix_up. rewrite (commas_to_dots_no_comma (keep_first_dot _)).
  - apply keep_first_dot_id, number_of_dots_keep_first_dot.
  - now rewrite count_comma_keep_first_dot, count_comma_commas_to_dots.
Qed.

Lemma strip_fix_up_strip (s : string) :
  PyStr.strip (fix_up (PyStr.strip s)) = PyStr.strip (fix_up s).
Proof.
  destruct (strip_decomp s) as (sp1 & sp2 & H1 & H2 & E).
  rewrite E at 2. rewrite fix_up_pad by assumption. now rewrite strip_pad.
Qed.

(** Cleaning is stable where the cleaned text has no whitespace at
    its ends: the fix-up leaves such a text as it is, so the token that
    has been through the fix-up once gives the same number (or the same
    error) when it goes through [clean_number] again. *)
Theorem X4_clean_number_of_cleaned_text (value : string) :
  PyStr.strip (clean_text value) = clean_text value ->
  clean_text (clean_text value) = clean_text value
  /\ clean_number (VStr (clean_text value)) = clean_number (VStr value).
Proof.
  intros H.
  assert (E : clean_text (clean_text value) = clean_text value).
  { rewrite (clean_text_fix_up (clean_text value)), H.
    rewrite clean_text_fix_up. apply fix_up_idempotent. }
  split; [exact E|]. cbn [clean_number isna]. now rewrite E.
Qed.

Lemma X4_clean_number_of_cleaned_text_witness :
  clean_text (clean_text "20.369.706") = clean_text "20.369.706"
  /\ clean_number (VStr (clean_text "20.369.706"))
     = clean_number (VStr "20.369.706").
Proof.
  apply (X4_clean_number_of_cleaned_text "20.369.706"). reflexivity.
Defined.

(** Removing a dot can leave whitespace at the end of the text, which
    [float] does not always skip: the token [1.], 0x1c, [.] is refused,
    and its cleaned text is read as 1.0. *)
Example cleaned_text_may_end_in_whitespace :
  clean_text (String "1" (String "." (String "028" ".")))
  = String "1" (String "." (String "028" ""))
  /\ clean_number (VStr (String "1" (String "." (String "028" "."))))
     = Raise ValueError
  /\ clean_number
       (VStr (clean_text (String "1" (String "." (String "028" ".")))))
     = Ok (S754_finite false 4503599627370496 (-52)).
Proof. repeat split; reflexivity. Qed.

Lemma is_space_comma_to_dot (c : ascii) :
  PyStr.is_space (if Ascii.eqb c ","%char then "."%char else c)
  = PyStr.is_space c.
Proof. destruct (Ascii.eqb_spec c ","); [now subst | reflexivity]. Qed.

Lemma lstrip_commas_to_dots (s : string) :
  PyStr.lstrip (commas_to_dots s) = commas_to_dots (PyStr.lstrip s).
Proof.
  induction s as [|c s IH]; cbn [commas_to_dots PyStr.lstrip]; [reflexivity|].
  rewrite is_space_comma_to_dot. now destruct (PyStr.is_space c).
Qed.

Lemma rstrip_commas_to_dots (s : string) :
  PyStr.rstrip (commas_to_dots s) = commas_to_dots (PyStr.rstrip s).
Proof.
  induction s as [|c s IH]; cbn [commas_to_dots PyStr.rstrip]; [reflexivity|].
  rewrite IH, is_space_comma_to_dot.
  destruct (PyStr.rstrip s) as [|c' r]; cbn [commas_to_dots];
    [now destruct (PyStr.is_space c) | reflexivity].
Qed.

Lemma commas_to_dots_idempotent (s : string) :
  commas_to_dots (commas_to_dots s) = commas_to_dots s.
Proof.
  apply commas_to_dots_no_comma, count_comma_commas_to_dots.
Qed.

(** A comma is read exactly as a dot: writing dots for the commas of a
    token changes nothing in what [clean_number] returns. *)
Theorem X5_comma_is_read_as_dot (value : string) :
  clean_number (VStr (PyStr.replace ","%char "." value))
  = clean_number (VStr value).
Proof.
  cbn [clean_number isna]. f_equal.
  rewrite !clean_text_fix_up, replace_comma. unfold fix_up, PyStr.strip.
  rewrite lstrip_commas_to_dots, rstrip_commas_to_dots.
  now rewrite commas_to_dots_idempotent.
Qed.

End NormalizerProperties.

(** ** The spot log loader *)

Section SpotLoaderProperties.
Open Scope string_scope.

Lemma filter_nonempty {X : Type} (p : X -> bool) (l : list X) (x : X) :
  In x l -> p x = true -> filter p l <> [].
Proof.
  intros Hin Hp Hf.
  assert (H : In x (filter p l)) by (apply filter_In; now split).
  rewrite Hf in H. exact H.
Qed.

(** A table that lacks one of the six required columns is refused with a
    [ValueError], once the file name has been accepted. *)
Theorem X6_missing_required_column_raises
        (name : string) (spot_df : DataFrame) (start_dt : datetime)
        (col : string) :
  parse_spot_start_datetime name = Ok start_dt ->
  In col required_columns -> mem col (columns spot_df) = false ->
  load_spot_positions name spot_df = Raise ValueError.
Proof.
  intros Hp Hin Hm. unfold load_spot_positions. rewrite Hp. cbn [bind].
  pose proof (filter_nonempty
                (fun c => negb (mem c (columns spot_df)))
                required_columns col Hin) as Hf.
  destruct (filter _ required_columns); [|reflexivity].
  elim Hf; [now rewrite Hm | reflexivity].
Qed.

Lemma X6_missing_required_column_raises_witness :
  load_spot_positions "spot_position_20240101_000000.txt"
    [("frame_index", Int64 [0; 1]); ("center_x_mm", Float64 []);
     ("center_y_mm", Float64 []); ("minor_axis_mm", Float64 []);
     ("major_axis_mm", Float64 [])]
  = Raise ValueError.
Proof.
  apply (X6_missing_required_column_raises _ _
           (mk_datetime 2024 1 1 0 0 0) "angle_deg").
  - reflexivity.
  - simpl. tauto.
  - reflexivity.
Defined.

Lemma for_each_clean_other (cols : list string) (name : string) :
  mem name cols = false ->
  forall df df', for_each apply_clean_number cols df = Ok df' ->
                 df_get name df' = df_get name df.
Proof.
  induction cols as [|c cols IH]; intros Hm df df'; cbn [for_each].
  - now intros [= <-].
  - cbn [mem existsb] in Hm. apply orb_false_iff in Hm as [Hc Hm].
    unfold bind. destruct (apply_clean_number c df) as [df1|] eqn:E;
      [|discriminate].
    intros H. rewrite (IH Hm _ _ H).
    apply (apply_clean_number_other _ _ _ _ E).
    now rewrite String.eqb_sym.
Qed.

(** The steps of a successful load, with the table before and after. *)
Lemma load_spot_positions_steps (name : string) (spot_df out : DataFrame) :
  load_spot_positions name spot_df = Ok out ->
  exists (start_dt : datetime) (fi : Series) (frames : list Z)
         (df : DataFrame) (stamps : list datetime) (r2 : list float),
    parse_spot_start_datetime name = Ok start_dt
    /\ filter (fun col => negb (mem col (columns spot_df))) required_columns
       = []
    /\ df_get "frame_index" spot_df = Ok fi
    /\ astype_int fi = Ok frames
    /\ for_each apply_clean_number (tl required_columns)
         (df_set "frame_index" (Int64 frames) spot_df) = Ok df
    /\ mapM (fun frame => td <- DT.timedelta_minutes frame ;;
                          DT.add start_dt td) frames = Ok stamps
    /\ out = df_set "r_squared_shift_mm2" (Float64 r2)
               (df_set "timestamp" (Datetimes stamps) df).
Proof.
  unfold load_spot_positions. unfold bind at 1.
  destruct (parse_spot_start_datetime name) as [start_dt|]; [|discriminate].
  destruct (filter _ required_columns) eqn:Hcols; [|discriminate].
  unfold bind at 1.
  destruct (df_get "frame_index" spot_df) as [fi|]; [|discriminate].
  unfold bind at 1.
  destruct (astype_int fi) as [frames|] eqn:Hfi; [|discriminate].
  unfold bind at 1.
  destruct (for_each _ _ _) as [df|] eqn:Hfor; [|discriminate].
  unfold bind at 1. destruct (at0 _ df) as [x0|]; [|discriminate].
  unfold bind at 1. destruct (at0 _ df) as [y0|]; [|discriminate].
  unfold bind at 1.
  destruct (mapM _ frames) as [stamps|] eqn:Hst; [|discriminate].
  unfold bind at 1. destruct (float_column _ _) as [xs|]; [|discriminate].
  unfold bind at 1. destruct (float_column _ _) as [ys|]; [|discriminate].
  intros [= <-].
  exists start_dt, fi, frames, df, stamps,
    (map2 (r_squared x0 y0) xs ys). now repeat split.
Qed.

(** The loader leaves every other column of the file as it was: a
    column that is neither one of the six required ones nor named
    [timestamp] or [r_squared_shift_mm2] comes out unchanged (and a
    column the file does not have is still absent). *)
Theorem X7_other_columns_untouched
        (name : string) (spot_df out : DataFrame) (col : string) :
  load_spot_positions name spot_df = Ok out ->
  mem col required_columns = false ->
  (col =? "timestamp") = false -> (col =? "r_squared_shift_mm2") = false ->
  df_get col out = df_get col spot_df.
Proof.
  intros H Hreq Hts Hr2. apply load_spot_positions_steps in H.
  destruct H as (start_dt & fi & frames & df & stamps & r2
                 & _ & _ & _ & _ & Hfor & _ & ->).
  rewrite !df_get_set_other by (now rewrite String.eqb_sym).
  change (mem col required_columns)
    with ((col =? "frame_index") || mem col (tl required_columns)) in Hreq.
  apply orb_false_iff in Hreq as [Hfi Hreq].
  rewrite (for_each_clean_other _ col Hreq _ _ Hfor).
  apply df_get_set_other. now rewrite String.eqb_sym.
Qed.

Lemma X7_other_columns_untouched_witness :
  df_get "note"
    (df_set "r_squared_shift_mm2" (Float64 [Float.zero])
       (df_set "timestamp" (Datetimes [mk_datetime 2024 1 1 0 2 0])
          [("note", Object [Some "ok"]); ("frame_index", Int64 [2]);
           ("center_x_mm", Float64 [Float.zero]);
           ("center_y_mm", Float64 [Float.zero]);
           ("minor_axis_mm", Float64 [Float.zero]);
           ("major_axis_mm", Float64 [Float.zero]);
           ("angle_deg", Float64 [Float.zero])]))
  = df_get "note"
      [("note", Object [Some "ok"]); ("frame_index", Int64 [2]);
       ("center_x_mm", Float64 [Float.zero]);
       ("center_y_mm", Float64 [Float.zero]);
       ("minor_axis_mm", Float64 [Float.zero]);
       ("major_axis_mm", Float64 [Float.zero]);
       ("angle_deg", Float64 [Float.zero])].
Proof.
  apply (X7_other_columns_untouched "spot_position_20240101_000000.txt");
    reflexivity.
Defined.

Lemma mem_In (c : string) (l : list string) :
  mem c l = true <-> In c l.
Proof.
  unfold mem. rewrite existsb_exists. split.
  - intros (x & Hx & E). apply String.eqb_eq in E. now subst.
  - intros H. exists c. split; [assumption | apply String.eqb_refl].
Qed.

Lemma df_get_mem (c : string) (df : DataFrame) :
  mem c (columns df) = true <-> exists s, df_get c df = Ok s.
Proof.
  induction df as [|[n s0] df IH]; cbn [columns map fst mem existsb df_get].
  - split; [discriminate | intros [s [=]]].
  - rewrite (String.eqb_sym c n). destruct (n =? c); cbn [orb].
    + split; [now exists s0 | reflexivity].
    + exact IH.
Qed.

Lemma required_columns_present (spot_df : DataFrame) (c : string) :
  filter (fun col => negb (mem col (columns spot_df))) required_columns = [] ->
  In c required_columns -> exists s, df_get c spot_df = Ok s.
Proof.
  intros Hf Hin. apply df_get_mem.
  destruct (mem c (columns spot_df)) eqn:E; [reflexivity|].
  elim (filter_nonempty _ _ c Hin (f_equal negb E) Hf).
Qed.

Lemma mapM_length {X Y : Type} (f : X -> result Y) (l : list X) (l' : list Y) :
  mapM f l = Ok l' -> List.length l' = List.length l.
Proof.
  intros H. apply mapM_Forall2 in H.
  induction H; cbn [List.length]; [reflexivity | now f_equal].
Qed.

Lemma astype_int_length (s : Series) (frames : list Z) :
  astype_int s = Ok frames -> List.length frames = List.length (items s).
Proof.
  destruct s as [l|l|l|l|l]; cbn [astype_int items]; rewrite ?length_map;
    try discriminate.
  - now intros [= <-].
  - apply mapM_length.
  - apply mapM_length.
Qed.

Lemma apply_clean_number_rows (column : string) (df df' : DataFrame) :
  apply_clean_number column df = Ok df' ->
  forall c s, df_get c df = Ok s ->
    exists s', df_get c df' = Ok s'
               /\ List.length (items s') = List.length (items s).
Proof.
  unfold apply_clean_number, bind.
  destruct (df_get column df) as [s0|] eqn:E0; [|discriminate].
  destruct (mapM clean_number (items s0)) as [xs|] eqn:Ex; [|discriminate].
  intros [= <-] c s Hc.
  destruct (String.eqb_spec column c) as [->|Hne].
  - rewrite df_get_set_same. exists (Float64 xs). split; [reflexivity|].
    rewrite Hc in E0. injection E0 as ->.
    cbn [items]. rewrite length_map. now apply mapM_length in Ex.
  - rewrite df_get_set_other by (now apply String.eqb_neq).
    now exists s.
Qed.

Lemma for_each_clean_rows (cols : list string) :
  forall df df', for_each apply_clean_number cols df = Ok df' ->
  forall c s, df_get c df = Ok s ->
    exists s', df_get c df' = Ok s'
               /\ List.length (items s') = List.length (items s).
Proof.
  induction cols as [|c0 cols IH]; intros df df'; cbn [for_each].
  - intros [= <-] c s Hc. now exists s.
  - unfold bind. destruct (apply_clean_number c0 df) as [df1|] eqn:E;
      [|discriminate].
    intros H c s Hc.
    destruct (apply_clean_number_rows _ _ _ E c s Hc) as (s1 & H1 & L1).
    destruct (IH _ _ H c s1 H1) as (s' & H' & L').
    exists s'. split; [assumption | congruence].
Qed.

(** The loader keeps the rows: each of the six required columns comes
    out with as many values as it went in with, and the timestamp column
    has one value per frame index. *)
Theorem X8_row_counts_kept (name : string) (spot_df out : DataFrame) :
  load_spot_positions name spot_df = Ok out ->
  (forall col, In col required_columns ->
     exists s_in s_out,
       df_get col spot_df = Ok s_in /\ df_get col out = Ok s_out
       /\ List.length (items s_out) = List.length (items s_in))
  /\ exists fi stamps,
       df_get "frame_index" spot_df = Ok fi
       /\ df_get "timestamp" out = Ok (Datetimes stamps)
       /\ List.length stamps = List.length (items fi).
Proof.
  intros H. apply load_spot_positions_steps in H.
  destruct H as (start_dt & fi & frames & df & stamps & r2
                 & _ & Hcols & Hfi & Hint & Hfor & Hst & ->).
  pose proof (astype_int_length _ _ Hint) as Lfi.
  split.
  - intros col Hin.
    destruct (required_columns_present _ _ Hcols Hin) as (s_in & Hin').
    assert (Hne : forall c, In c required_columns ->
                            (c =? "timestamp") = false
                            /\ (c =? "r_squared_shift_mm2") = false).
    { intros c Hc. cbn [required_columns In] in Hc.
      repeat (destruct Hc as [<- | Hc]; [split; reflexivity|]).
      contradiction. }
    destruct (Hne col Hin) as [N1 N2].
    assert (H1 : exists s1,
               df_get col (df_set "frame_index" (Int64 frames) spot_df)
               = Ok s1
               /\ List.length (items s1) = List.length (items s_in)).
    { destruct (String.eqb_spec "frame_index" col) as [<-|Hne'].
      - rewrite df_get_set_same. exists (Int64 frames).
        split; [reflexivity|]. cbn [items]. rewrite length_map.
        rewrite Hfi in Hin'. injection Hin' as <-. exact Lfi.
      - rewrite df_get_set_other by (now apply String.eqb_neq).
        now exists s_in. }
    destruct H1 as (s1 & H1 & L1).
    destruct (for_each_clean_rows _ _ _ Hfor col s1 H1) as (s' & H' & L').
    exists s_in, s'. split; [assumption|]. split; [|congruence].
    rewrite !df_get_set_other by (now rewrite String.eqb_sym). exact H'.
  - exists fi, stamps. split; [assumption|].
    rewrite df_get_set_other by reflexivity. rewrite df_get_set_same.
    split; [reflexivity|]. apply mapM_length in Hst. congruence.
Qed.

Lemma X8_row_counts_kept_witness :
  (forall col, In col required_columns ->
     exists s_in s_out,
       df_get col spot_df_example = Ok s_in
       /\ df_get col spot_out_example = Ok s_out
       /\ List.length (items s_out) = List.length (items s_in))
  /\ exists fi stamps,
       df_get "frame_index" spot_df_example = Ok fi
       /\ df_get "timestamp" spot_out_example = Ok (Datetimes stamps)
       /\ List.length stamps = List.length (items fi).
Proof.
  exact (X8_row_counts_kept _ _ _ spot_out_example_eq).
Defined.

Lemma for_each_clean_empty (cols : list string) :
  forall df,
    (forall c, In c cols -> exists s, df_get c df = Ok s /\ items s = []) ->
    exists df',
      for_each apply_clean_number cols df = Ok df'
      /\ forall c, In c cols -> df_get c df' = Ok (Float64 []).
Proof.
  induction cols as [|c0 cols IH]; intros df Hall; cbn [for_each].
  - exists df. split; [reflexivity | contradiction].
  - destruct (Hall c0 (or_introl eq_refl)) as (s0 & H0 & I0).
    assert (E : apply_clean_number c0 df = Ok (df_set c0 (Float64 []) df)).
    { unfold apply_clean_number. rewrite H0. cbn [bind]. now rewrite I0. }
    rewrite E. cbn [bind].
    destruct (IH (df_set c0 (Float64 []) df)) as (df' & Hfor & Hget).
    { intros c Hc. destruct (String.eqb_spec c0 c) as [<-|Hne].
      - rewrite df_get_set_same. now exists (Float64 []).
      - rewrite df_get_set_other by (now apply String.eqb_neq).
        apply Hall. now right. }
    exists df'. split; [assumption|].
    intros c [<-|Hc]; [|now apply Hget].
    destruct (mem c0 cols) eqn:Hm.
    + apply Hget. now apply mem_In.
    + rewrite (for_each_clean_other _ _ Hm _ _ Hfor).
      apply df_get_set_same.
Qed.

(** A file with a header and no data row is refused: with the six
    required columns present and empty, the lookup of the first row's
    centre raises [KeyError]. *)
Theorem X9_table_without_rows_raises
        (name : string) (spot_df : DataFrame) (start_dt : datetime) :
  parse_spot_start_datetime name = Ok start_dt ->
  (forall col, In col required_columns ->
     exists s, df_get col spot_df = Ok s /\ items s = []
               /\ from_read_csv s = true) ->
  load_spot_positions name spot_df = Raise KeyError.
Proof.
  intros Hp Hall. unfold load_spot_positions. rewrite Hp. cbn [bind].
  assert (Hf : filter (fun col => negb (mem col (columns spot_df)))
                      required_columns = []).
  { destruct (filter _ required_columns) as [|c l] eqn:E; [reflexivity|].
    assert (Hc : In c (c :: l)) by now left.
    rewrite <- E in Hc. apply filter_In in Hc as [Hin Hm].
    destruct (Hall c Hin) as (s & Hs & _).
    assert (mem c (columns spot_df) = true) by (apply df_get_mem; now exists s).
    rewrite H in Hm. discriminate. }
  rewrite Hf.
  destruct (Hall "frame_index" (or_introl eq_refl)) as (fi & Hfi & Ifi & Dfi).
  rewrite Hfi. cbn [bind].
  assert (Hint : astype_int fi = Ok []).
  { destruct fi as [l|l|l|l|l]; try discriminate; cbn [items] in Ifi;
      apply map_eq_nil in Ifi; now subst. }
  rewrite Hint. cbn [bind].
  destruct (for_each_clean_empty (tl required_columns)
              (df_set "frame_index" (Int64 []) spot_df))
    as (df & Hfor & Hget).
  { intros c Hc.
    assert (Hin : In c required_columns) by now right.
    destruct (Hall c Hin) as (s & Hs & Is & _).
    exists s. split; [|assumption].
    rewrite df_get_set_other; [assumption|].
    cbn [tl required_columns In] in Hc.
    repeat (destruct Hc as [<- | Hc]; [reflexivity|]). contradiction. }
  rewrite Hfor. cbn [bind]. unfold at0.
  rewrite (Hget "center_x_mm" (or_introl eq_refl)). reflexivity.
Qed.

Lemma X9_table_without_rows_raises_witness :
  load_spot_positions "spot_position_20240101_000000.txt"
    [("frame_index", Object []); ("center_x_mm", Object []);
     ("center_y_mm", Object []); ("minor_axis_mm", Object []);
     ("major_axis_mm", Object []); ("angle_deg", Object [])]
  = Raise KeyError.
Proof.
  apply (X9_table_without_rows_raises _ _ (mk_datetime 2024 1 1 0 0 0)).
  - reflexivity.
  - intros col Hin. cbn [required_columns In] in Hin.
    repeat (destruct Hin as [<- | Hin];
            [exists (Object []); repeat split; reflexivity|]).
    contradiction.
Defined.

End SpotLoaderProperties.

(** ** Timestamps of the spot frames *)

Section TimestampProperties.
Import Calendar.

Lemma month_day_in_month_all (leapyear : bool) (n : Z) :
  0 <= n < 365 -> month_day_in_month leapyear n = true.
Proof.
  intros Hn.
  assert (H : forallb (fun k => month_day_in_month leapyear (Z.of_nat k))
                      (seq 0 365) = true)
    by (destruct leapyear; vm_compute; reflexivity).
  rewrite forallb_forall in H.
  specialize (H (Z.to_nat n)). rewrite Z2Nat.id in H by lia.
  apply H, in_seq. lia.
Qed.

(** [date.fromordinal] returns a date of the calendar, in the years 1 to
    9999. *)
Lemma _ord2ymd_valid (n0 : Z) :
  1 <= n0 <= _MAXORDINAL ->
  let '(y, m, d) := _ord2ymd n0 in
  1 <= y <= 9999 /\ 1 <= m <= 12 /\ 1 <= d <= _days_in_month y m.
Proof.
  intros Hn0. rewrite _ord2ymd_eq. cbv zeta.
  unfold _DI400Y, _DI100Y, _DI4Y, _MAXORDINAL in *.
  set (n := n0 - 1).
  set (n400 := n / 146097). set (r400 := n mod 146097).
  set (n100 := r400 / 36524). set (r100 := r400 mod 36524).
  set (n4 := r100 / 1461). set (r4 := r100 mod 1461).
  set (n1 := r4 / 365). set (r1 := r4 mod 365).
  assert (H400 : n = 146097 * n400 + r400 /\ 0 <= r400 < 146097)
    by (subst n400 r400; split;
        [apply Z.div_mod; lia | apply Z.mod_pos_bound; lia]).
  assert (H100 : r400 = 36524 * n100 + r100 /\ 0 <= r100 < 36524)
    by (subst n100 r100; split;
        [apply Z.div_mod; lia | apply Z.mod_pos_bound; lia]).
  assert (H4 : r100 = 1461 * n4 + r4 /\ 0 <= r4 < 1461)
    by (subst n4 r4; split;
        [apply Z.div_mod; lia | apply Z.mod_pos_bound; lia]).
  assert (H1 : r4 = 365 * n1 + r1 /\ 0 <= r1 < 365)
    by (subst n1 r1; split;
        [apply Z.div_mod; lia | apply Z.mod_pos_bound; lia]).
  assert (Hn : 0 <= n <= 3652058) by (subst n; lia).
  clearbody n n400 r400 n100 r100 n4 r4 n1 r1.
  assert (B : 0 <= n400 <= 24 /\ 0 <= n100 <= 4 /\ 0 <= n4 <= 24
              /\ 0 <= n1 <= 4) by lia.
  set (y1 := n400 * 400 + (n100 * 100 + n4 * 4 + n1)).
  assert (Hy1 : 0 <= y1 <= 9999
                /\ (n1 <> 4 -> n100 <> 4 -> y1 <= 9998)).
  { subst y1. split; [split; [lia|]|intros N1 N100].
    - assert (n400 = 24 -> n100 <= 3) by lia.
      assert (n400 = 24 -> n100 = 3 -> n4 = 24 -> n1 <= 3) by lia. lia.
    - assert (n400 = 24 -> n100 = 3 -> n4 = 24 -> n1 <= 2) by lia. lia. }
  destruct (Z.eqb_spec n1 4) as [E1|E1]; cbn [orb].
  - replace (n400 * 400 + 1 + (n100 * 100 + n4 * 4 + n1) - 1) with y1
      by (subst y1; lia).
    unfold _days_in_month. cbn. subst y1. lia.
  - destruct (Z.eqb_spec n100 4) as [E100|E100].
    + replace (n400 * 400 + 1 + (n100 * 100 + n4 * 4 + n1) - 1) with y1
        by (subst y1; lia).
      unfold _days_in_month. cbn. subst y1. lia.
    + set (leapyear := (n1 =? 3) && (negb (n4 =? 24) || (n100 =? 3))).
      pose proof (month_day_in_month_all leapyear r1 (proj2 H1)) as Hok.
      unfold month_day_in_month in Hok.
      destruct (month_day leapyear r1) as [m d].
      apply andb_true_iff in Hok as [Hok Hdim].
      apply andb_true_iff in Hok as [Hok Hd].
      apply andb_true_iff in Hok as [Hm1 Hm12].
      apply Z.leb_le in Hm1, Hm12, Hd, Hdim.
      assert (Hleap : _is_leap (n400 * 400 + 1 + (n100 * 100 + n4 * 4 + n1))
                      = leapyear).
      { unfold _is_leap, leapyear.
        replace (n400 * 400 + 1 + (n100 * 100 + n4 * 4 + n1)) with (y1 + 1)
          by (subst y1; lia).
        subst y1.
        destruct (Z.eqb_spec n1 3), (Z.eqb_spec n4 24), (Z.eqb_spec n100 3);
          cbn [andb orb negb];
          repeat match goal with
                 | |- context [?a mod ?b =? 0] =>
                     destruct (Z.eqb_spec (a mod b) 0)
                 end; cbn [andb orb negb]; try reflexivity;
          exfalso; Z.to_euclidean_division_equations; lia. }
      split; [subst y1; lia|]. split; [lia|]. split; [lia|].
      unfold _days_in_month. rewrite Hleap.
      destruct (Z.eqb_spec m 2) as [->|Hm2]; cbn [andb] in *.
      * destruct leapyear; cbn in Hdim |- *; lia.
      * lia.
Qed.

Lemma add_valid (self : datetime) (other : timedelta) (r : datetime) :
  DT.add self other = Ok r ->
  valid_fields (year r) (month r) (day r) (hour r) (minute r) (second r)
  = true
  /\ year r <= 9999 /\ 0 <= hour r /\ 0 <= minute r /\ 0 <= second r.
Proof.
  unfold DT.add, DT.new_timedelta, bind. cbv zeta.
  destruct (Z.abs _ >? 999999999); [discriminate|].
  cbn [td_days td_seconds].
  destruct (Z.abs _ >? 999999999); [discriminate|].
  cbn [td_days td_seconds].
  match goal with
  | |- context [_ord2ymd ?D0] => set (D := D0)
  end.
  destruct (Z.ltb_spec 0 D) as [HD|]; [|discriminate]. cbn [andb].
  destruct (Z.leb_spec D _MAXORDINAL) as [HM|]; [|discriminate].
  pose proof (_ord2ymd_valid D ltac:(lia)) as Hv.
  destruct (_ord2ymd D) as [[y m] d].
  intros [= <-]. cbn [year month day hour minute second].
  destruct Hv as (Hy & Hm & Hd).
  match goal with
  | |- context [?s mod 86400 / 3600] => set (Sec := s mod 86400)
  end.
  assert (HS : 0 <= Sec < 86400) by (apply Z.mod_pos_bound; lia).
  clearbody Sec.
  assert (R : 0 <= Sec / 3600 <= 23 /\ 0 <= Sec mod 3600 / 60 <= 59
              /\ 0 <= (Sec mod 3600) mod 60 <= 59)
    by (Z.to_euclidean_division_equations; lia).
  unfold valid_fields. rewrite !andb_true_iff, !Z.leb_le. lia.
Qed.

Open Scope string_scope.

(** Every timestamp that the loader derives is a date of the calendar
    with a time of day, in the years 1 to 9999: a frame index that would
    carry the start instant outside that range makes the load raise
    instead. *)
Theorem X10_timestamps_are_calendar_instants
        (name : string) (spot_df out : DataFrame) :
  load_spot_positions name spot_df = Ok out ->
  exists stamps,
    df_get "timestamp" out = Ok (Datetimes stamps)
    /\ Forall (fun ts =>
                 valid_fields (year ts) (month ts) (day ts)
                              (hour ts) (minute ts) (second ts) = true
                 /\ year ts <= 9999
                 /\ 0 <= hour ts /\ 0 <= minute ts /\ 0 <= second ts) stamps.
Proof.
  intros H. apply load_spot_positions_columns in H.
  destruct H as (start_dt & frames & x0 & y0 & xs & ys & stamps
                 & _ & _ & _ & _ & Hts & _ & Hst).
  exists stamps. split; [assumption|]. clear Hts.
  induction Hst as [|frame ts frames stamps H _ IH]; constructor;
    [|exact IH].
  unfold bind in H. destruct (DT.timedelta_minutes frame); [|discriminate].
  now apply add_valid in H.
Qed.

Lemma X10_timestamps_are_calendar_instants_witness :
  exists stamps,
    df_get "timestamp" spot_out_example = Ok (Datetimes stamps)
    /\ Forall (fun ts =>
                 valid_fields (year ts) (month ts) (day ts)
                              (hour ts) (minute ts) (second ts) = true
                 /\ year ts <= 9999
                 /\ 0 <= hour ts /\ 0 <= minute ts /\ 0 <= second ts) stamps.
Proof.
  exact (X10_timestamps_are_calendar_instants _ _ _ spot_out_example_eq).
Defined.

(** A frame index that carries the start instant past the year 9999 is
    refused with an [OverflowError]. *)
Example frame_index_past_year_9999 :
  load_spot_positions "spot_position_99991231_235900.txt"
    [("frame_index", Int64 [0; 1]);
     ("center_x_mm", Float64 [Float.zero; Float.zero]);
     ("center_y_mm", Float64 [Float.zero; Float.zero]);
     ("minor_axis_mm", Float64 [Float.zero; Float.zero]);
     ("major_axis_mm", Float64 [Float.zero; Float.zero]);
     ("angle_deg", Float64 [Float.zero; Float.zero])]
  = Raise OverflowError.
Proof. vm_compute. reflexivity. Qed.

(** Frame order is time order: of two rows, the one with the larger
    frame index has the later timestamp, and two rows have the same
    timestamp exactly when they have the same frame index. *)
Theorem X11_frame_order_is_time_order
        (name : string) (spot_df out : DataFrame)
        (frames : list Z) (stamps : list datetime)
        (i j : nat) (fi fj : Z) (ti tj : datetime) :
  load_spot_positions name spot_df = Ok out ->
  df_get "frame_index" out = Ok (Int64 frames) ->
  df_get "timestamp" out = Ok (Datetimes stamps) ->
  nth_error frames i = Some fi -> nth_error stamps i = Some ti ->
  nth_error frames j = Some fj -> nth_error stamps j = Some tj ->
  (fi < fj <-> DT.total_seconds ti < DT.total_seconds tj)
  /\ (fi = fj <-> ti = tj).
Proof.
  intros H Hf Hs Hfi Hti Hfj Htj. apply load_spot_positions_columns in H.
  destruct H as (start_dt & frames' & x0 & y0 & xs & ys & stamps'
                 & _ & Hf' & _ & _ & Hs' & _ & Hst).
  rewrite Hf in Hf'. injection Hf' as <-.
  rewrite Hs in Hs'. injection Hs' as <-.
  assert (Hnth : forall k f t, nth_error frames k = Some f ->
                               nth_error stamps k = Some t ->
                  (td <- DT.timedelta_minutes f ;; DT.add start_dt td) = Ok t).
  { clear - Hst. induction Hst as [|f0 t0 frames stamps H0 _ IH];
      intros [|k] f t; cbn [nth_error]; try discriminate.
    - now intros [= <-] [= <-].
    - apply IH. }
  pose proof (Hnth _ _ _ Hfi Hti) as Ai. pose proof (Hnth _ _ _ Hfj Htj) as Aj.
  pose proof (add_minutes_total_seconds _ _ _ Ai) as Si.
  pose proof (add_minutes_total_seconds _ _ _ Aj) as Sj.
  split; [lia|]. split.
  - intros ->. congruence.
  - intros ->. lia.
Qed.

Lemma X11_frame_order_is_time_order_witness :
  (3 < 1500 <-> DT.total_seconds (mk_datetime 2024 3 1 0 1 0)
                < DT.total_seconds (mk_datetime 2024 3 2 0 58 0))
  /\ (3 = 1500 <-> mk_datetime 2024 3 1 0 1 0 = mk_datetime 2024 3 2 0 58 0).
Proof.
  apply (X11_frame_order_is_time_order _ _ _ [3; 7; 1500]
           [mk_datetime 2024 3 1 0 1 0; mk_datetime 2024 3 1 0 5 0;
            mk_datetime 2024 3 2 0 58 0] 0%nat 2%nat
           3 1500 _ _ spot_out_example_eq); reflexivity.
Defined.

End TimestampProperties.

(** ** Column inference *)

Section ColumnInferenceProperties.
Open Scope string_scope.

Lemma hd_in_mem (t : string) (l : list string) : mem t (t :: l) = true.
Proof. cbn [mem existsb]. now rewrite String.eqb_refl. Qed.

(** Both ways of collecting temperature candidates keep columns of the
    table that are outside the timestamp candidates. *)
Lemma value_candidates_In (P Q : string -> bool) (cands l : list string)
      (v : string) :
  In v (match filter (fun col => negb (mem col cands) && P col) l with
        | [] => filter (fun col => negb (mem col cands) && Q col) l
        | _ :: _ => filter (fun col => negb (mem col cands) && P col) l
        end) ->
  In v l /\ mem v cands = false.
Proof.
  intros Hin.
  assert (H : In v (filter (fun col => negb (mem col cands) && P col) l)
              \/ In v (filter (fun col => negb (mem col cands) && Q col) l)).
  { destruct (filter (fun col => negb (mem col cands) && P col) l);
      [now right | now left]. }
  destruct H as [H|H]; apply filter_In in H as [H1 H2];
    apply andb_true_iff in H2 as [H2 _]; apply negb_true_iff in H2;
    now split.
Qed.

(** What a successful inference returns: the candidates it chose from,
    with the temperature column outside the timestamp candidates. *)
Lemma _identify_temperature_columns_inv (df : DataFrame) (t v : string) :
  _identify_temperature_columns df = Ok (t, v) ->
  In t (columns df) /\ In v (columns df)
  /\ exists cands, mem t cands = true /\ mem v cands = false
                   /\ (forall c, In c (columns df) -> timestamp_like c = true ->
                                 mem c cands = true).
Proof.
  unfold _identify_temperature_columns.
  destruct (filter timestamp_like (columns df)) as [|t0 cands] eqn:Hc.
  - destruct (columns df) as [|col0 cols] eqn:Hcols; [discriminate|].
    cbn [bind]. rewrite <- Hcols.
    match goal with
    | |- match ?l with _ => _ end = _ -> _ => destruct l as [|v0 vs] eqn:Hv
    end; [discriminate|].
    intros [= E1 E2]. rewrite <- E1, <- E2.
    assert (Hin : In v0 (v0 :: vs)) by now left.
    rewrite <- Hv in Hin.
    apply value_candidates_In in Hin as [Hv1 Hv2].
    split; [rewrite Hcols; now left|]. split; [assumption|].
    exists [col0]. split; [apply hd_in_mem|]. split; [assumption|].
    intros c Hcin Hct.
    assert (H : In c (filter timestamp_like (columns df)))
      by (apply filter_In; now split).
    rewrite Hcols, Hc in H. contradiction.
  - cbn [bind].
    match goal with
    | |- match ?l with _ => _ end = _ -> _ => destruct l as [|v0 vs] eqn:Hv
    end; [discriminate|].
    intros [= E1 E2]. rewrite <- E1, <- E2.
    assert (Hin : In v0 (v0 :: vs)) by now left.
    rewrite <- Hv in Hin.
    apply value_candidates_In in Hin as [Hv1 Hv2].
    assert (Ht : In t0 (filter timestamp_like (columns df)))
      by (rewrite Hc; now left).
    apply filter_In in Ht as [Ht _].
    split; [assumption|]. split; [assumption|].
    exists (t0 :: cands). split; [apply hd_in_mem|]. split; [assumption|].
    intros c Hcin Hct. apply mem_In. rewrite <- Hc. apply filter_In.
    now split.
Qed.

(** The two columns that the inference returns are columns of the table
    and are never the same column; the temperature column never has a
    timestamp-like name. *)
Theorem X12_inferred_columns_are_distinct (df : DataFrame) (t v : string) :
  _identify_temperature_columns df = Ok (t, v) ->
  In t (columns df) /\ In v (columns df) /\ t <> v
  /\ timestamp_like v = false.
Proof.
  intros H. apply _identify_temperature_columns_inv in H.
  destruct H as (Ht & Hv & cands & Mt & Mv & Hall).
  split; [assumption|]. split; [assumption|]. split.
  - intros ->. congruence.
  - destruct (timestamp_like v) eqn:E; [|reflexivity].
    rewrite (Hall v Hv E) in Mv. discriminate.
Qed.

Lemma X12_inferred_columns_are_distinct_witness :
  In "Time" ["Time"; "TempC"] /\ In "TempC" ["Time"; "TempC"]
  /\ "Time" <> "TempC" /\ timestamp_like "TempC" = false.
Proof.
  exact (X12_inferred_columns_are_distinct
           [("Time", Object []); ("TempC", Float64 [])] "Time" "TempC"
           eq_refl).
Defined.

(** A table without columns makes the inference raise [IndexError]; a
    table with a single column is always refused with [ValueError],
    whatever the column is called and holds, because the one column is
    taken for the timestamp. *)
Theorem X13_fewer_than_two_columns_raise (df : DataFrame) :
  (columns df = [] -> _identify_temperature_columns df = Raise IndexError)
  /\ (forall c, columns df = [c] ->
        _identify_temperature_columns df = Raise ValueError).
Proof.
  unfold _identify_temperature_columns. split.
  - intros ->. reflexivity.
  - intros c ->. cbn [filter].
    destruct (timestamp_like c); cbn [bind filter mem existsb];
      rewrite String.eqb_refl; reflexivity.
Qed.

Lemma X13_fewer_than_two_columns_raise_witness :
  _identify_temperature_columns [] = Raise IndexError
  /\ _identify_temperature_columns [("temperature", Float64 [])]
     = Raise ValueError.
Proof.
  split.
  - exact (proj1 (X13_fewer_than_two_columns_raise []) eq_refl).
  - exact (proj2 (X13_fewer_than_two_columns_raise
                    [("temperature", Float64 [])]) "temperature" eq_refl).
Defined.

(** The temperature column that the inference returns is never called
    [timestamp] (shared by the loader properties below). *)
Lemma identified_value_column_not_timestamp (df : DataFrame) (t v : string) :
  _identify_temperature_columns df = Ok (t, v) -> v <> "timestamp".
Proof.
  intros H. apply _identify_temperature_columns_inv in H.
  destruct H as (_ & Hv & cands & _ & Mv & Hall).
  intros ->. rewrite (Hall "timestamp" Hv eq_refl) in Mv. discriminate.
Qed.

End ColumnInferenceProperties.

(** ** Sorted lists *)

Section SortAgain.
Context {A : Type}.
Variable key : A -> Z.

Lemma StronglySorted_map {X Y : Type} (R : X -> X -> Prop)
      (R' : Y -> Y -> Prop) (f : X -> Y) (l : list X) :
  (forall a b, R a b -> R' (f a) (f b)) ->
  StronglySorted R l -> StronglySorted R' (map f l).
Proof.
  intros Hf. induction 1 as [|a l Hs IH Ha]; cbn [map]; constructor.
  - assumption.
  - apply Forall_forall. intros y Hy. apply in_map_iff in Hy.
    destruct Hy as (b & <- & Hb). apply Hf.
    rewrite Forall_forall in Ha. now apply Ha.
Qed.

End SortAgain.

(** ** The temperature log loader *)

Section TemperatureProperties.
Variable datetime_of_scalar : Series -> value -> option Z.
Variable float_of_text : string -> option float.
Open Scope string_scope.

(** What a successful load went through, with both conversions. *)
Lemma load_temperature_data_rows (temp_df : DataFrame)
      (out : list (Z * float)) :
  load_temperature_data datetime_of_scalar float_of_text temp_df = Ok out ->
  exists (timestamp_col temperature_col : string)
         (ts_series value_series : Series)
         (stamps : list (option Z)) (temps : list float),
    _identify_temperature_columns temp_df = Ok (timestamp_col, temperature_col)
    /\ df_get timestamp_col temp_df = Ok ts_series
    /\ to_datetime datetime_of_scalar ts_series = Ok stamps
    /\ df_get temperature_col temp_df = Ok value_series
    /\ to_numeric_coerce float_of_text value_series = Ok temps
    /\ out = sort_values fst (dropna (combine stamps temps)).
Proof.
  unfold load_temperature_data. unfold bind at 1.
  destruct (_identify_temperature_columns temp_df) as [[tc vc]|] eqn:Hid;
    [|discriminate].
  unfold bind at 1.
  destruct (df_get tc temp_df) as [ts_series|] eqn:Hts; [|discriminate].
  unfold bind at 1.
  destruct (to_datetime _ ts_series) as [stamps|] eqn:Hst; [|discriminate].
  assert (Hvc : ("timestamp" =? vc) = false).
  { apply String.eqb_neq. intros E. symmetry in E. revert E.
    exact (identified_value_column_not_timestamp _ _ _ Hid). }
  rewrite (df_get_set_other vc "timestamp" _ _ Hvc).
  unfold bind at 1.
  destruct (df_get vc temp_df) as [vs|] eqn:Hvs; [|discriminate].
  unfold bind at 1.
  destruct (to_numeric_coerce _ vs) as [xs|] eqn:Hxs; [|discriminate].
  unfold timestamps_column, float_column.
  rewrite df_get_set_other by reflexivity.
  rewrite !df_get_set_same. cbn [bind]. intros [= <-].
  exists tc, vc, ts_series, vs, stamps, xs. now repeat split.
Qed.

(** The loader returns exactly the rows of the table whose timestamp
    cell is present and whose temperature cell converts to a number,
    each as often as it occurs: sorting and dropping neither invent nor
    repeat nor lose such a row. *)
Theorem X14_loader_keeps_exactly_the_converted_rows
        (temp_df : DataFrame) (out : list (Z * float)) :
  load_temperature_data datetime_of_scalar float_of_text temp_df = Ok out ->
  exists (timestamp_col temperature_col : string)
         (ts_series value_series : Series)
         (stamps : list (option Z)) (temps : list float),
    _identify_temperature_columns temp_df = Ok (timestamp_col, temperature_col)
    /\ df_get timestamp_col temp_df = Ok ts_series
    /\ to_datetime datetime_of_scalar ts_series = Ok stamps
    /\ df_get temperature_col temp_df = Ok value_series
    /\ to_numeric_coerce float_of_text value_series = Ok temps
    /\ Permutation out (dropna (combine stamps temps))
    /\ (forall t x, In (t, x) out <->
                    In (Some t, x) (combine stamps temps)
                    /\ Float.is_nan x = false).
Proof.
  intros H. apply load_temperature_data_rows in H.
  destruct H as (tc & vc & ts_series & vs & stamps & temps
                 & Hid & Hts & Hst & Hvs & Hxs & ->).
  exists tc, vc, ts_series, vs, stamps, temps.
  repeat (split; [assumption|]).
  split; [apply sort_values_perm|].
  intros t x. rewrite <- In_dropna. split; intros Hin.
  - eapply Permutation_in; [apply sort_values_perm | exact Hin].
  - eapply Permutation_in; [apply Permutation_sym, sort_values_perm
                           | exact Hin].
Qed.

(** The rows that the loader returns are in their final order: when no
    two different rows share a timestamp, every ascending rearrangement
    of them (whatever sort produces it) is the list itself, so sorting
    by timestamp once more, as [plot_r2_vs_temperature] does, hands them
    to the alignment as they are. *)
Theorem X15_loaded_rows_are_not_reordered_again
        (temp_df : DataFrame) (out : list (Z * float)) :
  load_temperature_data datetime_of_scalar float_of_text temp_df = Ok out ->
  timestamp_determines_row out ->
  (forall sorted : list (Z * float),
      Permutation sorted out -> StronglySorted (key_le fst) sorted ->
      sorted = out)
  /\ forall (A : Type) (spot_df : list (Z * A)),
       plot_r2_vs_temperature_merged out spot_df
       = merge_asof (sort_values fst spot_df) out.
Proof.
  intros H Hd. apply load_temperature_data_rows in H.
  destruct H as (tc & vc & ts_series & vs & stamps & temps
                 & _ & _ & _ & _ & _ & ->).
  set (out := sort_values fst (dropna (combine stamps temps))) in *.
  assert (Hall : forall sorted : list (Z * float),
             Permutation sorted out -> StronglySorted (key_le fst) sorted ->
             sorted = out).
  { intros sorted Hp Hs. symmetry.
    apply sorted_perm_unique;
      [apply sort_values_sorted | exact Hs | now apply Permutation_sym
      | exact Hd]. }
  split; [exact Hall|].
  intros A spot_df. unfold plot_r2_vs_temperature_merged.
  now rewrite (Hall (sort_values fst out) (sort_values_perm fst out)
                    (sort_values_sorted fst out)).
Qed.

End TemperatureProperties.

Section TemperaturePropertiesExamples.
Open Scope string_scope.

Lemma X14_loader_keeps_exactly_the_converted_rows_witness :
  exists (timestamp_col temperature_col : string)
         (ts_series value_series : Series)
         (stamps : list (option Z)) (temps : list float),
    _identify_temperature_columns temp_df_bad_temperature
    = Ok (timestamp_col, temperature_col)
    /\ df_get timestamp_col temp_df_bad_temperature = Ok ts_series
    /\ to_datetime iso_datetime_of_scalar ts_series = Ok stamps
    /\ df_get temperature_col temp_df_bad_temperature = Ok value_series
    /\ to_numeric_coerce py_float_of_text value_series = Ok temps
    /\ Permutation
         [(DT.total_seconds (mk_datetime 2024 1 1 0 0 0),
           Float.of_decimal false 215 (-1));
          (DT.total_seconds (mk_datetime 2024 1 1 0 2 0),
           Float.of_decimal false 219 (-1))]
         (dropna (combine stamps temps))
    /\ (forall t x,
           In (t, x)
              [(DT.total_seconds (mk_datetime 2024 1 1 0 0 0),
                Float.of_decimal false 215 (-1));
               (DT.total_seconds (mk_datetime 2024 1 1 0 2 0),
                Float.of_decimal false 219 (-1))]
           <-> In (Some t, x) (combine stamps temps)
               /\ Float.is_nan x = false).
Proof.
  exact (X14_loader_keeps_exactly_the_converted_rows
           iso_datetime_of_scalar py_float_of_text
           temp_df_bad_temperature _ load_temperature_data_drops_rows).
Defined.

Lemma X15_loaded_rows_are_not_reordered_again_witness :
  plot_r2_vs_temperature_merged
    [(DT.total_seconds (mk_datetime 2024 1 1 0 0 0),
      Float.of_decimal false 215 (-1));
     (DT.total_seconds (mk_datetime 2024 1 1 0 2 0),
      Float.of_decimal false 219 (-1))]
    frames_example
  = merge_asof (sort_values fst frames_example)
      [(DT.total_seconds (mk_datetime 2024 1 1 0 0 0),
        Float.of_decimal false 215 (-1));
       (DT.total_seconds (mk_datetime 2024 1 1 0 2 0),
        Float.of_decimal false 219 (-1))].
Proof.
  apply (fun Hd =>
           proj2 (X15_loaded_rows_are_not_reordered_again
                    iso_datetime_of_scalar py_float_of_text
                    temp_df_bad_temperature _
                    load_temperature_data_drops_rows Hd)
                 Z frames_example).
  intros a b [<-|[<-|[]]] [<-|[<-|[]]] E;
    try reflexivity; vm_compute in E; discriminate E.
Defined.

End TemperaturePropertiesExamples.

(** ** The time aligner *)

Section AlignerProperties.
Context {A B : Type}.

(** The aligned samples are the spot frames in timestamp order, whatever
    order the frames came in. *)
Theorem X16_aligned_samples_in_time_order
        (temp_df : list (Z * B)) (spot_df : list (Z * A))
        (merged : list ((Z * A) * option (Z * B))) :
  plot_r2_vs_temperature_merged temp_df spot_df = Ok merged ->
  map fst merged = sort_values fst spot_df
  /\ StronglySorted (key_le (fun m => fst (fst m))) merged.
Proof.
  rewrite merged_eq. intros [= <-]. split.
  - rewrite map_map. cbn [fst]. apply map_id.
  - apply StronglySorted_map with (R := key_le fst);
      [|apply sort_values_sorted].
    intros a b Hab. exact Hab.
Qed.

(** A frame taken at the very instant of a reading gets a reading of
    that instant attached. *)
Theorem X17_simultaneous_reading_is_attached
        (temp_df : list (Z * B)) (spot_df : list (Z * A))
        (merged : list ((Z * A) * option (Z * B)))
        (s : Z * A) (o : option (Z * B)) (r : Z * B) :
  plot_r2_vs_temperature_merged temp_df spot_df = Ok merged ->
  In (s, o) merged -> In r temp_df -> fst r = fst s ->
  exists r', o = Some r' /\ In r' temp_df /\ fst r' = fst s.
Proof.
  rewrite merged_eq. intros [= <-] Hin Hr E.
  apply in_map_iff in Hin. destruct Hin as (l & [= -> <-] & _).
  assert (Hr' : In r (sort_values fst temp_df))
    by (eapply Permutation_in;
        [apply Permutation_sym, sort_values_perm | exact Hr]).
  pose proof (asof_nearest_spec (fst s) (sort_values fst temp_df)
                                (sort_values_sorted fst temp_df)) as Hn.
  destruct (asof_nearest (fst s) (sort_values fst temp_df)) as [r'|].
  - destruct Hn as [Hin Hmin]. exists r'. split; [reflexivity|]. split.
    + eapply Permutation_in; [apply sort_values_perm | exact Hin].
    + specialize (Hmin r Hr'). lia.
  - rewrite Hn in Hr'. contradiction.
Qed.

(** Along the aligned samples the attached readings never go back in
    time: a later frame is never given an earlier reading than a frame
    before it. *)
Theorem X18_attached_readings_never_go_back
        (temp_df : list (Z * B)) (spot_df : list (Z * A))
        (merged : list ((Z * A) * option (Z * B))) :
  plot_r2_vs_temperature_merged temp_df spot_df = Ok merged ->
  StronglySorted readings_in_order merged.
Proof.
  rewrite merged_eq. intros [= <-].
  apply StronglySorted_map with (R := key_le fst);
    [|apply sort_values_sorted].
  intros a b Hab. unfold key_le in Hab. unfold readings_in_order. cbn [snd].
  destruct (Z.eq_dec (fst a) (fst b)) as [E|NE].
  - rewrite E. destruct (asof_nearest (fst b) _); [lia | exact I].
  - pose proof (asof_nearest_spec (fst a) (sort_values fst temp_df)
                                  (sort_values_sorted fst temp_df)) as Ha.
    pose proof (asof_nearest_spec (fst b) (sort_values fst temp_df)
                                  (sort_values_sorted fst temp_df)) as Hb.
    destruct (asof_nearest (fst a) _) as [r1|]; [|exact I].
    destruct (asof_nearest (fst b) _) as [r2|]; [|exact I].
    destruct Ha as [H1 M1], Hb as [H2 M2].
    specialize (M1 r2 H2). specialize (M2 r1 H1). lia.
Qed.

End AlignerProperties.

Section AlignerPropertiesExamples.

Lemma X16_aligned_samples_in_time_order_witness :
  map fst [((2, 0), Some (0, 219)); ((4, 2), Some (4, 217));
           ((7, 1), Some (4, 217))]
  = sort_values fst frames_example
  /\ StronglySorted (key_le (fun m : (Z * Z) * option (Z * Z) => fst (fst m)))
       [((2, 0), Some (0, 219)); ((4, 2), Some (4, 217));
        ((7, 1), Some (4, 217))].
Proof.
  exact (X16_aligned_samples_in_time_order
           readings_example frames_example _ eq_refl).
Defined.

Lemma X17_simultaneous_reading_is_attached_witness :
  exists r', Some (4, 217) = Some r' /\ In r' readings_example
             /\ fst r' = fst (4, 2).
Proof.
  apply (X17_simultaneous_reading_is_attached
           readings_example frames_example
           [((2, 0), Some (0, 219)); ((4, 2), Some (4, 217));
            ((7, 1), Some (4, 217))]
           (4, 2) (Some (4, 217)) (4, 217)).
  - reflexivity.
  - simpl. right. left. reflexivity.
  - simpl. right. right. left. reflexivity.
  - reflexivity.
Defined.

Lemma X18_attached_readings_never_go_back_witness :
  StronglySorted readings_in_order
    [((2, 0), Some (0, 219)); ((4, 2), Some (4, 217));
     ((7, 1), Some (4, 217))].
Proof.
  exact (X18_attached_readings_never_go_back
           readings_example frames_example _ eq_refl).
Defined.

End AlignerPropertiesExamples.

(** ** The sign of the shift *)

Section ShiftSign.

(** Rounding keeps the sign it is given. *)
Lemma binary_round_aux_sign (sx : bool) (mx ex : Z) (lx : location) :
  match binary_round_aux Float.prec Float.emax sx mx ex lx with
  | S754_nan => True
  | S754_zero s | S754_infinity s | S754_finite s _ _ => s = sx
  end.
Proof.
  unfold binary_round_aux.
  destruct (shr_fexp Float.prec Float.emax mx ex lx) as [mrs' e'].
  destruct (shr_fexp _ _ _ _ _) as [mrs'' e''].
  destruct (shr_m mrs''); [reflexivity | | exact I].
  destruct (_ <=? _); reflexivity.
Qed.

Lemma binary_round_sign (sx : bool) (mx : positive) (ex : Z) :
  match binary_round Float.prec Float.emax sx mx ex with
  | S754_nan => True
  | S754_zero s | S754_infinity s | S754_finite s _ _ => s = sx
  end.
Proof.
  unfold binary_round.
  destruct (shl_align _ _ _) as [mz ez].
  apply binary_round_aux_sign.
Qed.

(** A product of a float with itself is not below zero. *)
Lemma mul_self_sign (d : float) : sign_clear_or_nan (Float.mul d d) = true.
Proof.
  destruct d as [s|s| |s m e]; cbn [Float.mul SFmul sign_clear_or_nan];
    try reflexivity; try (now destruct s).
  pose proof (binary_round_aux_sign (xorb s s) (Z.pos (m * m)) (e + e)
                                    loc_Exact) as H.
  unfold Float.mul, SFmul.
  destruct (binary_round_aux _ _ _ _ _ _) as [s'|s'| |s' m' e'];
    cbn [sign_clear_or_nan]; try reflexivity; subst s'; now destruct s.
Qed.

(** So is a sum of two floats that are not below zero. *)
Lemma add_sign (x y : float) :
  sign_clear_or_nan x = true -> sign_clear_or_nan y = true ->
  sign_clear_or_nan (Float.add x y) = true.
Proof.
  unfold Float.add.
  destruct x as [sx|sx| |sx mx ex]; destruct y as [sy|sy| |sy my ey];
    cbn [sign_clear_or_nan SFadd]; intros Hx Hy;
    try apply negb_true_iff in Hx; try apply negb_true_iff in Hy;
    subst; cbn [Bool.eqb sign_clear_or_nan negb]; try reflexivity.
  cbv zeta. cbn [cond_Zopp Z.add].
  unfold binary_normalize.
  match goal with
  | |- sign_clear_or_nan (binary_round _ _ false ?m ?e) = true =>
      pose proof (binary_round_sign false m e) as H;
      destruct (binary_round Float.prec Float.emax false m e)
        as [s'|s'| |s' m' e']
  end; cbn [sign_clear_or_nan]; try reflexivity; now subst s'.
Qed.

Lemma r_squared_sign (reference_x reference_y x y : float) :
  sign_clear_or_nan (r_squared reference_x reference_y x y) = true.
Proof. unfold r_squared. apply add_sign; apply mul_self_sign. Qed.

Lemma Forall_map2 {X Y W : Type} (P : W -> Prop) (f : X -> Y -> W)
      (la : list X) (lb : list Y) :
  (forall a b, P (f a b)) -> Forall P (map2 f la lb).
Proof.
  intros Hf. revert lb. induction la as [|a la IH]; intros [|b lb];
    cbn [map2]; constructor; [apply Hf | apply IH].
Qed.

Open Scope string_scope.

(** No shift that the spot loader writes is below zero: every value of
    the [r_squared_shift_mm2] column has its sign bit clear (a number
    from +0 up, or +infinity) or is not a number. *)
Theorem X19_shift_is_never_negative (name : string) (spot_df out : DataFrame) :
  load_spot_positions name spot_df = Ok out ->
  exists r2 : list float,
    df_get "r_squared_shift_mm2" out = Ok (Float64 r2)
    /\ Forall (fun x => sign_clear_or_nan x = true) r2.
Proof.
  intros H. apply load_spot_positions_columns in H.
  destruct H as (start_dt & frames & x0 & y0 & xs & ys & stamps
                 & _ & _ & _ & _ & _ & Hr & _).
  eexists. split; [exact Hr|].
  apply Forall_map2. intros a b. apply r_squared_sign.
Qed.

Lemma X19_shift_is_never_negative_witness :
  exists r2 : list float,
    df_get "r_squared_shift_mm2" spot_out_example = Ok (Float64 r2)
    /\ Forall (fun x => sign_clear_or_nan x = true) r2.
Proof.
  exact (X19_shift_is_never_negative _ _ _ spot_out_example_eq).
Defined.

End ShiftSign.

(** ** What can abort the temperature load *)

Section TemperatureLoadSucceeds.
Variable datetime_of_scalar : Series -> value -> option Z.
Variable float_of_text : string -> option float.
Open Scope string_scope.

(** Once the two columns are found and every timestamp cell that is
    present converts, the load succeeds whatever the temperature cells
    hold: a temperature cell never aborts the load. *)
Theorem X20_temperature_cells_never_abort
        (temp_df : DataFrame) (timestamp_col temperature_col : string)
        (ts_series value_series : Series) (stamps : list (option Z)) :
  _identify_temperature_columns temp_df = Ok (timestamp_col, temperature_col) ->
  df_get timestamp_col temp_df = Ok ts_series ->
  to_datetime datetime_of_scalar ts_series = Ok stamps ->
  df_get temperature_col temp_df = Ok value_series ->
  from_read_csv value_series = true ->
  exists temps : list float,
    to_numeric_coerce float_of_text value_series = Ok temps
    /\ load_temperature_data datetime_of_scalar float_of_text temp_df
       = Ok (sort_values fst (dropna (combine stamps temps))).
Proof.
  intros Hid Hts Hst Hvs Hcsv.
  assert (Hx : exists temps,
             to_numeric_coerce float_of_text value_series = Ok temps).
  { destruct value_series; try discriminate; cbn [to_numeric_coerce];
      eexists; reflexivity. }
  destruct Hx as [temps Hx]. exists temps. split; [exact Hx|].
  unfold load_temperature_data.
  rewrite Hid. cbn [bind]. rewrite Hts. cbn [bind]. rewrite Hst. cbn [bind].
  assert (Hvc : ("timestamp" =? temperature_col) = false).
  { apply String.eqb_neq. intros E. symmetry in E. revert E.
    exact (identified_value_column_not_timestamp _ _ _ Hid). }
  rewrite (df_get_set_other temperature_col "timestamp" _ _ Hvc).
  rewrite Hvs. cbn [bind]. rewrite Hx. cbn [bind].
  unfold timestamps_column, float_column.
  rewrite df_get_set_other by reflexivity.
  rewrite !df_get_set_same. reflexivity.
Qed.

End TemperatureLoadSucceeds.

Section TemperatureLoadSucceedsExample.
Open Scope string_scope.

Lemma X20_temperature_cells_never_abort_witness :
  exists temps : list float,
    to_numeric_coerce py_float_of_text
      (Object [Some "21.9"; Some "21.7"; Some "abc"; Some "21.5"]) = Ok temps
    /\ load_temperature_data iso_datetime_of_scalar py_float_of_text
                             temp_df_bad_temperature
       = Ok (sort_values fst
               (dropna
                  (combine
                     [Some (DT.total_seconds (mk_datetime 2024 1 1 0 2 0));
                      None;
                      Some (DT.total_seconds (mk_datetime 2024 1 1 0 1 0));
                      Some (DT.total_seconds (mk_datetime 2024 1 1 0 0 0))]
                     temps))).
Proof.
  apply (X20_temperature_cells_never_abort
           iso_datetime_of_scalar py_float_of_text temp_df_bad_temperature
           "Time" "TempC"
           (Object [Some "2024-01-01 00:02:00"; None;
                    Some "2024-01-01 00:01:00"; Some "2024-01-01 00:00:00"])).
  - reflexivity.
  - reflexivity.
  - vm_compute. reflexivity.
  - reflexivity.
  - reflexivity.
Defined.

End TemperatureLoadSucceedsExample.

(** ** Every row of the spot file *)

Section FrameRows.
Open Scope string_scope.

Lemma Forall2_map_left {X Y W : Type} (R : Y -> W -> Prop) (f : X -> Y)
      (l : list X) (l' : list W) :
  Forall2 (fun x w => R (f x) w) l l' -> Forall2 R (map f l) l'.
Proof. induction 1; cbn [map]; constructor; assumption. Qed.

(** [astype(int)] converts the column cell by cell, in order. *)
Lemma astype_int_cells (s : Series) (frames : list Z) :
  astype_int s = Ok frames ->
  Forall2 (fun cell frame => frame_of_cell cell = Ok frame) (items s) frames.
Proof.
  destruct s as [l|l|l|l|l]; cbn [astype_int items]; try discriminate.
  - intros [= <-]. apply Forall2_map_left.
    induction l; constructor; [reflexivity | assumption].
  - intros H. apply mapM_Forall2 in H. apply Forall2_map_left.
    eapply Forall2_impl; [|exact H].
    intros x n Hx. cbn [frame_of_cell]. exact Hx.
  - intros H. apply mapM_Forall2 in H. apply Forall2_map_left.
    eapply Forall2_impl; [|exact H].
    intros [t|] n Hc; cbn [frame_of_cell]; [exact Hc | discriminate Hc].
Qed.

(** C5.  For every spot file that the loader accepts and every row of
    it, in the order of the file: the frame index of the result is the
    whole number that the row's frame index cell denotes, and the
    derived timestamp is the start instant parsed from the file name
    plus that many whole minutes exactly, whatever the frame indices are
    (they need not start at 0 nor be consecutive): on the time line,
    counted in seconds, the timestamp lies [60 * frame_index] after the
    start.  The result has one frame index and one timestamp per row of
    the file. *)
Theorem C5_timestamp_is_start_plus_minutes
        (name : string) (spot_df out : DataFrame) :
  load_spot_positions name spot_df = Ok out ->
  exists (start_dt : datetime) (fi : Series)
         (frames : list Z) (stamps : list datetime),
    parse_spot_start_datetime name = Ok start_dt
    /\ df_get "frame_index" spot_df = Ok fi
    /\ Forall2 (fun cell frame => frame_of_cell cell = Ok frame)
               (items fi) frames
    /\ df_get "frame_index" out = Ok (Int64 frames)
    /\ df_get "timestamp" out = Ok (Datetimes stamps)
    /\ Forall2 (fun frame ts =>
                  DT.total_seconds ts
                  = DT.total_seconds start_dt + 60 * frame) frames stamps.
Proof.
  intros H. apply load_spot_positions_steps in H.
  destruct H as (start_dt & fi & frames & df & stamps & r2
                 & Hp & _ & Hfi & Hint & Hfor & Hst & ->).
  exists start_dt, fi, frames, stamps.
  split; [exact Hp|]. split; [exact Hfi|].
  split; [now apply astype_int_cells|].
  split.
  - rewrite df_get_set_other by reflexivity.
    rewrite df_get_set_other by reflexivity.
    rewrite (for_each_clean_other (tl required_columns) "frame_index"
                                  eq_refl _ _ Hfor).
    apply df_get_set_same.
  - split.
    + rewrite df_get_set_other by reflexivity. apply df_get_set_same.
    + apply mapM_Forall2 in Hst.
      eapply Forall2_impl; [|exact Hst].
      intros frame ts Hts. now apply add_minutes_total_seconds.
Qed.

Lemma C5_timestamp_is_start_plus_minutes_witness :
  exists (start_dt : datetime) (fi : Series)
         (frames : list Z) (stamps : list datetime),
    parse_spot_start_datetime "spot_position_20240229_235800.txt"
    = Ok start_dt
    /\ df_get "frame_index" spot_df_example = Ok fi
    /\ Forall2 (fun cell frame => frame_of_cell cell = Ok frame)
               (items fi) frames
    /\ df_get "frame_index" spot_out_example = Ok (Int64 frames)
    /\ df_get "timestamp" spot_out_example = Ok (Datetimes stamps)
    /\ Forall2 (fun frame ts =>
                  DT.total_seconds ts
                  = DT.total_seconds start_dt + 60 * frame) frames stamps.
Proof.
  exact (C5_timestamp_is_start_plus_minutes _ _ _ spot_out_example_eq).
Defined.

(** The frame indices of the example are those of its file: 3, 7 and
    1500. *)
Example spot_out_example_frames :
  df_get "frame_index" spot_df_example = Ok (Int64 [3; 7; 1500])
  /\ df_get "frame_index" spot_out_example = Ok (Int64 [3; 7; 1500]).
Proof. split; reflexivity. Qed.

End FrameRows.
